(* ===== verification/_CoqProject ===== *)
-Q . S2P
Prelude.v
PyStr.v
Escape.v
Regex.v
World.v
Registry.v
Htaccess.v
Roundtrip.v
Ports.v
Shell.v
Lifecycle.v
Expect.v
Argparse.v
Report.v
Sh.v
Stop.v
Concurrency.v
Cli.v
