(* ===== verification/Prelude.v ===== *)
(** * Mailpile's multi-user admin tool, scripts/mailpile-admin.py, in Rocq

    The program.  [mailpile-admin.py] (src/scripts/mailpile-admin.py, one
    Python 2 file) manages one Mailpile server per Unix user behind an
    Apache reverse proxy.  Its parts, and how they use each other:
    - process discovery: [_parse_ps] and [_parse_netstat] read the output
      of [ps auxw] and [netstat -ant --program] with regular expressions;
      [discover_mailpiles] joins them by pid into the registry;
    - the route store: [parse_htaccess] reads the proxy rules of
      /var/lib/mailpile/apache/.htaccess into the registry;
      [save_htaccess] renders the registry (one rule per user, through
      [_escape] and two templates) and replaces the file;
    - the registry: the dict [mailpiles] from ["host:port"] to
      [(user, host, port, in_htaccess, pid, rss)], built by
      [_get_mailpiles] (routes, then live processes);
    - the lifecycle: [get_user_settings] chooses the port (a registered one
      or [_get_random_port]), [start_mailpile] and [stop_mailpile] run shell
      scripts through [run_script] ([os.system]) or [run_as_user] (expect),
      and [start_mailpile] then records the instance and saves the routes;
      [install_apache] installs the proxy and rewrites the routes;
    - the entry points: [main] parses the command line with the argparse
      parser [app_arguments] builds and dispatches on the action;
      [handle_cgi_post] checks the posted form, prints the redirect and
      parses a [--start] command line made of the posted fields.

    The library (root S2P), in dependency order:
    - Prelude.v (this file): Python's exceptions [exn], the outcome type
      [res], the state-and-exception monad [PyM] with its notations
      (scope [py_scope]), loops [py_for]/[py_fold], the [preserves]
      invariant combinators, the hint databases [mailpile] (resolve) and
      [pysimp] (rewrite), the tactics [py_run] and [vm_decide], and
      string lemmas.
    - PyStr.v: the Python 2 [str] operations the script calls (strip,
      split, splitlines, file-line iteration, replace, endswith,
      os.path.join, int(), '%s' % int, sorted), with the lemmas on
      stripping, suffixes and sorting the other files use.
    - Escape.v: [_escape] (json.dumps of the ASCII-decoded string without
      its quotes), [_escaped], and [template % dict] ([py_format]) with the
      lemmas that evaluate a template piece by piece.
    - Regex.v: Python's [re.match] as a structural backtracking matcher
      in continuation-passing style, with Python's priorities (greedy,
      lazy, left alternative first) and groups; forward lemmas that
      compute a match part by part and backward lemmas that say what a
      successful match consumed.
    - World.v: the machine seen by the script: files, the two commands'
      outputs, printed lines, random draws, uid, accounts, the command log;
      the primitive effects ([open], [os.remove], [os.rename],
      [random.randint], ...); the output invariant [out_mono] (printed
      lines are only appended) with its hint database [outmono].
    - Registry.v: [_parse_ps], [_parse_netstat], [discover_mailpiles],
      [parse_htaccess], [_get_mailpiles]; the reconciliation specification
      [reconciled] and its refinement theorem; the key invariant
      [registry_wf].
    - Htaccess.v: the templates and [save_htaccess]; the dedup-by-user
      specification [first_per_user]; the file written, and the failures.
    - Roundtrip.v: the lines of the file [save_htaccess] writes and their
      match by [parse_htaccess]'s pattern: the routes read back.
    - Ports.v: [_get_random_port] (one netstat generator shared by the 100
      tries, as in the code) and the port choice of [get_user_settings]
      ([choose_port]: [--port], else the user's lowest registered port,
      else a random one).
    - Shell.v: the typeclass [Shell] for the external programs
      ([os.system], [subprocess.Popen(['expect', '-'])] and
      [communicate]), with its laws (a started program is recorded in the
      world's command log, printed lines are untouched); [table_shell] is
      an instance whose commands only have a status from a table.
    - Lifecycle.v: the shell scripts, the parsed arguments (a record: what
      argparse returns), [get_os_settings], [get_user_settings],
      [run_script], [run_as_user], [usage], [install_apache],
      [start_mailpile] and [stop_mailpile], each over any [Shell].
    - Expect.v: what [run_as_user] writes to expect: the expect script
      with the JSON-escaped user, password and command, and Tcl's command
      substitution ([tcl_substs]) on it.
    - Argparse.v: the parser of [app_arguments] (its option strings, the
      required mutually exclusive group, flags and value options) and
      Python 2.7 argparse's [parse_args] on it: the classification of
      each argument ([_parse_optional]: exact, abbreviated and [=value]
      options, negative numbers, [--]) and the consumption loop with its
      errors (exit 2) and [-h] (exit 0).
    - Report.v: [list_mailpiles], the [--list] table with Python's
      [%-W.Ps] field formatting.
    - Sh.v: what [os.system] runs: a lexer, a parser and an evaluator for
      the part of /bin/sh the stop scripts use (words, double quotes, [;],
      [&&], [||], subshells) and the programs [kill] (SIGTERM, [-INT],
      [-9]), [sleep], [rm -f], [true] and [false], over the files and the
      world's process table [w_sys] (each process exits at a time its
      signals schedule; [sleep] advances the clock and removes the
      processes due); [sys_shell] is the [Shell] instance that runs them.
    - Stop.v: the formatted lines of [MAILPILE_STOP_SCRIPT] and
      [MAILPILE_FORCE_STOP_SCRIPT], what each does under [sys_shell], and
      the stop machine [stop_effect]/[force_effect] that [stop_mailpile]
      refines.
    - Concurrency.v: invocations as processes of atomic steps on the
      shared world, schedules and the interleaving relation [cstep];
      [start_mailpile] as two steps (its read of the routes, then the
      rest); [save_htaccess] as three (write, remove, rename).
    - Cli.v: [main] (parse, then dispatch), [handle_cgi_post] and the
      [__main__] block.

    What the theorems show (the manifest PROJECT.json lists them, C1...):
    - reconciliation: the discovery loop computes the union merge keyed by
      host:port in every iteration order of the Python dicts (a refinement
      of the declarative [reconciled], for any processes whose listening
      ones have distinct primary host:ports); the whole registry build
      returns it,
      keeps every record under its own host:port, and building twice gives
      the same registry;
    - routes: [save_htaccess] writes exactly one rule per user (the first
      record in iteration order), reports every other record, and replaces
      the file by the rendered template; reading that file back with
      [parse_htaccess] gives exactly the records kept when user names are
      [[a-z][a-z0-9]*], and for any other readable name gives the
      [[a-z0-9]] run after its leading characters outside [[a-z]]
      ([read_user]: [bob_x] reads back as [bob], [Alice] as [lice]);
      [_escape] loses nothing (JSON round trip) and yields
      printable ASCII only;
    - ports: the allocator returns a number in [34110, 64110] and is
      total when netstat lists fewer than 100 rows; without [--port] a
      registered user gets their lowest port without a draw or netstat;
    - lifecycle: when each command has an exit status, [run_script] runs
      exactly the lines up to the first one whose status is not 0,
      printing each before it, then the failure line of that status (or
      the success line), and returns normally; [--install-apache] by
      another user than root exits with status 3 before anything else;
      [--list] prints one row per record in sorted key order; the
      script's output is append-only on every path (a lemma of Cli.v);
    - stop: without [--force], stopping one's own Mailpile whose pid file
      exists removes the pid file exactly when the process has exited
      (the script's comment: remove the pid file iff shutdown succeeded),
      waiting at most 10 seconds; with [--force] both the process and
      the pid file are gone after at most 30 seconds; no other file is
      touched; a Mailpile that ignores SIGTERM survives a plain stop; a
      stale pid file makes the stop print a failure; along any sequence
      of stops, forced stops and waits (the step relation [stop_step])
      a running Mailpile keeps its pid file, so it stays stoppable;
    - concurrency: [save_htaccess] cut into its three system calls is
      [save_htaccess] when run alone and passes, between [os.remove] and
      [os.rename], through a state without routing file; two such saves
      interleaved cross: one raises [OSError], the other succeeds with
      the failed one's rules.  Lemmas of Concurrency.v (not claims) show
      that a start run alone as a process is [start_mailpile], that
      concurrent starts complete, and, on one schedule
      ([concurrent_starts_lose_update], an example), that two
      interleaved starts lose the first one's route;
    - Python library models (lemmas): [split] is inverted by [join];
      [endswith] agrees with the suffix relation;
    - command line: every [args] value with one action and option values
      that do not start with a dash is what [parse_args] reads back from
      its command line (a round trip through the parser's table), and
      whatever the command line, a namespace [parse_args] returns has
      exactly one action flag, so [main] runs exactly one action;
    - expect: for ASCII values [run_as_user] feeds expect the template with
      the JSON-escaped values, so a password's [[...]] reaches a Tcl word
      where it is a command substitution;
    - divergences from the specification or bugs, proved as theorems: a
      shared host:port makes discovery raise [TypeError]; a missing
      .htaccess makes [save_htaccess] raise [OSError] after writing
      [.htaccess.new], so [--install-apache] on a fresh system never
      writes the routing file nor fixes the permissions; the replacement
      is [os.remove] then [os.rename], so there is a moment without a
      routing file; [_parse_ps] raises [OSError] when ps is missing; the
      allocator can return a port that netstat lists (the generator is not
      restarted between tries); [start_mailpile] saves the routes with the
      new record whatever the launch's exit status; [stop_mailpile]
      without a pid file still runs netstat; [start_mailpile] ignores
      [--host]; a pid file's content reaches the command line of
      [os.system] unchecked, inside double quotes where /bin/sh performs
      command substitution; a CGI
      password reaches Tcl unchecked; the CGI handler can answer with two
      [Location] headers, in particular for every password starting with
      a dash that argparse does not take as the value of [--password]
      ([-secret], [-h], [--]);
      two concurrent saves can cross.

    Modelling choices.  Python dicts are stdpp [gmap]s; their iteration
    order (unspecified in Python 2) is [map_to_list] in the executable
    definitions, and every loop is also defined over an arbitrary
    enumeration list so that its theorems hold for all orders.  A registry
    record remembers whether the script built it as a list or a tuple,
    since item assignment on a tuple raises [TypeError].  Exceptions keep
    the effects made before them.  No fuel is needed anywhere: every
    repetition in the script's regular expressions repeats a one-character
    class, so the matcher recurses structurally on the pattern and the
    input; argparse's loops recurse on the argument list; the port allocator's loop is bounded by its [range(0, 100)].
    Concurrent processes are finite trees of atomic steps ([proc]), so
    every interleaving is finite; a start is cut into two steps at its
    read of the routes, which is coarser than the operating system's
    interleaving (inside a start, the system calls of [save_htaccess] are
    one step; [save_proc] models them as separate steps for saves).

    The shell is a typeclass, so the lifecycle theorems hold for every
    behaviour of the external programs that respects its laws; where a
    theorem needs the programs to leave the files (or the .htaccess)
    alone, that is a hypothesis of its Section, discharged by
    [table_shell] in the witness.

    The stop theorems use the shell of Sh.v: its clock counts the seconds
    of [sleep]; a process is a record of when it exits after SIGTERM and
    after SIGINT (or never), so the theorems hold for every such
    behaviour of the Mailpile server.  They need the pid and the pid
    file's path to be free of double quotes and backslashes (what the
    lexer's lemmas cover); a pid with [$( )] is the finding of
    [stop_runs_planted_pid], not a case of these theorems.

    Not modelled.  cgi.FieldStorage's parsing of the HTTP request
    (library code: the form's fields are an input); argparse's usage and
    help messages (the help is a given text, and errors only print to
    stderr, which the world does not record); the programs other than those of the
    stop scripts (screen, apt-get, a2enmod, apache2ctl, chown, chmod) and
    expect's dialogue with [su], which are outside the repository and
    appear only as the [Shell] interface (their exit status and effect on
    the files), except Tcl's command substitution in Expect.v; the shell's expansions ([$( )], [$VAR], globs), which no
    line the script formats needs for the stop theorems; [time.sleep] in
    the CGI handler (no clock of the script is observed). *)

From Stdlib Require Import String Ascii ZArith Lia.
From stdpp Require Import base list gmap strings.

(** ** Python exceptions

    The exceptions the script raises or catches.  [SystemExit] carries
    the exit status given to [sys.exit]. *)
Inductive exn : Type :=
| AssertionError
| KeyError
| TypeError
| ValueError
| IOError
| OSError
| UnicodeDecodeError
| SystemExit (code : Z).

#[export] Instance exn_eq_dec : EqDecision exn.
Proof. solve_decision. Defined.

(** The outcome of a Python computation: a value or a raised exception. *)
Inductive res (A : Type) : Type :=
| Ok (a : A)
| Exc (e : exn).
Arguments Ok {A} a.
Arguments Exc {A} e.

#[export] Instance res_eq_dec {A} `{EqDecision A} : EqDecision (res A).
Proof. solve_decision. Defined.

(** Decide a closed equation by evaluating its boolean decision: the
    compared values are never normalised as terms. *)
Ltac vm_decide := apply (bool_decide_unpack _); vm_compute; reflexivity.

(** ** The script's monad

    State passing with exceptions.  An exception does not roll back the
    effects performed before it: the state reached at the [raise] is the
    state returned, as in Python. *)
Definition PyM (S A : Type) : Type := S -> res A * S.

Definition ret {S A} (a : A) : PyM S A := fun s => (Ok a, s).

Definition bind {S A B} (m : PyM S A) (f : A -> PyM S B) : PyM S B :=
  fun s => match m s with
           | (Ok a, s') => f a s'
           | (Exc e, s') => (Exc e, s')
           end.

Definition raise {S A} (e : exn) : PyM S A := fun s => (Exc e, s).

Definition get_st {S} : PyM S S := fun s => (Ok s, s).

Definition modify_st {S} (f : S -> S) : PyM S unit := fun s => (Ok tt, f s).

Definition lift_res {S A} (r : res A) : PyM S A := fun s => (r, s).

(** [try: m except: h] *)
Definition try_except {S A} (m : PyM S A) (h : exn -> PyM S A) : PyM S A :=
  fun s => match m s with
           | (Exc e, s') => h e s'
           | r => r
           end.

(** [assert b] *)
Definition py_assert {S} (b : bool) : PyM S unit :=
  if b then ret tt else raise AssertionError.

(** [for x in l: body] *)
Fixpoint py_for {S A} (l : list A) (body : A -> PyM S unit) : PyM S unit :=
  match l with
  | [] => ret tt
  | x :: l' => bind (body x) (fun _ => py_for l' body)
  end.

(** A loop that threads an accumulator (the script's [for] loops that
    append to a list or fill a dict). *)
Fixpoint py_fold {S A B} (f : B -> A -> PyM S B) (l : list A) (b : B) : PyM S B :=
  match l with
  | [] => ret b
  | x :: l' => bind (f b x) (fun b' => py_fold f l' b')
  end.

Declare Scope py_scope.
Delimit Scope py_scope with py.

Notation "x <- m ;; k" := (bind m (fun x => k))
  (at level 100, m at next level, right associativity) : py_scope.
Notation "m ;; k" := (bind m (fun _ => k))
  (at level 100, right associativity) : py_scope.

(** Chaining of pure fallible code. *)
Notation "x <-! r ;; k" := (match r with Ok x => k | Exc e => Exc e end)
  (at level 100, r at next level, right associativity) : py_scope.

(** ** Monad laws and running lemmas *)

Lemma bind_ret_l {S A B} (a : A) (f : A -> PyM S B) s :
  bind (ret a) f s = f a s.
Proof. reflexivity. Qed.

Lemma bind_Ok {S A B} (m : PyM S A) (f : A -> PyM S B) s a s' :
  m s = (Ok a, s') -> bind m f s = f a s'.
Proof. intros H. unfold bind. by rewrite H. Qed.

(** Run the first step of a [bind] with its known outcome [H : m s = (Ok a, s')]. *)
Ltac py_run H := rewrite (bind_Ok _ _ _ _ _ H).

Lemma lift_res_ok {S A} (r : res A) (x : A) (s : S) : r = Ok x -> lift_res r s = (Ok x, s).
Proof. by intros ->. Qed.

Lemma bind_Ok_inv {S A B} (m : PyM S A) (f : A -> PyM S B) s b s' :
  bind m f s = (Ok b, s') -> exists a s1, m s = (Ok a, s1) /\ f a s1 = (Ok b, s').
Proof. unfold bind. destruct (m s) as [[a|e] s1]; [eauto|discriminate]. Qed.

Lemma bind_Exc {S A B} (m : PyM S A) (f : A -> PyM S B) s e s' :
  m s = (Exc e, s') -> bind m f s = (Exc e, s').
Proof. intros H. unfold bind. by rewrite H. Qed.

Lemma bind_assoc {S A B C} (m : PyM S A) (f : A -> PyM S B) (g : B -> PyM S C) s :
  bind (bind m f) g s = bind m (fun a => bind (f a) g) s.
Proof. unfold bind. by destruct (m s) as [[a|e] s']. Qed.

Lemma py_for_app {S A} (l1 l2 : list A) (body : A -> PyM S unit) s :
  py_for (l1 ++ l2) body s = bind (py_for l1 body) (fun _ => py_for l2 body) s.
Proof.
  revert s. induction l1 as [|x l1 IH]; intros s; simpl; [done|].
  rewrite bind_assoc. unfold bind at 1 2.
  destruct (body x s) as [[[]|e] s']; [apply IH|done].
Qed.

(** A state invariant of a computation: from a state satisfying [P], every
    outcome, value or exception, ends in a state satisfying [P]. *)
Definition preserves {S A} (P : S -> Prop) (m : PyM S A) : Prop :=
  forall s, P s -> P (snd (m s)).

Lemma preserves_ret {S A} P (a : A) : @preserves S A P (ret a).
Proof. by intros s. Qed.

Lemma preserves_raise {S A} P e : @preserves S A P (raise e).
Proof. by intros s. Qed.

Lemma preserves_bind {S A B} P (m : PyM S A) (f : A -> PyM S B) :
  preserves P m -> (forall a, preserves P (f a)) -> preserves P (bind m f).
Proof.
  intros Hm Hf s Hs. unfold bind.
  specialize (Hm s Hs). destruct (m s) as [[a|e] s']; simpl in *; [by apply Hf|done].
Qed.

Lemma preserves_for {S A} P (l : list A) (body : A -> PyM S unit) :
  (forall x, preserves P (body x)) -> preserves P (py_for l body).
Proof.
  intros Hb. induction l as [|x l IH]; simpl.
  - apply preserves_ret.
  - apply preserves_bind; auto.
Qed.

Lemma preserves_lift_res {S A} P (r : res A) : @preserves S A P (lift_res r).
Proof. by intros s. Qed.

Lemma preserves_get {S} P : @preserves S S P get_st.
Proof. by intros s. Qed.

Lemma preserves_modify {S} (P : S -> Prop) f : (forall s, P s -> P (f s)) -> preserves P (modify_st f).
Proof. intros Hf s. apply Hf. Qed.

Lemma preserves_try {S A} P (m : PyM S A) h :
  preserves P m -> (forall e, preserves P (h e)) -> preserves P (try_except m h).
Proof.
  intros Hm Hh s Hs. unfold try_except. specialize (Hm s Hs).
  destruct (m s) as [[a|e] s']; simpl in *; [done|by apply Hh].
Qed.

Lemma preserves_fold {S A B} P (f : B -> A -> PyM S B) l :
  (forall b x, preserves P (f b x)) -> forall b, preserves P (py_fold f l b).
Proof.
  intros Hf. induction l as [|x l IH]; intros b; simpl; [apply preserves_ret|].
  apply preserves_bind; auto.
Qed.

Create HintDb mailpile discriminated.
Create Rewrite HintDb pysimp.
#[export] Hint Resolve preserves_ret preserves_raise preserves_bind preserves_for
  preserves_lift_res preserves_get preserves_try preserves_fold : mailpile.
#[export] Hint Rewrite @bind_ret_l @bind_assoc : pysimp.

(** ** Strings *)

Open Scope string_scope.

(** stdpp makes [String.append] opaque to [simpl]; these equations are its
    two defining cases. *)
Lemma append_empty_l (b : string) : "" ++ b = b.
Proof. reflexivity. Qed.

Lemma append_cons (c : ascii) (a b : string) : String c a ++ b = String c (a ++ b).
Proof. reflexivity. Qed.

Lemma append_nil_r (s : string) : s ++ "" = s.
Proof. induction s as [|c s IH]; [done|rewrite append_cons, IH; done]. Qed.

Lemma append_assoc' (a b c : string) : (a ++ b) ++ c = a ++ (b ++ c).
Proof. induction a as [|x a IH]; [done|rewrite !append_cons, IH; done]. Qed.

Lemma length_append' (a b : string) : String.length (a ++ b) = String.length a + String.length b.
Proof. induction a as [|x a IH]; [done|rewrite append_cons; simpl; lia]. Qed.

#[export] Hint Rewrite append_empty_l append_cons append_nil_r append_assoc' length_append' : pysimp.

(** [all p s]: every character of [s] satisfies [p]. *)
Fixpoint str_all (p : ascii -> bool) (s : string) : bool :=
  match s with
  | EmptyString => true
  | String c s' => p c && str_all p s'
  end.

Lemma str_all_app p a b : str_all p (a ++ b) = str_all p a && str_all p b.
Proof. induction a as [|c a IH]; [done|]. rewrite append_cons; simpl. rewrite IH. by destruct (p c). Qed.

#[export] Hint Rewrite str_all_app : pysimp.

Lemma str_all_impl (p q : ascii -> bool) s :
  (forall c, p c = true -> q c = true) -> str_all p s = true -> str_all q s = true.
Proof.
  intros Hpq. induction s as [|c s IH]; [done|]. simpl.
  intros [Hc Hs]%andb_true_iff. by rewrite Hpq, IH.
Qed.

(** [c in s] *)
Fixpoint str_mem (c : ascii) (s : string) : bool :=
  match s with
  | EmptyString => false
  | String d s' => if ascii_dec c d then true else str_mem c s'
  end.

Lemma str_mem_all c s : str_mem c s = negb (str_all (fun d => negb (bool_decide (c = d))) s).
Proof.
  induction s as [|d s IH]; simpl; [done|].
  destruct (ascii_dec c d); case_bool_decide; simpl; congruence.
Qed.

(** The character with the given code. *)
Definition chr (n : nat) : ascii := ascii_of_nat n.
Definition chr_s (n : nat) : string := String (chr n) EmptyString.

(** The double quote and backslash characters, as one-character strings. *)
Definition dq : string := chr_s 34.
Definition bs : string := chr_s 92.
Definition nl : string := chr_s 10.
