(* ===== verification/PyStr.v ===== *)
(** * Python 2 [str] operations used by scripts/mailpile-admin.py

    Byte strings are [String.string]; each operation follows the CPython 2
    behaviour of the method it models: [str.strip], [str.split(sep)],
    [str.splitlines], iteration over a text file, [str.replace],
    [str.endswith], [os.path.join] (posixpath), [int(str)], ['%s' % int]
    and [sorted(list_of_str)].  *)

From Stdlib Require Import String Ascii ZArith Lia Sorted.
From stdpp Require Import base list gmap strings.
From S2P Require Import Prelude.
Open Scope string_scope.

Definition code (c : ascii) : nat := nat_of_ascii c.

(** Character classes of Python 2 byte strings (no UNICODE flag). *)
Definition is_space (c : ascii) : bool :=
  (code c =? 32)%nat || ((9 <=? code c) && (code c <=? 13))%nat.
Definition is_digit (c : ascii) : bool := ((48 <=? code c) && (code c <=? 57))%nat.
Definition is_lower (c : ascii) : bool := ((97 <=? code c) && (code c <=? 122))%nat.
Definition is_ascii7 (c : ascii) : bool := (code c <? 128)%nat.

Fixpoint str_rev (s : string) : string :=
  match s with
  | EmptyString => EmptyString
  | String c s' => str_rev s' ++ String c EmptyString
  end.

(** [str.lstrip()], [str.rstrip()], [str.strip()] *)
Fixpoint lstrip (s : string) : string :=
  match s with
  | String c s' => if is_space c then lstrip s' else s
  | EmptyString => EmptyString
  end.
Definition rstrip (s : string) : string := str_rev (lstrip (str_rev s)).
Definition strip (s : string) : string := rstrip (lstrip s).

(** [s.startswith(p)] and [s.endswith(p)] *)
Definition startswith (s p : string) : bool := String.prefix p s.
Definition endswith (s p : string) : bool := String.prefix (str_rev p) (str_rev s).

(** [s.split(sep)] for a one-character separator: the pieces between the
    separators, [[""]] for the empty string. *)
Fixpoint split_acc (sep : ascii) (cur : string) (s : string) : list string :=
  match s with
  | EmptyString => [str_rev cur]
  | String c s' =>
      if ascii_dec c sep then str_rev cur :: split_acc sep EmptyString s'
      else split_acc sep (String c cur) s'
  end.
Definition split (sep : ascii) (s : string) : list string := split_acc sep EmptyString s.

(** [s.splitlines()] of a Python 2 byte string: breaks at ["\n"], ["\r"]
    and ["\r\n"], drops the terminators, and yields no final empty line. *)
Fixpoint splitlines_acc (cur : string) (s : string) : list string :=
  match s with
  | EmptyString => if String.eqb cur "" then [] else [str_rev cur]
  | String c s' =>
      if (code c =? 10)%nat then str_rev cur :: splitlines_acc EmptyString s'
      else if (code c =? 13)%nat then
        match s' with
        | String d s'' =>
            if (code d =? 10)%nat then str_rev cur :: splitlines_acc EmptyString s''
            else str_rev cur :: splitlines_acc EmptyString s'
        | EmptyString => [str_rev cur]
        end
      else splitlines_acc (String c cur) s'
  end.
Definition splitlines (s : string) : list string := splitlines_acc EmptyString s.

(** [for line in open(path)]: lines end with their ["\n"], except a last
    line that has none. *)
Fixpoint file_lines_acc (cur : string) (s : string) : list string :=
  match s with
  | EmptyString => if String.eqb cur "" then [] else [str_rev cur]
  | String c s' =>
      if (code c =? 10)%nat then str_rev (String c cur) :: file_lines_acc EmptyString s'
      else file_lines_acc (String c cur) s'
  end.
Definition file_lines (s : string) : list string := file_lines_acc EmptyString s.

(** [s.replace(old, new)]: left to right, non-overlapping; an empty [old]
    inserts [new] before every character and at the end. *)
Fixpoint replace_ne (fuel : nat) (old new s : string) : string :=
  match fuel with
  | O => s
  | S fuel' =>
      match s with
      | EmptyString => EmptyString
      | String c s' =>
          if String.prefix old s
          then new ++ replace_ne fuel' old new (substring (String.length old) (String.length s) s)
          else String c (replace_ne fuel' old new s')
      end
  end.
Fixpoint replace_empty (new s : string) : string :=
  match s with
  | EmptyString => new
  | String c s' => new ++ String c (replace_empty new s')
  end.
Definition replace (s old new : string) : string :=
  if String.eqb old "" then replace_empty new s
  else replace_ne (String.length s) old new s.

(** [os.path.join(a, b)] (posixpath). *)
Definition path_join (a b : string) : string :=
  if startswith b "/" then b
  else if String.eqb a "" || endswith a "/" then a ++ b
  else a ++ "/" ++ b.

(** [int(s)] for a byte string: surrounding whitespace, an optional sign,
    then one or more decimal digits; anything else raises [ValueError]. *)
Fixpoint digits_val (acc : Z) (s : string) : option Z :=
  match s with
  | EmptyString => Some acc
  | String c s' =>
      if is_digit c then digits_val (10 * acc + Z.of_nat (code c - 48)) s' else None
  end.
Definition py_int (s : string) : res Z :=
  let t := strip s in
  let '(neg, body) :=
    match t with
    | String c t' => if (code c =? 45)%nat then (true, t')
                     else if (code c =? 43)%nat then (false, t') else (false, t)
    | EmptyString => (false, t)
    end in
  if String.eqb body "" then Exc ValueError
  else match digits_val 0 body with
       | Some v => Ok (if neg then - v else v)%Z
       | None => Exc ValueError
       end.

(** ['%s' % n] for an integer: its decimal digits, with a leading ["-"]
    when negative.  The fuel [1 + log2 z] bounds the number of digits. *)
Definition digit_chr (n : nat) : ascii := chr (48 + n).
Fixpoint z_digits (fuel : nat) (z : Z) (acc : string) : string :=
  match fuel with
  | O => acc
  | S fuel' =>
      let acc' := String (digit_chr (Z.to_nat (z mod 10))) acc in
      if (z <? 10)%Z then acc' else z_digits fuel' (z / 10)%Z acc'
  end.
Definition str_of_nonneg (z : Z) : string :=
  z_digits (S (Z.to_nat (Z.log2 z))) z EmptyString.
Definition str_of_Z (z : Z) : string :=
  if (z <? 0)%Z then "-" ++ str_of_nonneg (- z) else str_of_nonneg z.

(** [sorted(l)] of byte strings: bytewise lexicographic order. *)
Fixpoint insert_sorted (x : string) (l : list string) : list string :=
  match l with
  | [] => [x]
  | y :: l' => if String.leb x y then x :: l else y :: insert_sorted x l'
  end.
Definition sorted_str (l : list string) : list string := foldr insert_sorted [] l.

Lemma str_rev_app a b : str_rev (a ++ b) = str_rev b ++ str_rev a.
Proof.
  induction a as [|c a IH]; simpl.
  - by rewrite append_nil_r.
  - by rewrite IH, append_assoc'.
Qed.

Lemma str_rev_involutive s : str_rev (str_rev s) = s.
Proof. induction s as [|c s IH]; [done|]. simpl. by rewrite str_rev_app, IH. Qed.

#[export] Hint Rewrite str_rev_app str_rev_involutive : pysimp.

Lemma z_digits_ne_empty f z acc : acc <> EmptyString -> z_digits f z acc <> EmptyString.
Proof.
  revert z acc. induction f as [|f IH]; intros z acc H; simpl; [done|].
  destruct (z <? 10)%Z; [done|]. by apply IH.
Qed.

(** ['%s' % n] is never empty, so it is always truthy. *)
Lemma str_of_Z_ne_empty z : str_of_Z z <> EmptyString.
Proof.
  unfold str_of_Z, str_of_nonneg. destruct (z <? 0)%Z; [by rewrite append_cons|].
  simpl. destruct (z <? 10)%Z; [done|]. by apply z_digits_ne_empty.
Qed.

Lemma truthy_str_of_Z z : negb (String.eqb (str_of_Z z) EmptyString) = true.
Proof. pose proof (str_of_Z_ne_empty z). destruct (String.eqb_spec (str_of_Z z) EmptyString); done. Qed.

(** [sorted] returns a sorted permutation of its argument. *)
Definition str_le (x y : string) : Prop := String.leb x y = true.

Lemma str_le_flip x y : String.leb x y = false -> str_le y x.
Proof. unfold str_le. destruct (String.leb_total x y); congruence. Qed.

Lemma insert_sorted_perm x l : insert_sorted x l ≡ₚ x :: l.
Proof.
  induction l as [|y l IH]; simpl; [done|].
  destruct (String.leb x y); [done|]. rewrite IH. by constructor.
Qed.

Lemma sorted_str_perm l : sorted_str l ≡ₚ l.
Proof.
  induction l as [|x l IH]; simpl; [done|]. by rewrite insert_sorted_perm, IH.
Qed.

Lemma insert_sorted_sorted x l : Sorted str_le l -> Sorted str_le (insert_sorted x l).
Proof.
  induction l as [|y l IH]; simpl; intros Hs; [by repeat constructor|].
  destruct (String.leb x y) eqn:E; [constructor; [done|by constructor]|].
  inversion Hs as [|? ? Hl Hh]; subst. constructor; [by apply IH|].
  destruct l as [|z l]; simpl; [constructor; by apply str_le_flip|].
  destruct (String.leb x z); constructor; [by apply str_le_flip|by inversion Hh].
Qed.

Lemma sorted_str_sorted l : Sorted str_le (sorted_str l).
Proof. induction l as [|x l IH]; simpl; [constructor|]. by apply insert_sorted_sorted. Qed.

(** ** [split] and [endswith] against their reference definitions *)

Lemma str_mem_app c a b : str_mem c (a ++ b) = str_mem c a || str_mem c b.
Proof. induction a as [|d a IH]; simpl; [done|]. by destruct (ascii_dec c d). Qed.

Lemma str_mem_rev c s : str_mem c (str_rev s) = str_mem c s.
Proof.
  induction s as [|d s IH]; simpl; [done|].
  rewrite str_mem_app, IH. simpl. destruct (ascii_dec c d); [by rewrite orb_true_r|].
  by rewrite orb_false_r.
Qed.

Lemma split_acc_cons sep cur s : exists x l, split_acc sep cur s = x :: l.
Proof.
  revert cur. induction s as [|c s IH]; intros cur; simpl; [eauto|].
  destruct (ascii_dec c sep); eauto.
Qed.

Lemma split_acc_concat sep cur s :
  String.concat (String sep EmptyString) (split_acc sep cur s) = str_rev cur ++ s.
Proof.
  revert cur. induction s as [|c s IH]; intros cur; simpl.
  - by rewrite append_nil_r.
  - destruct (ascii_dec c sep) as [->|Hc].
    + destruct (split_acc_cons sep EmptyString s) as (x & l & Hx).
      specialize (IH EmptyString). rewrite Hx in IH |- *.
      change (String.concat (String sep EmptyString) (str_rev cur :: x :: l)) with
        (str_rev cur ++ String sep EmptyString ++ String.concat (String sep EmptyString) (x :: l)).
      rewrite IH. cbn [str_rev]. by rewrite append_empty_l, append_cons, append_empty_l.
    + rewrite IH. simpl. by rewrite append_assoc', append_cons, append_empty_l.
Qed.

Lemma split_acc_pieces sep cur s :
  str_mem sep cur = false -> Forall (fun x => str_mem sep x = false) (split_acc sep cur s).
Proof.
  revert cur. induction s as [|c s IH]; intros cur Hcur; simpl.
  - constructor; [|done]. rewrite str_mem_rev. done.
  - destruct (ascii_dec c sep) as [->|Hc].
    + constructor; [by rewrite str_mem_rev|]. by apply IH.
    + apply IH. simpl. destruct (ascii_dec sep c); [congruence|done].
Qed.

Lemma prefix_spec a b : String.prefix a b = true <-> exists r, b = a ++ r.
Proof.
  revert b. induction a as [|c a IH]; intros [|d b]; simpl.
  - split; eauto.
  - split; eauto.
  - split; [done|]. intros [r ?]; discriminate.
  - destruct (ascii_dec c d) as [->|Hcd].
    + rewrite IH. split; intros [r Hr]; exists r; rewrite ?append_cons in *; congruence.
    + split; [done|]. intros [r Hr]. rewrite append_cons in Hr. congruence.
Qed.

(** ** Stripping and suffixes *)

Lemma length_str_rev s : String.length (str_rev s) = String.length s.
Proof. induction s as [|c s IH]; [done|]. simpl. rewrite length_append', IH. simpl. lia. Qed.

Lemma str_all_rev p s : str_all p (str_rev s) = str_all p s.
Proof. induction s as [|c s IH]; [done|]. simpl. rewrite str_all_app, IH. simpl. by rewrite andb_true_r, andb_comm. Qed.

Lemma lstrip_app_spaces sp t : str_all is_space sp = true -> lstrip (sp ++ t) = lstrip t.
Proof.
  induction sp as [|c sp IH]; [done|]. rewrite append_cons. simpl.
  intros [-> H]%andb_true_iff. by apply IH.
Qed.

Lemma lstrip_app_nonspace x y : str_all is_space x = false -> lstrip (x ++ y) = lstrip x ++ y.
Proof.
  induction x as [|c x IH]; [done|]. rewrite append_cons. simpl.
  destruct (is_space c); simpl; [apply IH|done].
Qed.

Lemma rstrip_app_spaces a sp : str_all is_space sp = true -> rstrip (a ++ sp) = rstrip a.
Proof. intros H. unfold rstrip. rewrite str_rev_app, lstrip_app_spaces; [done|by rewrite str_all_rev]. Qed.

Lemma rstrip_app_nonspace a b : str_all is_space b = false -> rstrip (a ++ b) = a ++ rstrip b.
Proof.
  intros H. unfold rstrip. rewrite str_rev_app, lstrip_app_nonspace by (by rewrite str_all_rev).
  by rewrite str_rev_app, str_rev_involutive.
Qed.

Lemma rstrip_last a c : is_space c = false -> rstrip (a ++ String c EmptyString) = a ++ String c EmptyString.
Proof.
  intros H. unfold rstrip. rewrite str_rev_app.
  change (str_rev (String c EmptyString)) with (String c EmptyString).
  rewrite append_cons, append_empty_l. cbn [lstrip]. rewrite H. cbn [str_rev].
  by rewrite str_rev_involutive.
Qed.

Lemma prefix_app_l q x y : String.length q <= String.length x -> String.prefix q (x ++ y) = String.prefix q x.
Proof.
  revert x. induction q as [|c q IH]; intros [|d x] Hl; rewrite ?append_empty_l, ?append_cons;
    [by destruct y|done|simpl in Hl; lia|]. simpl in *. destruct (ascii_dec c d); [apply IH; lia|done].
Qed.

Lemma endswith_app a b p : String.length p <= String.length b -> endswith (a ++ b) p = endswith b p.
Proof. intros H. unfold endswith. rewrite str_rev_app, prefix_app_l; [done|by rewrite !length_str_rev]. Qed.

Lemma endswith_suffix a p : endswith (a ++ p) p = true.
Proof. unfold endswith. rewrite str_rev_app, prefix_spec. by eexists. Qed.

(** [sep.join(s.split(sep))] gives [s] back, and no piece of
    [s.split(sep)] contains [sep]: [split] is the inverse of [join]. *)
Theorem split_join_roundtrip (sep : ascii) (s : string) :
  String.concat (String sep EmptyString) (split sep s) = s /\
  Forall (fun x => str_mem sep x = false) (split sep s).
Proof. split; [apply split_acc_concat|by apply split_acc_pieces]. Qed.

(** [endswith], computed by comparing reversed strings, agrees with
    the reference definition of a suffix. *)
Theorem endswith_spec (s p : string) : endswith s p = true <-> exists q, s = q ++ p.
Proof.
  unfold endswith. rewrite prefix_spec. split; intros [r Hr].
  - exists (str_rev r). rewrite <-(str_rev_involutive s), Hr. by rewrite str_rev_app, str_rev_involutive.
  - exists (str_rev r). by rewrite Hr, str_rev_app.
Qed.
