(* ===== verification/Escape.v ===== *)
(** * [_escape], [_escaped] and dict formatting ([template % dict])

    [_escape(s)] (mailpile-admin.py lines 95-96) is
    [json.dumps(unicode(s).encode('utf-8'))[1:-1]]: [unicode(s)] decodes the
    byte string as ASCII (Python 2's default codec) and raises
    [UnicodeDecodeError] on a byte above 127; [json.dumps] then escapes the
    ASCII text as CPython's [encode_basestring_ascii] does, and the slice
    drops the surrounding double quotes.  [_escaped] (lines 99-100) escapes
    every value of a dict.  [py_format] is Python's [str % dict] for the
    [%(key)s] and [%%] directives the script's templates use. *)

From Stdlib Require Import String Ascii ZArith Lia.
From stdpp Require Import base list gmap strings.
From S2P Require Import Prelude PyStr.
Open Scope string_scope.
Open Scope py_scope.

(** ** JSON string escaping *)

Definition hexdig (n : nat) : ascii :=
  if (n <? 10)%nat then chr (48 + n) else chr (87 + n).

(** One character as [encode_basestring_ascii] writes it. *)
Definition json_escape_char (c : ascii) : string :=
  let n := code c in
  if (n =? 34)%nat then bs ++ dq
  else if (n =? 92)%nat then bs ++ bs
  else if (n =? 8)%nat then bs ++ "b"
  else if (n =? 12)%nat then bs ++ "f"
  else if (n =? 10)%nat then bs ++ "n"
  else if (n =? 13)%nat then bs ++ "r"
  else if (n =? 9)%nat then bs ++ "t"
  else if (32 <=? n)%nat && (n <=? 126)%nat then String c EmptyString
  else bs ++ "u00" ++ String (hexdig (n / 16)) (String (hexdig (n mod 16)) EmptyString).

Fixpoint json_escape (s : string) : string :=
  match s with
  | EmptyString => EmptyString
  | String c s' => json_escape_char c ++ json_escape s'
  end.

(** [json.dumps] of a string: the escaped text between double quotes. *)
Definition json_dumps (s : string) : string := dq ++ json_escape s ++ dq.

(** [s[1:-1]] *)
Definition slice_1_m1 (s : string) : string :=
  substring 1 (String.length s - 2) s.

(** [unicode(s)] of a Python 2 byte string (ASCII codec). *)
Definition py_unicode_str (s : string) : res string :=
  if str_all is_ascii7 s then Ok s else Exc UnicodeDecodeError.

Definition _escape (s : string) : res string :=
  u <-! py_unicode_str s ;;
  Ok (slice_1_m1 (json_dumps u)).

(** ** Python values held by the script's settings dicts

    The values are strings, [False] (the ["pid"] of a user without a pid
    file) or [None]; [unicode(v)] renders them. *)
Inductive pyval : Type :=
| PStr (s : string)
| PBool (b : bool)
| PNone.

Definition py_unicode (v : pyval) : res string :=
  match v with
  | PStr s => py_unicode_str s
  | PBool true => Ok "True"
  | PBool false => Ok "False"
  | PNone => Ok "None"
  end.

Definition escape_val (v : pyval) : res string :=
  u <-! py_unicode v ;;
  Ok (slice_1_m1 (json_dumps u)).

(** [_escaped(idict)]: every value escaped; the first failure propagates. *)
Definition _escaped (d : gmap string pyval) : res (gmap string string) :=
  map_fold (fun k v acc =>
              acc' <-! acc ;;
              e <-! escape_val v ;;
              Ok (<[k := e]> acc'))
           (Ok ∅) d.

(** ** [template % dict] *)

(** The directive parser: plain text, after a [%], inside [%( ... )] (with
    the nesting depth and the key read so far, reversed), after the [)]. *)
Inductive fmt_state : Type :=
| FText
| FPct
| FKey (depth : nat) (rkey : string)
| FConv (key : string).

Fixpoint fmt_go (d : gmap string string) (st : fmt_state) (s : string) : res string :=
  match s with
  | EmptyString => match st with FText => Ok EmptyString | _ => Exc ValueError end
  | String c s' =>
      match st with
      | FText =>
          if (code c =? 37)%nat then fmt_go d FPct s'
          else r <-! fmt_go d FText s' ;; Ok (String c r)
      | FPct =>
          if (code c =? 37)%nat then (r <-! fmt_go d FText s' ;; Ok (String c r))
          else if (code c =? 40)%nat then fmt_go d (FKey 0 EmptyString) s'
          else Exc ValueError
      | FKey n k =>
          if (code c =? 41)%nat then
            match n with
            | O => fmt_go d (FConv (str_rev k)) s'
            | S n' => fmt_go d (FKey n' (String c k)) s'
            end
          else if (code c =? 40)%nat then fmt_go d (FKey (S n) (String c k)) s'
          else fmt_go d (FKey n (String c k)) s'
      | FConv k =>
          if (code c =? 115)%nat then
            match d !! k with
            | Some v => r <-! fmt_go d FText s' ;; Ok (v ++ r)
            | None => Exc KeyError
            end
          else Exc ValueError
      end
  end.

(** [template % d]; conversions other than [s] after a key, and unnamed
    directives other than [%%], are reported as [ValueError]: the script's
    templates have none. *)
Definition py_format (template : string) (d : gmap string string) : res string :=
  fmt_go d FText template.

(** ** JSON decoding, the inverse used to state what [_escape] preserves *)

Definition hexval (c : ascii) : option nat :=
  let n := code c in
  if (48 <=? n)%nat && (n <=? 57)%nat then Some (n - 48)%nat
  else if (97 <=? n)%nat && (n <=? 102)%nat then Some (n - 87)%nat
  else None.

Fixpoint json_unescape (s : string) : option string :=
  match s with
  | EmptyString => Some EmptyString
  | String c s' =>
      if (code c =? 92)%nat then
        match s' with
        | String e s'' =>
            let n := code e in
            let one x := option_map (String (chr x)) (json_unescape s'') in
            if (n =? 34)%nat then one 34
            else if (n =? 92)%nat then one 92
            else if (n =? 98)%nat then one 8
            else if (n =? 102)%nat then one 12
            else if (n =? 110)%nat then one 10
            else if (n =? 114)%nat then one 13
            else if (n =? 116)%nat then one 9
            else if (n =? 117)%nat then
              match s'' with
              | String z1 (String z2 (String h1 (String h2 rest))) =>
                  if (code z1 =? 48)%nat && (code z2 =? 48)%nat then
                    match hexval h1, hexval h2 with
                    | Some a, Some b => option_map (String (chr (16 * a + b))) (json_unescape rest)
                    | _, _ => None
                    end
                  else None
              | _ => None
              end
            else None
        | EmptyString => None
        end
      else if (code c =? 34)%nat then None
      else option_map (String c) (json_unescape s')
  end.

(** ** Properties of the escaping *)

Definition printable (c : ascii) : bool := ((32 <=? code c) && (code c <=? 126))%nat.

Ltac ascii_cases c :=
  destruct c as [[] [] [] [] [] [] [] []].

(** Each character's escape decodes back to the character (a finite check
    over the 256 byte values). *)
Lemma json_unescape_char (c : ascii) (t : string) :
  json_unescape (json_escape_char c ++ t) = option_map (String c) (json_unescape t).
Proof. ascii_cases c; reflexivity. Qed.

Lemma json_escape_char_printable (c : ascii) :
  str_all printable (json_escape_char c) = true.
Proof. ascii_cases c; reflexivity. Qed.

Lemma json_escape_app a b : json_escape (a ++ b) = json_escape a ++ json_escape b.
Proof.
  induction a as [|c a IH]; [done|].
  rewrite append_cons; simpl. by rewrite IH, append_assoc'.
Qed.

Lemma substring_0_app (a b : string) : substring 0 (String.length a) (a ++ b) = a.
Proof. induction a as [|c a IH]; [by destruct b|]. simpl. by rewrite IH. Qed.

Lemma slice_1_m1_quoted (e : string) : slice_1_m1 (dq ++ e ++ dq) = e.
Proof.
  unfold slice_1_m1, dq, chr_s. rewrite append_cons, append_empty_l. simpl.
  rewrite length_append'. simpl.
  replace (String.length e + 1 - 1) with (String.length e) by lia.
  apply substring_0_app.
Qed.

(** The escaped text of an ASCII string is its JSON escape. *)
Lemma escape_ascii (s : string) :
  str_all is_ascii7 s = true -> _escape s = Ok (json_escape s).
Proof.
  intros H. unfold _escape, py_unicode_str, json_dumps. rewrite H.
  by rewrite slice_1_m1_quoted.
Qed.

(** The escaped value of an ASCII string is its JSON escape. *)
Lemma escape_val_ascii s : str_all is_ascii7 s = true -> escape_val (PStr s) = Ok (json_escape s).
Proof.
  intros H. unfold escape_val, py_unicode, py_unicode_str. rewrite H. simpl.
  unfold json_dumps. by rewrite slice_1_m1_quoted.
Qed.

(** When [_escaped] succeeds, an ASCII string of the dict is its JSON
    escape in the result. *)
Lemma escaped_lookup (d : gmap string pyval) e k s :
  _escaped d = Ok e -> d !! k = Some (PStr s) -> str_all is_ascii7 s = true ->
  e !! k = Some (json_escape s).
Proof.
  intros Hd Hk Hs. revert e Hd Hk. unfold _escaped.
  apply (map_fold_weak_ind (fun r d => forall e, r = Ok e -> d !! k = Some (PStr s) ->
                                         e !! k = Some (json_escape s))).
  - intros e _. by rewrite lookup_empty.
  - intros i x m r Hi IH e Hr Hk. destruct r as [acc|ex]; [|discriminate]. cbn in Hr.
    destruct (escape_val x) as [v|] eqn:Ev; [|discriminate]. injection Hr as <-.
    destruct (decide (k = i)) as [->|Hne].
    + rewrite lookup_insert_eq in Hk. injection Hk as ->.
      rewrite escape_val_ascii in Ev by done. injection Ev as <-. by rewrite lookup_insert_eq.
    + rewrite lookup_insert_ne in Hk by done. rewrite lookup_insert_ne by done. by apply IH.
Qed.

#[export] Hint Rewrite json_unescape_char json_escape_app : pysimp.

Lemma json_unescape_escape (s : string) : json_unescape (json_escape s) = Some s.
Proof.
  induction s as [|c s IH]; [done|].
  simpl. by rewrite json_unescape_char, IH.
Qed.

Lemma json_escape_printable (s : string) : str_all printable (json_escape s) = true.
Proof.
  induction s as [|c s IH]; [done|].
  simpl. by rewrite str_all_app, json_escape_char_printable, IH.
Qed.

Lemma escape_inv (s e : string) :
  _escape s = Ok e -> str_all is_ascii7 s = true /\ e = json_escape s.
Proof.
  unfold _escape, py_unicode_str.
  destruct (str_all is_ascii7 s) eqn:H; [|done].
  intros [= <-]. split; [done|]. unfold json_dumps. by rewrite slice_1_m1_quoted.
Qed.

(** C35: what [_escape] produces decodes back, as JSON, to its input: no
    information is lost by the escaping. *)
Theorem escape_roundtrip (s e : string) :
  _escape s = Ok e -> json_unescape e = Some s.
Proof. intros [_ ->]%escape_inv. apply json_unescape_escape. Qed.

Lemma escape_roundtrip_witness :
  _escape ("a" ++ dq ++ nl) = Ok ("a" ++ bs ++ dq ++ bs ++ "n") /\
  json_unescape ("a" ++ bs ++ dq ++ bs ++ "n") = Some ("a" ++ dq ++ nl).
Proof. split; [reflexivity|]. apply escape_roundtrip. reflexivity. Defined.

(** C36: the escaped text consists of printable ASCII characters only: it
    holds no newline, so it cannot split a shell command line or an
    .htaccess rule line; and a byte above 127 makes [_escape] raise
    [UnicodeDecodeError]. *)
Theorem escape_printable_or_error (s : string) :
  match _escape s with
  | Ok e => str_all printable e = true
  | Exc err => err = UnicodeDecodeError /\ str_all is_ascii7 s = false
  end.
Proof.
  destruct (_escape s) as [e|err] eqn:E.
  - apply escape_inv in E as [_ ->]. apply json_escape_printable.
  - unfold _escape, py_unicode_str in E.
    destruct (str_all is_ascii7 s); simpl in E; [discriminate|].
    by injection E as <-.
Qed.

(** ** Formatting a template piece by piece *)

(** Text without [%] is copied. *)
Definition no_pct (s : string) : bool := str_all (fun c => negb (code c =? 37)%nat) s.
(** A key without parentheses. *)
Definition plain_key (k : string) : bool :=
  str_all (fun c => negb (code c =? 40)%nat && negb (code c =? 41)%nat) k.

Lemma fmt_go_text d a s :
  no_pct a = true -> fmt_go d FText (a ++ s) = (r <-! fmt_go d FText s ;; Ok (a ++ r)).
Proof.
  unfold no_pct. induction a as [|c a IH]; intros H; simpl.
  - rewrite append_empty_l. by destruct (fmt_go d FText s).
  - simpl in H. apply andb_prop in H as [Hc Ha]. rewrite ?append_cons. simpl.
    apply negb_true_iff in Hc. rewrite Hc, IH by done.
    by destruct (fmt_go d FText s).
Qed.

Lemma fmt_go_key_read d n rk k s :
  plain_key k = true -> fmt_go d (FKey n rk) (k ++ s) = fmt_go d (FKey n (str_rev k ++ rk)) s.
Proof.
  unfold plain_key. revert rk. induction k as [|c k IH]; intros rk H; [done|].
  simpl in H. apply andb_prop in H as [Hc Hk]. apply andb_prop in Hc as [H40 H41].
  apply negb_true_iff in H40, H41. rewrite append_cons. simpl.
  rewrite H40, H41, IH by done. simpl. by rewrite append_assoc'.
Qed.

(** A [%(k)s] directive is replaced by the value of [k]. *)
Lemma fmt_go_directive d k v s :
  plain_key k = true -> d !! k = Some v ->
  fmt_go d FText ("%(" ++ k ++ ")s" ++ s) = (r <-! fmt_go d FText s ;; Ok (v ++ r)).
Proof.
  intros Hk Hv. rewrite !append_cons, append_empty_l. simpl.
  rewrite fmt_go_key_read by done. simpl.
  rewrite append_nil_r, str_rev_involutive, Hv. done.
Qed.

Lemma fmt_go_empty d : fmt_go d FText "" = Ok "".
Proof. done. Qed.

(** ** Templates made of text and [%(key)s] directives *)

(** [t1 %(k1)s t2 %(k2)s ... last] *)
Fixpoint tmpl (ps : list (string * string)) (last : string) : string :=
  match ps with
  | [] => last
  | (t, k) :: ps' => t ++ "%(" ++ k ++ ")s" ++ tmpl ps' last
  end.

Fixpoint tmpl_fill (ps : list (string * string)) (vs : list string) (last : string) : string :=
  match ps, vs with
  | (t, _) :: ps', v :: vs' => t ++ v ++ tmpl_fill ps' vs' last
  | _, _ => last
  end.

Lemma fmt_go_text_only d a : no_pct a = true -> fmt_go d FText a = Ok a.
Proof. intros H. rewrite <-(append_nil_r a), fmt_go_text by done. by rewrite fmt_go_empty. Qed.

Lemma py_format_tmpl d ps vs last :
  Forall2 (fun tk v => no_pct tk.1 = true /\ plain_key tk.2 = true /\ d !! tk.2 = Some v) ps vs ->
  no_pct last = true -> py_format (tmpl ps last) d = Ok (tmpl_fill ps vs last).
Proof.
  intros Hps Hl. unfold py_format. induction Hps as [|[t k] v ps vs (Ht & Hk & Hv) _ IH]; simpl.
  - by apply fmt_go_text_only.
  - rewrite fmt_go_text by done. rewrite (fmt_go_directive _ _ v), IH by done. reflexivity.
Qed.
