(* ===== verification/Regex.v ===== *)
(** * Python [re.match] for the patterns of mailpile-admin.py

    A backtracking matcher in continuation-passing style, with Python's
    priority order: a greedy repetition tries the longest run first and
    gives back one character at a time, a lazy one tries the shortest run
    first, an alternation tries its left branch first, and the first
    successful path is the match.  Every repetition in the script's
    patterns ([\S+], [\s*], [.*], [.*?], [[^a-z]+], [\d+], ...) repeats a
    one-character class, so [RRep] takes a class, and the matcher is
    structurally recursive: no fuel.  Groups record the text they consumed;
    [$] is Python's: the end of the string or a final ["\n"]. *)

From Stdlib Require Import String Ascii ZArith Lia.
From stdpp Require Import base list gmap strings.
From S2P Require Import Prelude PyStr Escape.
Open Scope string_scope.

Inductive regex : Type :=
| REps
| RChr (c : ascii)
| RCls (p : ascii -> bool)
| RRep (lazy : bool) (min : nat) (p : ascii -> bool)
| RSeq (r1 r2 : regex)
| RAlt (r1 r2 : regex)
| RGroup (n : nat) (r : regex)
| REnd.

(** A literal string. *)
Fixpoint RStr (s : string) : regex :=
  match s with
  | EmptyString => REps
  | String c s' => RSeq (RChr c) (RStr s')
  end.

(** Captured groups, the latest capture of a group first. *)
Abbreviation caps := (list (nat * string)).
Abbreviation mresult := (option (string * caps)).
Abbreviation cont := (string -> caps -> mresult).

Section Rep.
Variable p : ascii -> bool.

(** [p*]: longest run first. *)
Fixpoint rep_greedy (s : string) (cs : caps) (k : cont) : mresult :=
  match s with
  | String c s' =>
      if p c then match rep_greedy s' cs k with
                  | Some r => Some r
                  | None => k s cs
                  end
      else k s cs
  | EmptyString => k s cs
  end.

(** [p*?]: shortest run first. *)
Fixpoint rep_lazy (s : string) (cs : caps) (k : cont) : mresult :=
  match k s cs with
  | Some r => Some r
  | None => match s with
            | String c s' => if p c then rep_lazy s' cs k else None
            | EmptyString => None
            end
  end.

(** [n] mandatory characters, then the repetition. *)
Fixpoint rep_min (n : nat) (lazy : bool) (s : string) (cs : caps) (k : cont) : mresult :=
  match n with
  | O => if lazy then rep_lazy s cs k else rep_greedy s cs k
  | S n' => match s with
            | String c s' => if p c then rep_min n' lazy s' cs k else None
            | EmptyString => None
            end
  end.
End Rep.

Fixpoint mt (r : regex) (s : string) (cs : caps) (k : cont) : mresult :=
  match r with
  | REps => k s cs
  | RChr c => match s with
              | String d s' => if ascii_dec c d then k s' cs else None
              | EmptyString => None
              end
  | RCls p => match s with
              | String d s' => if p d then k s' cs else None
              | EmptyString => None
              end
  | RRep lz n p => rep_min p n lz s cs k
  | RSeq r1 r2 => mt r1 s cs (fun s' cs' => mt r2 s' cs' k)
  | RAlt r1 r2 => match mt r1 s cs k with
                  | Some x => Some x
                  | None => mt r2 s cs k
                  end
  | RGroup n r => mt r s cs (fun s' cs' =>
                    k s' ((n, substring 0 (String.length s - String.length s') s) :: cs'))
  | REnd => if String.eqb s "" || String.eqb s nl then k s cs else None
  end.

(** [re.match(r, s)]: anchored at the start, not necessarily at the end. *)
Definition re_match (r : regex) (s : string) : mresult :=
  mt r s [] (fun s' cs => Some (s', cs)).

(** [m.group(n)] *)
Fixpoint group (cs : caps) (n : nat) : option string :=
  match cs with
  | [] => None
  | (m, g) :: cs' => if (m =? n)%nat then Some g else group cs' n
  end.

Definition mgroup (m : mresult) (n : nat) : option string :=
  match m with Some (_, cs) => group cs n | None => None end.

(** ** Character classes of the patterns (Python 2, no flags) *)
Definition cls_s : ascii -> bool := is_space.                    (* \s *)
Definition cls_S (c : ascii) : bool := negb (is_space c).        (* \S *)
Definition cls_d : ascii -> bool := is_digit.                    (* \d *)
Definition cls_dot (c : ascii) : bool := negb (code c =? 10)%nat. (* .  *)
Definition cls_eq (d : ascii) (c : ascii) : bool := bool_decide (c = d).
Definition cls_neq (d : ascii) (c : ascii) : bool := negb (bool_decide (c = d)).

(** A pattern written as the sequence of its parts. *)
Fixpoint RSeqs (rs : list regex) : regex :=
  match rs with
  | [] => REps
  | [r] => r
  | r :: rs' => RSeq r (RSeqs rs')
  end.

(** ** Matching lemmas

    Forward lemmas compute a successful match part by part, backward ones
    say what a successful match consumed.  [stops p s]: the next character
    of [s], if any, is not in the class [p], so a greedy run ends there. *)

Definition stops (p : ascii -> bool) (s : string) : bool :=
  match s with String c _ => negb (p c) | EmptyString => true end.

(** The non-empty suffixes of [s], longest first. *)
Fixpoint suffixes (s : string) : list string :=
  match s with EmptyString => [] | String c s' => s :: suffixes s' end.

Lemma mt_seq r1 r2 s cs k : mt (RSeq r1 r2) s cs k = mt r1 s cs (fun s' cs' => mt r2 s' cs' k).
Proof. reflexivity. Qed.

Lemma mt_group n r s cs k :
  mt (RGroup n r) s cs k =
  mt r s cs (fun s' cs' => k s' ((n, substring 0 (String.length s - String.length s') s) :: cs')).
Proof. reflexivity. Qed.

Lemma mt_str t s cs k : mt (RStr t) (t ++ s) cs k = k s cs.
Proof.
  induction t as [|c t IH]; [done|]. rewrite append_cons. simpl.
  destruct (ascii_dec c c); [apply IH|done].
Qed.

Lemma mt_chr c s cs k : mt (RChr c) (String c EmptyString ++ s) cs k = k s cs.
Proof. simpl. by destruct (ascii_dec c c). Qed.

(** The text a group captured when its body consumed [x]. *)
Lemma capture_app x s : substring 0 (String.length (x ++ s) - String.length s) (x ++ s) = x.
Proof. rewrite length_append', Nat.add_sub. apply substring_0_app. Qed.

Lemma rep_greedy_run p x s cs k r :
  str_all p x = true -> stops p s = true -> k s cs = Some r -> rep_greedy p (x ++ s) cs k = Some r.
Proof.
  intros Hx Hs Hk. induction x as [|c x IH]; [rewrite append_empty_l|rewrite append_cons]; simpl in *.
  - destruct s as [|c s]; [done|]. simpl in *. apply negb_true_iff in Hs. by rewrite Hs.
  - apply andb_true_iff in Hx as [-> Hx]. by rewrite IH.
Qed.

Lemma mt_plus_run p c x s cs k r :
  p c = true -> str_all p x = true -> stops p s = true -> k s cs = Some r ->
  mt (RRep false 1 p) (String c x ++ s) cs k = Some r.
Proof. intros Hc Hx Hs Hk. rewrite append_cons. simpl. rewrite Hc. by apply rep_greedy_run. Qed.

Lemma rep_lazy_here p s cs k r : k s cs = Some r -> rep_lazy p s cs k = Some r.
Proof. intros Hk. destruct s; simpl; by rewrite Hk. Qed.

(** A lazy run skips [a] when the rest of the pattern fails at every
    position inside it. *)
Lemma rep_lazy_skip p a b cs k :
  str_all p a = true -> Forall (fun a2 => k (a2 ++ b) cs = None) (suffixes a) ->
  rep_lazy p (a ++ b) cs k = rep_lazy p b cs k.
Proof.
  induction a as [|c a IH]; intros Ha Hk; [done|].
  apply andb_true_iff in Ha as [Hc Ha]. inversion Hk as [|? ? Hk0 Hk']; subst.
  rewrite append_cons. simpl. rewrite append_cons in Hk0. rewrite Hk0, Hc. by apply IH.
Qed.

(** What a successful match consumed: a repetition consumed a run of its
    class, and every pattern consumed a prefix of the text. *)
Lemma rep_greedy_inv p s cs k r :
  rep_greedy p s cs k = Some r -> exists x s2, s = x ++ s2 /\ str_all p x = true /\ k s2 cs = Some r.
Proof.
  induction s as [|c s IH]; simpl; intros H; [by exists "", ""|].
  destruct (p c) eqn:Hc; [|by exists "", (String c s)].
  destruct (rep_greedy p s cs k) eqn:Hg; [|by exists "", (String c s)].
  injection H as ->. destruct (IH eq_refl) as (x & s2 & -> & Hx & Hk).
  exists (String c x), s2. simpl. by rewrite Hc, Hx.
Qed.

Lemma rep_lazy_inv p s cs k r :
  rep_lazy p s cs k = Some r -> exists x s2, s = x ++ s2 /\ str_all p x = true /\ k s2 cs = Some r.
Proof.
  induction s as [|c s IH]; simpl; intros H.
  - destruct (k "" cs) eqn:Hk; [|done]. injection H as ->. by exists "", "".
  - destruct (k (String c s) cs) eqn:Hk; [injection H as ->; by exists "", (String c s)|].
    destruct (p c) eqn:Hc; [|done]. destruct (IH H) as (x & s2 & -> & Hx & Hk').
    exists (String c x), s2. simpl. by rewrite Hc, Hx.
Qed.

Lemma rep_min_inv p n lz s cs k r :
  rep_min p n lz s cs k = Some r -> exists x s2, s = x ++ s2 /\ str_all p x = true /\ k s2 cs = Some r.
Proof.
  revert s. induction n as [|n IH]; intros s H; simpl in H.
  - destruct lz; [by apply rep_lazy_inv|by apply rep_greedy_inv].
  - destruct s as [|c s]; [done|]. destruct (p c) eqn:Hc; [|done].
    destruct (IH s H) as (x & s2 & -> & Hx & Hk). exists (String c x), s2. simpl. by rewrite Hc, Hx.
Qed.

Lemma mt_inv r s cs k x :
  mt r s cs k = Some x -> exists pre s' cs', s = pre ++ s' /\ k s' cs' = Some x.
Proof.
  revert s cs k. induction r as [| c | p | lz n p | r1 IH1 r2 IH2 | r1 IH1 r2 IH2 | n r IH |];
    intros s cs k H; simpl in H.
  - by exists "", s, cs.
  - destruct s as [|d s]; [done|]. destruct (ascii_dec c d); [|done]. by exists (String d ""), s, cs.
  - destruct s as [|d s]; [done|]. destruct (p d); [|done]. by exists (String d ""), s, cs.
  - destruct (rep_min_inv _ _ _ _ _ _ _ H) as (y & s2 & -> & _ & Hk). by exists y, s2, cs.
  - destruct (IH1 _ _ _ H) as (pre1 & s1 & cs1 & -> & H1).
    destruct (IH2 _ _ _ H1) as (pre2 & s2 & cs2 & -> & H2).
    exists (pre1 ++ pre2), s2, cs2. by rewrite append_assoc'.
  - destruct (mt r1 s cs k) eqn:E; [injection H as ->; by apply (IH1 _ _ _ E)|by apply (IH2 _ _ _ H)].
  - by destruct (IH _ _ _ H) as (pre & s' & cs' & -> & Hk); eexists _, _, _.
  - destruct (String.eqb s "" || String.eqb s nl); [|done]. by exists "", s, cs.
Qed.

Lemma mt_str_inv t s cs k x : mt (RStr t) s cs k = Some x -> exists s', s = t ++ s' /\ k s' cs = Some x.
Proof.
  revert s. induction t as [|c t IH]; intros s H; [by exists s|].
  simpl in H. destruct s as [|d s]; [done|]. destruct (ascii_dec c d) as [<-|]; [|done].
  destruct (IH s H) as (s' & -> & Hk). by exists s'.
Qed.

Lemma mt_end_inv s cs k x :
  mt REnd s cs k = Some x -> (s = "" \/ s = nl) /\ k s cs = Some x.
Proof.
  simpl. destruct (String.eqb_spec s ""), (String.eqb_spec s nl); simpl; intros H; try done; auto.
Qed.
