(* ===== verification/World.v ===== *)
(** * The machine as mailpile-admin.py sees it

    One record holds everything the script reads or changes outside its
    own variables: the file system (the .htaccess file, its [.new]
    temporary, the pid files), the output of the two commands it parses
    ([ps auxw], [netstat -ant --program]; [None] when the command cannot
    be started, where [subprocess.Popen] raises [OSError]), the lines it
    prints, the draws of [random.randint], the caller's uid and the
    password database, the host name, the list of external programs
    started so far, [os.path.realpath], [__file__] and [sys.argv[0]], and
    the part only the external programs see ([w_sys]: the process table
    and a clock).  Shell commands run through [os.system] are the [Shell]
    interface of Shell.v. *)

From Stdlib Require Import String Ascii ZArith Lia.
From stdpp Require Import base list gmap strings.
From S2P Require Import Prelude PyStr.
Open Scope string_scope.
Open Scope py_scope.

(** What only the external programs see: the running processes by pid
    and a clock in seconds.  A process may exit some seconds after a
    [SIGTERM] or a [SIGINT] ([None]: it ignores the signal); [p_exit_at]
    is the time it will exit, once signalled. *)
Record pstate : Type := {
  p_on_term : option nat;
  p_on_int : option nat;
  p_exit_at : option nat
}.

Record sys : Type := {
  sys_procs : gmap string pstate;
  sys_clock : nat
}.

Definition sys0 : sys := {| sys_procs := ∅; sys_clock := 0 |}.

Record world : Type := {
  w_files : gmap string string;
  w_ps : option string;
  w_netstat : option string;
  w_out : list string;
  w_rand : nat -> Z;
  w_rand_next : nat;
  w_uid : Z;
  w_passwd : list (string * Z);
  w_hostname : string;
  w_cmds : list string;
  w_realpath : string -> string;
  w_file : string;
  w_argv0 : string;
  w_sys : sys
}.

Abbreviation Py := (PyM world).

Definition set_files (f : gmap string string) (w : world) : world :=
  {| w_files := f; w_ps := w_ps w; w_netstat := w_netstat w; w_out := w_out w; w_rand := w_rand w; w_rand_next := w_rand_next w; w_uid := w_uid w; w_passwd := w_passwd w; w_hostname := w_hostname w; w_cmds := w_cmds w; w_realpath := w_realpath w; w_file := w_file w; w_argv0 := w_argv0 w; w_sys := w_sys w |}.

Definition set_out (o : list string) (w : world) : world :=
  {| w_files := w_files w; w_ps := w_ps w; w_netstat := w_netstat w; w_out := o; w_rand := w_rand w; w_rand_next := w_rand_next w; w_uid := w_uid w; w_passwd := w_passwd w; w_hostname := w_hostname w; w_cmds := w_cmds w; w_realpath := w_realpath w; w_file := w_file w; w_argv0 := w_argv0 w; w_sys := w_sys w |}.

Definition set_rand_next (n : nat) (w : world) : world :=
  {| w_files := w_files w; w_ps := w_ps w; w_netstat := w_netstat w; w_out := w_out w; w_rand := w_rand w; w_rand_next := n; w_uid := w_uid w; w_passwd := w_passwd w; w_hostname := w_hostname w; w_cmds := w_cmds w; w_realpath := w_realpath w; w_file := w_file w; w_argv0 := w_argv0 w; w_sys := w_sys w |}.

Definition set_cmds (c : list string) (w : world) : world :=
  {| w_files := w_files w; w_ps := w_ps w; w_netstat := w_netstat w; w_out := w_out w; w_rand := w_rand w; w_rand_next := w_rand_next w; w_uid := w_uid w; w_passwd := w_passwd w; w_hostname := w_hostname w; w_cmds := c; w_realpath := w_realpath w; w_file := w_file w; w_argv0 := w_argv0 w; w_sys := w_sys w |}.

Definition set_sys (y : sys) (w : world) : world :=
  {| w_files := w_files w; w_ps := w_ps w; w_netstat := w_netstat w; w_out := w_out w; w_rand := w_rand w; w_rand_next := w_rand_next w; w_uid := w_uid w; w_passwd := w_passwd w; w_hostname := w_hostname w; w_cmds := w_cmds w; w_realpath := w_realpath w; w_file := w_file w; w_argv0 := w_argv0 w; w_sys := y |}.

(** [print line] *)
Definition py_print (line : string) : Py unit :=
  modify_st (fun w => set_out (w_out w ++ [line]) w).

Lemma py_print_run line w : py_print line w = (Ok tt, set_out (w_out w ++ [line])%list w).
Proof. reflexivity. Qed.

(** [open(path).read()]: [IOError] when the file does not exist. *)
Definition read_file (path : string) : Py string :=
  fun w => match w_files w !! path with
           | Some c => (Ok c, w)
           | None => (Exc IOError, w)
           end.

(** [os.path.exists(path)] *)
Definition path_exists (path : string) : Py bool :=
  fun w => (Ok (bool_decide (is_Some (w_files w !! path))), w).

(** [open(path, 'w').write(c)] *)
Definition write_file (path c : string) : Py unit :=
  modify_st (fun w => set_files (<[path := c]> (w_files w)) w).

(** [os.remove(path)]: [OSError] when the file does not exist. *)
Definition os_remove (path : string) : Py unit :=
  fun w => match w_files w !! path with
           | Some _ => (Ok tt, set_files (delete path (w_files w)) w)
           | None => (Exc OSError, w)
           end.

(** [os.rename(src, dst)]: replaces [dst]; [OSError] when [src] is missing. *)
Definition os_rename (src dst : string) : Py unit :=
  fun w => match w_files w !! src with
           | Some c => (Ok tt, set_files (<[dst := c]> (delete src (w_files w))) w)
           | None => (Exc OSError, w)
           end.

(** [random.randint(a, b)]: the next draw of the generator, in [[a, b]]. *)
Definition randint (a b : Z) : Py Z :=
  fun w => (Ok (a + (w_rand w (w_rand_next w)) mod (b - a + 1))%Z,
            set_rand_next (S (w_rand_next w)) w).

(** Starting an external program: the world keeps the list of the
    programs started, in order ([w_cmds]). *)
Definition log_cmd (c : string) : Py unit := modify_st (fun w => set_cmds (w_cmds w ++ [c]) w).

(** [subprocess.Popen([...]).communicate()[0]] for [ps] and [netstat]. *)
Definition run_ps : Py string :=
  fun w => match w_ps w with
           | Some o => (Ok o, set_cmds (w_cmds w ++ ["ps auxw"]) w)
           | None => (Exc OSError, w)
           end.
Definition run_netstat : Py string :=
  fun w => match w_netstat w with
           | Some o => (Ok o, set_cmds (w_cmds w ++ ["netstat -ant --program"]) w)
           | None => (Exc OSError, w)
           end.

(** [pwd.getpwuid(os.getuid()).pw_name]: [KeyError] for an unknown uid. *)
Definition getpwuid_name : Py string :=
  fun w => match List.find (fun e => Z.eqb (snd e) (w_uid w)) (w_passwd w) with
           | Some e => (Ok (fst e), w)
           | None => (Exc KeyError, w)
           end.

(** [os.getuid()] *)
Definition getuid : Py Z := fun w => (Ok (w_uid w), w).

(** [os.path.realpath(p)] *)
Definition realpath (p : string) : Py string := fun w => (Ok (w_realpath w p), w).

(** [os.path.realpath(sys.argv[0])] *)
Definition realpath_argv0 : Py string := fun w => (Ok (w_realpath w (w_argv0 w)), w).

(** Reading the world does not change it. *)
Lemma read_file_state path w : snd (read_file path w) = w.
Proof. unfold read_file. by destruct (w_files w !! path). Qed.

Lemma run_ps_files w : w_files (snd (run_ps w)) = w_files w.
Proof. unfold run_ps. by destruct (w_ps w). Qed.

Lemma run_netstat_files w : w_files (snd (run_netstat w)) = w_files w.
Proof. unfold run_netstat. by destruct (w_netstat w). Qed.

Lemma w_files_set_out o w : w_files (set_out o w) = w_files w.
Proof. done. Qed.

Lemma w_files_set_rand_next n w : w_files (set_rand_next n w) = w_files w.
Proof. done. Qed.

Lemma set_files_set_files f1 f2 w : set_files f2 (set_files f1 w) = set_files f2 w.
Proof. done. Qed.

Lemma w_files_set_files f w : w_files (set_files f w) = f.
Proof. done. Qed.

Lemma set_out_set_out o1 o2 w : set_out o2 (set_out o1 w) = set_out o2 w.
Proof. done. Qed.

Lemma set_out_id w : set_out (w_out w) w = w.
Proof. by destruct w. Qed.

Lemma w_out_set_out o w : w_out (set_out o w) = o.
Proof. done. Qed.

#[export] Hint Rewrite set_out_set_out w_out_set_out : pysimp.

#[export] Hint Rewrite read_file_state run_ps_files run_netstat_files
  w_files_set_out w_files_set_rand_next set_files_set_files w_files_set_files : pysimp.

(** ** The script's output only grows

    [out_ext o w]: the lines printed in [w] start with [o].  A computation
    is [out_mono] when, for every [o], it keeps [out_ext o]: it can only
    append lines, never change or remove one.  [out_mono_tac] proves it
    for a composite computation from the lemmas of the database
    [outmono]. *)
Definition out_ext (o : list string) (w : world) : Prop := prefix o (w_out w).

Definition out_mono {A} (m : Py A) : Prop := forall o, preserves (out_ext o) m.

Create HintDb outmono discriminated.
#[export] Hint Constants Opaque : outmono.
#[export] Hint Variables Opaque : outmono.

Lemma out_mono_ret {A} (a : A) : out_mono (ret a).
Proof. intros o. apply preserves_ret. Qed.

Lemma out_mono_raise {A} e : out_mono (A := A) (raise e).
Proof. intros o. apply preserves_raise. Qed.

Lemma out_mono_lift_res {A} (r : res A) : out_mono (lift_res r).
Proof. intros o. apply preserves_lift_res. Qed.

Lemma out_mono_bind {A B} (m : Py A) (f : A -> Py B) :
  out_mono m -> (forall a, out_mono (f a)) -> out_mono (bind m f).
Proof. intros Hm Hf o. apply preserves_bind; [apply Hm|intros a; apply Hf]. Qed.

Lemma out_mono_try {A} (m : Py A) h :
  out_mono m -> (forall e, out_mono (h e)) -> out_mono (try_except m h).
Proof. intros Hm Hh o. apply preserves_try; [apply Hm|intros e; apply Hh]. Qed.

Lemma out_mono_fold {A B} (f : B -> A -> Py B) l b :
  (forall b x, out_mono (f b x)) -> out_mono (py_fold f l b).
Proof. intros Hf o. apply preserves_fold. intros b' x. apply Hf. Qed.

(** A step that keeps the printed lines, or appends to them. *)
Lemma out_mono_keep {A} (m : Py A) : (forall w, w_out (snd (m w)) = w_out w) -> out_mono m.
Proof. intros H o w Hw. unfold out_ext in *. by rewrite H. Qed.

Lemma out_mono_print line : out_mono (py_print line).
Proof. intros o w Hw. unfold out_ext in *. simpl. by apply prefix_app_r. Qed.

Ltac keeps_out := apply out_mono_keep; intros ?w; repeat case_match; reflexivity.

Lemma out_mono_read_file p : out_mono (read_file p).
Proof. unfold read_file. keeps_out. Qed.
Lemma out_mono_path_exists p : out_mono (path_exists p).
Proof. unfold path_exists. keeps_out. Qed.
Lemma out_mono_write_file p c : out_mono (write_file p c).
Proof. unfold write_file, modify_st. keeps_out. Qed.
Lemma out_mono_os_remove p : out_mono (os_remove p).
Proof. unfold os_remove. keeps_out. Qed.
Lemma out_mono_os_rename p q : out_mono (os_rename p q).
Proof. unfold os_rename. keeps_out. Qed.
Lemma out_mono_randint a b : out_mono (randint a b).
Proof. unfold randint. keeps_out. Qed.
Lemma out_mono_run_ps : out_mono run_ps.
Proof. unfold run_ps. keeps_out. Qed.
Lemma out_mono_run_netstat : out_mono run_netstat.
Proof. unfold run_netstat. keeps_out. Qed.
Lemma out_mono_getpwuid_name : out_mono getpwuid_name.
Proof. unfold getpwuid_name. keeps_out. Qed.
Lemma out_mono_getuid : out_mono getuid.
Proof. unfold getuid. keeps_out. Qed.
Lemma out_mono_realpath_argv0 : out_mono realpath_argv0.
Proof. unfold realpath_argv0. keeps_out. Qed.

Lemma out_mono_assert b : out_mono (py_assert b).
Proof. destruct b; [apply out_mono_ret|apply out_mono_raise]. Qed.

#[export] Hint Resolve out_mono_ret out_mono_raise out_mono_lift_res out_mono_print out_mono_assert
  out_mono_read_file out_mono_path_exists out_mono_write_file out_mono_os_remove
  out_mono_os_rename out_mono_randint out_mono_run_ps out_mono_run_netstat
  out_mono_getpwuid_name out_mono_getuid out_mono_realpath_argv0 : outmono.

(** Prove [out_mono] of a composite computation whose parts are in the
    database: split binds, [try]s and loops, and case on the branches. *)
Ltac out_mono_tac :=
  repeat first
    [ progress intros
    | progress cbv zeta
    | solve [eauto with outmono]
    | apply out_mono_bind
    | apply out_mono_try
    | apply out_mono_fold
    | case_match ].
