(* ===== verification/Registry.v ===== *)
(** * The registry of Mailpiles: .htaccess routes merged with live processes

    Models lines 144-163 ([_parse_ps], [_parse_netstat]), 224-249
    ([discover_mailpiles]), 252-267 ([parse_htaccess]) and 301-307
    ([_get_mailpiles]) of mailpile-admin.py.  The registry is the dict
    [mailpiles] from ["host:port"] to a record; the script builds its
    records as lists in [parse_htaccess] and as tuples in
    [discover_mailpiles] and [start_mailpile], and assigning an item of a
    tuple raises [TypeError], so a record remembers which one it is
    ([mp_is_list]).  The dict iterations ([processes.iteritems()]) have an
    unspecified order in Python 2: the loops are defined over any
    enumeration list, and the theorems hold for every order. *)

From Stdlib Require Import String Ascii ZArith Lia.
From stdpp Require Import base list gmap strings.
From S2P Require Import Prelude PyStr Escape Regex World.
Open Scope string_scope.
Open Scope py_scope.

Definition plus (p : ascii -> bool) : regex := RRep false 1 p.
Definition star (p : ascii -> bool) : regex := RRep false 0 p.
Definition lstar (p : ascii -> bool) : regex := RRep true 0 p.

(** ** [_parse_ps] *)

(** ['^(\S+)\s+(\d+)\s+\S+\s+\S+\s+\S+\s+(\S+).*\s(python2 .*/mp|mailpile)(?:\s+|$)'] *)
Definition ps_re : regex :=
  RSeqs [RGroup 1 (plus cls_S); plus cls_s; RGroup 2 (plus cls_d); plus cls_s;
         plus cls_S; plus cls_s; plus cls_S; plus cls_s; plus cls_S; plus cls_s;
         RGroup 3 (plus cls_S); star cls_dot; RCls cls_s;
         RGroup 4 (RAlt (RSeqs [RStr "python2 "; star cls_dot; RStr "/mp"])
                        (RStr "mailpile"));
         RAlt (plus cls_s) REnd].

Definition groups4 (m : mresult) : option (string * string * string * string) :=
  match mgroup m 1, mgroup m 2, mgroup m 3, mgroup m 4 with
  | Some a, Some b, Some c, Some d => Some (a, b, c, d)
  | _, _, _, _ => None
  end.

(** The rows [(user, pid, rss, command)] of the Mailpile processes. *)
Definition _parse_ps : Py (list (string * string * string * string)) :=
  out <- run_ps ;;
  ret (omap (fun line => groups4 (re_match ps_re line)) (splitlines out)).

(** ** [_parse_netstat] *)

(** ['^tcp\s+\S+\s+\S+\s+(\S+:\d+)\s+(\S+:.)\s+.*?\s(\d+)\/(\S+)\s*$'] *)
Definition ns_re : regex :=
  RSeqs [RStr "tcp"; plus cls_s; plus cls_S; plus cls_s; plus cls_S; plus cls_s;
         RGroup 1 (RSeqs [plus cls_S; RChr ":"; plus cls_d]); plus cls_s;
         RGroup 2 (RSeqs [plus cls_S; RChr ":"; RCls cls_dot]); plus cls_s;
         lstar cls_dot; RCls cls_s; RGroup 3 (plus cls_d); RChr "/";
         RGroup 4 (plus cls_S); star cls_s; REnd].

(** The rows [(local host:port, remote host:port, pid, program)]. *)
Definition _parse_netstat : Py (list (string * string * string * string)) :=
  out <- run_netstat ;;
  ret (omap (fun line => groups4 (re_match ns_re line)) (splitlines out)).

(** ** Registry records *)

(** [(user, host, port, in_htaccess, pid, rss)], and whether the Python
    value is a list (mutable) or a tuple. *)
Record mailpile : Type := {
  mp_user : string;
  mp_host : string;
  mp_port : string;
  mp_in_htaccess : bool;
  mp_pid : option string;
  mp_rss : option string;
  mp_is_list : bool
}.

#[export] Instance mailpile_eq_dec : EqDecision mailpile.
Proof. solve_decision. Defined.

Abbreviation mailpiles := (gmap string mailpile).

(** [mailpiles[hostport][4] = pid; mailpiles[hostport][5] = rss] on a list. *)
Definition set_live (pid rss : string) (r : mailpile) : mailpile :=
  {| mp_user := mp_user r; mp_host := mp_host r; mp_port := mp_port r;
     mp_in_htaccess := mp_in_htaccess r; mp_pid := Some pid; mp_rss := Some rss;
     mp_is_list := mp_is_list r |}.

(** ** [discover_mailpiles] *)

(** [processes[pid] = [username, proc, rss]] extended by [.append(hostport)]. *)
Record proc_details : Type := {
  pd_user : string;
  pd_proc : string;
  pd_rss : string;
  pd_listening : list string
}.

Definition add_ps_row (procs : gmap string proc_details)
    (row : string * string * string * string) : gmap string proc_details :=
  let '(username, pid, rss, proc) := row in
  <[pid := {| pd_user := username; pd_proc := proc; pd_rss := rss; pd_listening := [] |}]> procs.

Definition add_ns_row (procs : gmap string proc_details)
    (row : string * string * string * string) : gmap string proc_details :=
  let '(lhp, _, pid, _) := row in
  match procs !! pid with
  | Some d => <[pid := {| pd_user := pd_user d; pd_proc := pd_proc d; pd_rss := pd_rss d;
                          pd_listening := pd_listening d ++ [lhp] |}]> procs
  | None => procs
  end.

(** [sorted(listening)[0]], when [listening] is not empty. *)
Definition primary (d : proc_details) : option string :=
  head (sorted_str (pd_listening d)).

(** [host, port = hostport.split(':')]: [None] where Python raises
    [ValueError] (not exactly two pieces). *)
Definition hp_split (hp : string) : option (string * string) :=
  match split ":" hp with
  | [h; p] => Some (h, p)
  | _ => None
  end.

(** [(username, host, port, False, pid, rss)] *)
Definition new_record (pid : string) (d : proc_details) (host port : string) : mailpile :=
  {| mp_user := pd_user d; mp_host := host; mp_port := port; mp_in_htaccess := false;
     mp_pid := Some pid; mp_rss := Some (pd_rss d); mp_is_list := false |}.

(** The body of the loop over [processes.iteritems()]. *)
Definition discover_one (m : mailpiles) (pid : string) (d : proc_details) : res mailpiles :=
  match primary d with
  | None => Ok m
  | Some hostport =>
      match hp_split hostport with
      | None => Exc ValueError
      | Some (host, port) =>
          match m !! hostport with
          | None => Ok (<[hostport := new_record pid d host port]> m)
          | Some r => if mp_is_list r then Ok (<[hostport := set_live pid (pd_rss d) r]> m)
                      else Exc TypeError
          end
      end
  end.

Fixpoint discover_loop (l : list (string * proc_details)) (m : mailpiles) : res mailpiles :=
  match l with
  | [] => Ok m
  | (pid, d) :: l' => m' <-! discover_one m pid d ;; discover_loop l' m'
  end.

Definition build_processes (ps_rows ns_rows : list (string * string * string * string))
    : gmap string proc_details :=
  foldl add_ns_row (foldl add_ps_row ∅ ps_rows) ns_rows.

Definition discover_mailpiles (m : mailpiles) : Py mailpiles :=
  ps_rows <- _parse_ps ;;
  ns_rows <- _parse_netstat ;;
  lift_res (discover_loop (map_to_list (build_processes ps_rows ns_rows)) m).

(** ** [parse_htaccess] *)

Definition APACHE_HTACCESS_PATH : string := "/var/lib/mailpile/apache/.htaccess".

(** ['^RewriteRule\s+[^a-z]+([a-z0-9]+).*?\/\/([^:]+):(\d+)\/.*# MP\s*$'] *)
Definition htaccess_re : regex :=
  RSeqs [RStr "RewriteRule"; plus cls_s; plus (fun c => negb (is_lower c));
         RGroup 1 (plus (fun c => is_lower c || is_digit c)); lstar cls_dot; RStr "//";
         RGroup 2 (plus (cls_neq ":")); RChr ":"; RGroup 3 (plus cls_d); RChr "/";
         star cls_dot; RStr "# MP"; star cls_s; REnd].

Definition parse_line (m : mailpiles) (line : string) : mailpiles :=
  let mm := re_match htaccess_re line in
  match mgroup mm 1, mgroup mm 2, mgroup mm 3 with
  | Some user, Some host, Some port =>
      <[host ++ ":" ++ port := {| mp_user := user; mp_host := host; mp_port := port;
                                  mp_in_htaccess := true; mp_pid := None; mp_rss := None;
                                  mp_is_list := true |}]> m
  | _, _, _ => m
  end.

Definition ioerror_text (path : string) : string :=
  "[Errno 2] No such file or directory: '" ++ path ++ "'".

Definition parse_htaccess (m : mailpiles) : Py mailpiles :=
  try_except
    (content <- read_file APACHE_HTACCESS_PATH ;;
     ret (foldl parse_line m (file_lines content)))
    (fun e => match e with
              | IOError | OSError | KeyError =>
                  py_print ("WARNING: " ++ ioerror_text APACHE_HTACCESS_PATH) ;; ret m
              | _ => raise e
              end).

(** [_get_mailpiles(args)] *)
Definition _get_mailpiles (discover : bool) : Py mailpiles :=
  m <- parse_htaccess ∅ ;;
  if discover then discover_mailpiles m else ret m.

(** ** Reconciliation: the union merge computed by the discovery loop *)

(** The process, if any, whose primary host:port is [k]. *)
Definition live_at (l : list (string * proc_details)) (k : string) : option (string * proc_details) :=
  List.find (fun e => bool_decide (primary e.2 = Some k)) l.

(** The reconciled registry, key by key: a route keeps its identity
    (user, host, port, registration) and takes the liveness of the process
    listening there; a process without a route becomes an unregistered
    record; a route without a process is unchanged. *)
Definition reconciled (l : list (string * proc_details)) (m : mailpiles) (k : string)
    : option mailpile :=
  match live_at l k with
  | Some (pid, d) =>
      match m !! k with
      | Some r => Some (set_live pid (pd_rss d) r)
      | None => match hp_split k with
                | Some (h, p) => Some (new_record pid d h p)
                | None => None
                end
      end
  | None => m !! k
  end.

Lemma live_at_cons pid d l k :
  live_at ((pid, d) :: l) k = if decide (primary d = Some k) then Some (pid, d) else live_at l k.
Proof. unfold live_at. simpl. by case_bool_decide; case_decide. Qed.

Lemma live_at_notin l k :
  k ∉ omap (fun e => primary e.2) l -> live_at l k = None.
Proof.
  induction l as [|[pid d] l IH]; intros Hn; [done|].
  rewrite live_at_cons. case_decide as Hd.
  - exfalso. apply Hn. apply list_elem_of_omap. exists (pid, d). split; [by left|done].
  - apply IH. intros Hk. apply Hn. apply list_elem_of_omap in Hk as (e & He & Hek).
    apply list_elem_of_omap. exists e. split; [by right|done].
Qed.

Lemma reconciled_ext l m1 m2 k :
  m1 !! k = m2 !! k -> reconciled l m1 k = reconciled l m2 k.
Proof. intros H. unfold reconciled. by rewrite H. Qed.

Lemma discover_one_none m pid d :
  primary d = None -> discover_one m pid d = Ok m.
Proof. intros H. unfold discover_one. by rewrite H. Qed.

(** One step changes the registry at the process's primary key only. *)
Lemma discover_one_other m pid d m1 k :
  discover_one m pid d = Ok m1 -> primary d <> Some k -> m1 !! k = m !! k.
Proof.
  unfold discover_one. intros Hs Hk.
  destruct (primary d) as [hp|]; [|by injection Hs as <-].
  destruct (hp_split hp) as [[h p]|]; [|done].
  assert (hp <> k) by congruence.
  destruct (m !! hp) as [r|]; [destruct (mp_is_list r)|];
    try discriminate; injection Hs as <-; by rewrite lookup_insert_ne.
Qed.

#[export] Hint Resolve discover_one_none : mailpile.

Section Reconcile.
Variable l : list (string * proc_details).

(** Distinct listening processes have distinct primary host:ports;
    any number of processes may listen nowhere. *)
Definition distinct_primaries : Prop := NoDup (omap (fun e => primary e.2) l).

(** Every primary host:port splits as [host:port]. *)
Definition wf_primaries : Prop :=
  forall e k, e ∈ l -> primary e.2 = Some k -> is_Some (hp_split k).

(** The routes a process updates are lists (parse_htaccess makes them). *)
Definition routes_mutable (m : mailpiles) : Prop :=
  forall e k r, e ∈ l -> primary e.2 = Some k -> m !! k = Some r -> mp_is_list r = true.
End Reconcile.

Lemma discover_one_step pid d l m :
  distinct_primaries ((pid, d) :: l) -> wf_primaries ((pid, d) :: l) ->
  routes_mutable ((pid, d) :: l) m ->
  exists m1, discover_one m pid d = Ok m1 /\ routes_mutable l m1 /\
    forall k, reconciled l m1 k = reconciled ((pid, d) :: l) m k.
Proof.
  intros Hnd Hwf Hmut. unfold distinct_primaries in Hnd. cbn [omap list_omap snd] in Hnd.
  destruct (primary d) as [k0|] eqn:Hp.
  - apply NoDup_cons in Hnd as [Hnotin _].
    destruct (Hwf (pid, d) k0) as [[h p] Hs]; [by left|done|].
    assert (Hm1 : exists m1, discover_one m pid d = Ok m1 /\ m1 !! k0 = reconciled ((pid, d) :: l) m k0
                    /\ forall k, k <> k0 -> m1 !! k = m !! k).
    { unfold discover_one, reconciled. rewrite Hp, Hs, live_at_cons, decide_True by done.
      destruct (m !! k0) as [r|] eqn:Hr.
      - rewrite (Hmut (pid, d) k0 r) by (by left || done).
        eexists; split; [done|]. split; [by rewrite lookup_insert_eq|].
        intros k Hk. by rewrite lookup_insert_ne.
      - eexists; split; [done|]. split; [by rewrite lookup_insert_eq|].
        intros k Hk. by rewrite lookup_insert_ne. }
    destruct Hm1 as (m1 & Hstep & Hk0 & Hother).
    exists m1. split; [done|]. split.
    + intros e k r He Hek Hr. assert (k <> k0).
      { intros ->. apply Hnotin. apply list_elem_of_omap. by exists e. }
      rewrite Hother in Hr by done. eapply Hmut; [by right|done|done].
    + intros k. destruct (decide (k = k0)) as [->|Hne].
      * unfold reconciled at 1. by rewrite live_at_notin.
      * rewrite (reconciled_ext _ _ m) by auto. unfold reconciled.
        rewrite live_at_cons, decide_False by congruence. done.
  - exists m. split; [by apply discover_one_none|]. split.
    + intros e k r He. apply Hmut. by right.
    + intros k. unfold reconciled. by rewrite live_at_cons, decide_False by congruence.
Qed.

Lemma discover_loop_reconciles (l : list (string * proc_details)) (m : mailpiles) :
  distinct_primaries l -> wf_primaries l -> routes_mutable l m ->
  exists m', discover_loop l m = Ok m' /\ forall k, m' !! k = reconciled l m k.
Proof.
  revert m. induction l as [|[pid d] l IH]; intros m Hnd Hwf Hmut.
  - exists m. split; [done|]. intros k. done.
  - destruct (discover_one_step pid d l m Hnd Hwf Hmut) as (m1 & Hstep & Hmut1 & Heq).
    assert (Hnd' : distinct_primaries l).
    { unfold distinct_primaries in *. cbn [omap list_omap snd] in Hnd.
      destruct (primary d); [by inversion Hnd|done]. }
    assert (Hwf' : wf_primaries l) by (intros e k He; apply Hwf; by right).
    destruct (IH m1 Hnd' Hwf' Hmut1) as (m' & Hloop & Hm').
    exists m'. simpl. rewrite Hstep. split; [done|]. intros k. by rewrite Hm', Heq.
Qed.

(** C1: reconciliation.  When distinct processes listen on distinct
    primary host:ports (each of the form host:port) and the routes they
    reach are the mutable records [parse_htaccess] builds, the discovery
    loop succeeds, in every iteration order, and yields the union merge
    keyed by host:port: a route keeps its user, host, port and proxy
    registration and takes the pid and rss of the process listening there;
    a process without a route is added as an unregistered record; every
    other route is unchanged. *)
Theorem discover_reconciles (l : list (string * proc_details)) (m : mailpiles) :
  distinct_primaries l -> wf_primaries l -> routes_mutable l m ->
  exists m', discover_loop l m = Ok m' /\ forall k, m' !! k = reconciled l m k.
Proof. apply discover_loop_reconciles. Qed.

(** Executable checks of the hypotheses. *)
Definition wf_primaries_b (l : list (string * proc_details)) : bool :=
  forallb (fun e => match primary e.2 with
                    | Some k => bool_decide (is_Some (hp_split k))
                    | None => true
                    end) l.

Definition routes_mutable_b (l : list (string * proc_details)) (m : mailpiles) : bool :=
  forallb (fun e => match primary e.2 with
                    | Some k => match m !! k with Some r => mp_is_list r | None => true end
                    | None => true
                    end) l.

Lemma wf_primaries_b_sound l : wf_primaries_b l = true -> wf_primaries l.
Proof.
  unfold wf_primaries_b. rewrite forallb_forall. intros H e k He Hk.
  apply list_elem_of_In in He. specialize (H e He). rewrite Hk in H.
  by apply bool_decide_eq_true in H.
Qed.

Lemma routes_mutable_b_sound l m : routes_mutable_b l m = true -> routes_mutable l m.
Proof.
  unfold routes_mutable_b. rewrite forallb_forall. intros H e k r He Hk Hr.
  apply list_elem_of_In in He. specialize (H e He). by rewrite Hk, Hr in H.
Qed.

(** The example of the specification: a route for alice at h:1, alice's
    process 100 listening there, and bob's process 200 listening at h:2. *)
Definition ex_route : mailpiles :=
  {[ "h:1" := {| mp_user := "alice"; mp_host := "h"; mp_port := "1"; mp_in_htaccess := true;
                 mp_pid := None; mp_rss := None; mp_is_list := true |} ]}.
Definition ex_procs : list (string * proc_details) :=
  [("100", {| pd_user := "alice"; pd_proc := "mailpile"; pd_rss := "10"; pd_listening := ["h:1"] |});
   ("200", {| pd_user := "bob"; pd_proc := "mailpile"; pd_rss := "20"; pd_listening := ["h:2"] |})].

Lemma discover_reconciles_witness :
  (distinct_primaries ex_procs /\ wf_primaries ex_procs /\ routes_mutable ex_procs ex_route) /\
  exists m', discover_loop ex_procs ex_route = Ok m' /\ forall k, m' !! k = reconciled ex_procs ex_route k.
Proof.
  assert (H1 : distinct_primaries ex_procs) by (unfold distinct_primaries; apply (bool_decide_unpack _); vm_compute; reflexivity).
  assert (H2 : wf_primaries ex_procs) by (apply wf_primaries_b_sound; reflexivity).
  assert (H3 : routes_mutable ex_procs ex_route) by (apply routes_mutable_b_sound; reflexivity).
  split; [auto|]. apply discover_reconciles; auto.
Defined.

(** A tuple record at [k] makes the loop fail as soon as a process
    listening at [k] is reached. *)
Lemma discover_loop_tuple_fails l m k r m' :
  m !! k = Some r -> mp_is_list r = false ->
  (exists e, e ∈ l /\ primary e.2 = Some k) -> discover_loop l m <> Ok m'.
Proof.
  revert m. induction l as [|[pid d] l IH]; intros m Hr Ht [e [He Hk]]; [set_solver|].
  simpl. destruct (discover_one m pid d) as [m1|] eqn:Hs; [|done].
  destruct (decide (primary d = Some k)) as [Hd|Hd].
  - unfold discover_one in Hs. rewrite Hd, Hr, Ht in Hs.
    by destruct (hp_split k) as [[]|].
  - apply elem_of_cons in He as [->|He]; [done|].
    apply (IH m1); [by rewrite (discover_one_other m pid d)|done|eauto].
Qed.

(** C16: two Mailpile processes whose primary host:port is the same key,
    absent from the routes, make discovery fail in every iteration order:
    the first inserts a tuple and the second assigns into it, raising
    [TypeError] (or an earlier [ValueError]).  The specification calls
    duplicates a warnable inconsistency, not a fatal error. *)
Theorem discover_shared_hostport_fails (l : list (string * proc_details)) m k m' :
  2 <= length (filter (fun e => primary e.2 = Some k) l) -> m !! k = None ->
  discover_loop l m <> Ok m'.
Proof.
  revert m. induction l as [|[pid d] l IH]; intros m Hlen Hm; simpl in *; [lia|].
  destruct (discover_one m pid d) as [m1|] eqn:Hs; [|done].
  rewrite filter_cons in Hlen. case_decide as Hd; simpl in Hlen, Hd.
  - unfold discover_one in Hs. rewrite Hd, Hm in Hs.
    destruct (hp_split k) as [[h p]|]; [|done]. injection Hs as <-.
    eapply discover_loop_tuple_fails; [by rewrite lookup_insert_eq|done|].
    destruct (filter (fun e => primary e.2 = Some k) l) as [|e fl] eqn:Hf; simpl in Hlen; [lia|].
    exists e. assert (Hin : e ∈ filter (fun e => primary e.2 = Some k) l) by (rewrite Hf; set_solver).
    rewrite list_elem_of_filter in Hin. destruct Hin as [Hek Hel]. by split.
  - apply IH; [done|]. by rewrite (discover_one_other m pid d).
Qed.

Lemma discover_shared_hostport_fails_witness :
  2 <= length (filter (fun e => primary e.2 = Some "h:1")
     [("100", {| pd_user := "a"; pd_proc := "mailpile"; pd_rss := "1"; pd_listening := ["h:1"] |});
      ("101", {| pd_user := "a"; pd_proc := "mailpile"; pd_rss := "1"; pd_listening := ["h:1"; "h:9"] |})])
  /\ (∅ : mailpiles) !! "h:1" = None /\
  discover_loop
     [("100", {| pd_user := "a"; pd_proc := "mailpile"; pd_rss := "1"; pd_listening := ["h:1"] |});
      ("101", {| pd_user := "a"; pd_proc := "mailpile"; pd_rss := "1"; pd_listening := ["h:1"; "h:9"] |})]
     ∅ <> Ok ∅.
Proof.
  assert (H : 2 <= length (filter (fun e => primary e.2 = Some "h:1")
     [("100", {| pd_user := "a"; pd_proc := "mailpile"; pd_rss := "1"; pd_listening := ["h:1"] |});
      ("101", {| pd_user := "a"; pd_proc := "mailpile"; pd_rss := "1"; pd_listening := ["h:1"; "h:9"] |})]))
    by (vm_compute; lia).
  split; [done|]. split; [reflexivity|]. by apply discover_shared_hostport_fails with (k := "h:1").
Defined.

(** ** Building the registry: [_get_mailpiles] *)

(** The records [parse_htaccess] makes: mutable, registered, not live. *)
Definition route_record (r : mailpile) : Prop :=
  mp_is_list r = true /\ mp_in_htaccess r = true /\ mp_pid r = None.

Lemma parse_line_routes m line :
  map_Forall (fun _ => route_record) m -> map_Forall (fun _ => route_record) (parse_line m line).
Proof.
  intros Hm. unfold parse_line.
  repeat case_match; try done.
  apply map_Forall_insert_2; [|done]. by repeat split.
Qed.

Lemma parse_lines_routes m lines :
  map_Forall (fun _ => route_record) m ->
  map_Forall (fun _ => route_record) (foldl parse_line m lines).
Proof.
  revert m. induction lines as [|line lines IH]; intros m Hm; [done|].
  simpl. apply IH. by apply parse_line_routes.
Qed.

Definition htaccess_warning : string := "WARNING: " ++ ioerror_text APACHE_HTACCESS_PATH.

(** The routes read from the .htaccess file of a world (none without it). *)
Definition routes_of (w : world) : mailpiles :=
  match w_files w !! APACHE_HTACCESS_PATH with
  | Some c => foldl parse_line ∅ (file_lines c)
  | None => ∅
  end.

Lemma parse_htaccess_run w :
  parse_htaccess ∅ w =
  match w_files w !! APACHE_HTACCESS_PATH with
  | Some _ => (Ok (routes_of w), w)
  | None => (Ok (routes_of w), set_out (w_out w ++ [htaccess_warning]) w)
  end.
Proof.
  unfold parse_htaccess, routes_of, try_except, bind, read_file, ret, py_print, modify_st.
  by destruct (w_files w !! APACHE_HTACCESS_PATH).
Qed.

(** The live processes of a world, in the dict's iteration order. *)
Definition rows_of (re : regex) (out : string) : list (string * string * string * string) :=
  omap (fun line => groups4 (re_match re line)) (splitlines out).

Definition procs_of (w : world) : option (list (string * proc_details)) :=
  match w_ps w, w_netstat w with
  | Some ps, Some ns => Some (map_to_list (build_processes (rows_of ps_re ps) (rows_of ns_re ns)))
  | _, _ => None
  end.

Lemma discover_mailpiles_run m w :
  discover_mailpiles m w =
  match w_ps w, w_netstat w with
  | Some ps, Some ns =>
      (discover_loop (map_to_list (build_processes (rows_of ps_re ps) (rows_of ns_re ns))) m,
       set_cmds ((w_cmds w ++ ["ps auxw"]) ++ ["netstat -ant --program"]) w)
  | Some _, None => (Exc OSError, set_cmds (w_cmds w ++ ["ps auxw"]) w)
  | None, _ => (Exc OSError, w)
  end.
Proof.
  unfold discover_mailpiles, _parse_ps, _parse_netstat, bind, run_ps, run_netstat,
    ret, lift_res.
  destruct (w_ps w) as [ps|]; [|done]. simpl.
  by destruct (w_netstat w).
Qed.

Lemma discover_mailpiles_result m w :
  fst (discover_mailpiles m w) =
  match procs_of w with
  | Some l => discover_loop l m
  | None => Exc OSError
  end.
Proof.
  rewrite discover_mailpiles_run. unfold procs_of. by destruct (w_ps w), (w_netstat w).
Qed.

(** C2: building the registry with discovery ([_get_mailpiles] with
    [--discover]) yields the reconciliation of the .htaccess routes with the
    live processes, whenever distinct processes listen on distinct
    host:ports of the form host:port: no route loses its user or its proxy
    registration, each live process appears with its pid, and nothing else
    changes. *)
Theorem get_mailpiles_reconciles (w : world) (l : list (string * proc_details)) :
  procs_of w = Some l -> distinct_primaries l -> wf_primaries l ->
  exists m', fst (_get_mailpiles true w) = Ok m' /\
             forall k, m' !! k = reconciled l (routes_of w) k.
Proof.
  intros Hl Hnd Hwf.
  assert (Hr : map_Forall (fun _ => route_record) (routes_of w)).
  { unfold routes_of. destruct (w_files w !! _); [|done]. by apply parse_lines_routes. }
  destruct (discover_loop_reconciles l (routes_of w)) as (m' & Hm' & Hspec); [done|done| |].
  { intros e k r _ _ Hk. by destruct (Hr k r Hk). }
  exists m'. split; [|done].
  unfold _get_mailpiles, bind. rewrite parse_htaccess_run.
  destruct (w_files w !! APACHE_HTACCESS_PATH); simpl;
    rewrite discover_mailpiles_result; [rewrite Hl | unfold procs_of in *; simpl; rewrite Hl];
    by rewrite Hm'.
Qed.

Definition ex_world : world := {|
  w_files := {[ APACHE_HTACCESS_PATH :=
    "RewriteRule ^(alice/.*)$  http://127.0.0.1:33411/mailpile/$1  [P,L,QSA]  # MP" ++ nl ]};
  w_ps := Some ("USER PID" ++ nl ++
    "alice  100  0.5  1.2 123456 45678 ?  Sl  10:00  0:05 python2 /opt/Mailpile/mp --www=x" ++ nl ++
    "bob    200  0.5  1.2 123456 5555 ?  Sl  10:00  0:05 python2 /opt/Mailpile/mp --www=y");
  w_netstat := Some (
    "tcp        0      0 127.0.0.1:33411         0.0.0.0:*               LISTEN      100/python2" ++ nl ++
    "tcp        0      0 127.0.0.1:33412         0.0.0.0:*               LISTEN      200/python2");
  w_out := []; w_rand := fun _ => 0%Z; w_rand_next := 0; w_uid := 0%Z; w_passwd := [];
  w_hostname := "host"; w_cmds := []; w_realpath := fun p => p;
  w_file := "/opt/Mailpile/scripts/mailpile-admin.py";
  w_argv0 := "/opt/Mailpile/scripts/mailpile-admin.py"; w_sys := sys0 |}.

Lemma get_mailpiles_reconciles_witness :
  exists l, (procs_of ex_world = Some l /\ distinct_primaries l /\ wf_primaries l) /\
    exists m', fst (_get_mailpiles true ex_world) = Ok m' /\
               forall k, m' !! k = reconciled l (routes_of ex_world) k.
Proof.
  eexists. assert (Hl : procs_of ex_world = Some _) by (vm_compute; reflexivity).
  assert (H1 : distinct_primaries (map_to_list (build_processes
            (rows_of ps_re (default "" (w_ps ex_world))) (rows_of ns_re (default "" (w_netstat ex_world))))))
    by (unfold distinct_primaries; apply (bool_decide_unpack _); vm_compute; reflexivity).
  assert (H2 : wf_primaries (map_to_list (build_processes
            (rows_of ps_re (default "" (w_ps ex_world))) (rows_of ns_re (default "" (w_netstat ex_world))))))
    by (apply wf_primaries_b_sound; vm_compute; reflexivity).
  split; [split; [exact Hl|split; assumption]|].
  apply get_mailpiles_reconciles; [exact Hl|assumption|assumption].
Defined.

(** Building the registry does not touch the files, nor the commands'
    outputs: at most a warning is printed. *)
Lemma get_mailpiles_state b w :
  w_files (snd (_get_mailpiles b w)) = w_files w /\
  w_ps (snd (_get_mailpiles b w)) = w_ps w /\
  w_netstat (snd (_get_mailpiles b w)) = w_netstat w.
Proof.
  unfold _get_mailpiles, bind. rewrite parse_htaccess_run.
  destruct (w_files w !! APACHE_HTACCESS_PATH), b; simpl;
    rewrite ?discover_mailpiles_run; simpl;
    repeat case_match; simpl; auto.
Qed.

Lemma routes_of_ext w1 w2 : w_files w1 = w_files w2 -> routes_of w1 = routes_of w2.
Proof. intros H. unfold routes_of. by rewrite H. Qed.

Lemma procs_of_ext w1 w2 :
  w_ps w1 = w_ps w2 -> w_netstat w1 = w_netstat w2 -> procs_of w1 = procs_of w2.
Proof. intros H1 H2. unfold procs_of. by rewrite H1, H2. Qed.

Lemma get_mailpiles_result b w :
  fst (_get_mailpiles b w) =
  if b then match procs_of w with
            | Some l => discover_loop l (routes_of w)
            | None => Exc OSError
            end
  else Ok (routes_of w).
Proof.
  unfold _get_mailpiles, bind. rewrite parse_htaccess_run.
  destruct (w_files w !! APACHE_HTACCESS_PATH) eqn:Hf, b; simpl;
    rewrite ?discover_mailpiles_result; reflexivity.
Qed.

(** The registry build is idempotent: building it a second time, in
    the world the first build left (with its warning printed), gives the
    same result, value or error. *)
Theorem get_mailpiles_idempotent (b : bool) (w : world) :
  fst (_get_mailpiles b (snd (_get_mailpiles b w))) = fst (_get_mailpiles b w).
Proof.
  destruct (get_mailpiles_state b w) as (Hf & Hp & Hn).
  rewrite !get_mailpiles_result.
  by rewrite (routes_of_ext _ w), (procs_of_ext _ w).
Qed.

(** C23: when [ps] (or [netstat]) cannot be started, building the registry
    with discovery raises [OSError]: [subprocess.Popen] is not guarded.
    The specification says discovery degrades to an empty result and the
    registry falls back to the routes. *)
Theorem get_mailpiles_no_ps (w : world) :
  w_ps w = None -> fst (_get_mailpiles true w) = Exc OSError.
Proof.
  intros H. rewrite get_mailpiles_result. unfold procs_of. by rewrite H.
Qed.

Lemma get_mailpiles_no_ps_witness :
  w_ps (set_files ∅ {| w_files := ∅; w_ps := None; w_netstat := None; w_out := [];
                       w_rand := fun _ => 0%Z; w_rand_next := 0; w_uid := 0%Z;
                       w_passwd := []; w_hostname := "h"; w_cmds := [];
                       w_realpath := fun p => p; w_file := ""; w_argv0 := ""; w_sys := sys0 |}) = None /\
  fst (_get_mailpiles true {| w_files := ∅; w_ps := None; w_netstat := None; w_out := [];
                              w_rand := fun _ => 0%Z; w_rand_next := 0; w_uid := 0%Z;
                              w_passwd := []; w_hostname := "h"; w_cmds := [];
                              w_realpath := fun p => p; w_file := ""; w_argv0 := ""; w_sys := sys0 |})
  = Exc OSError.
Proof. split; [reflexivity|]. apply get_mailpiles_no_ps. reflexivity. Defined.

(** ** Well-formedness: every key is the host:port of its record *)

Definition registry_wf (m : mailpiles) : Prop :=
  map_Forall (fun k r => k = mp_host r ++ ":" ++ mp_port r) m.

Lemma hp_split_join hp h p : hp_split hp = Some (h, p) -> hp = h ++ ":" ++ p.
Proof.
  unfold hp_split. pose proof (split_acc_concat ":" EmptyString hp) as Hc. unfold split.
  destruct (split_acc ":" EmptyString hp) as [|x [|y [|z l]]]; try done.
  intros [= <- <-]. cbn [String.concat str_rev] in Hc. rewrite append_empty_l in Hc. by rewrite <-Hc.
Qed.

Lemma parse_line_wf m line : registry_wf m -> registry_wf (parse_line m line).
Proof.
  intros Hm. unfold parse_line. set (mm := re_match htaccess_re line).
  repeat case_match; try done.
  by apply map_Forall_insert_2.
Qed.

Lemma discover_one_wf m pid d m' :
  registry_wf m -> discover_one m pid d = Ok m' -> registry_wf m'.
Proof.
  intros Hm. unfold discover_one.
  destruct (primary d) as [hp|]; [|by intros [= <-]].
  destruct (hp_split hp) as [[h p]|] eqn:Hs; [|done].
  destruct (m !! hp) as [r|] eqn:Hr.
  - destruct (mp_is_list r); [|done]. intros [= <-]. apply map_Forall_insert_2; [|done].
    by apply (Hm hp r Hr).
  - intros [= <-]. apply map_Forall_insert_2; [|done]. by apply hp_split_join.
Qed.

Lemma discover_loop_wf l m m' :
  registry_wf m -> discover_loop l m = Ok m' -> registry_wf m'.
Proof.
  revert m. induction l as [|[pid d] l IH]; intros m Hm; simpl; [by intros [= <-]|].
  destruct (discover_one m pid d) as [m1|] eqn:E; [|done]. apply IH. by eapply discover_one_wf.
Qed.

Lemma routes_of_wf w : registry_wf (routes_of w).
Proof.
  unfold routes_of. destruct (w_files w !! _); [|apply map_Forall_empty].
  generalize (file_lines s). intros lines. cut (forall m, registry_wf m -> registry_wf (foldl parse_line m lines)).
  { intros H. apply H, map_Forall_empty. }
  induction lines as [|line lines IH]; intros m Hm; [done|]. apply IH. by apply parse_line_wf.
Qed.

(** C34: every registry [_get_mailpiles] builds is well formed: each record
    is stored under the key ["host:port"] made of its own host and port,
    whether it comes from a .htaccess rule or from a live process. *)
Theorem get_mailpiles_wf (b : bool) (w : world) (m : mailpiles) :
  fst (_get_mailpiles b w) = Ok m -> registry_wf m.
Proof.
  rewrite get_mailpiles_result. pose proof (routes_of_wf w) as Hr.
  destruct b; [destruct (procs_of w); [|done]|by intros [= <-]].
  by apply discover_loop_wf.
Qed.

Lemma get_mailpiles_wf_witness :
  fst (_get_mailpiles true ex_world) = Ok (match fst (_get_mailpiles true ex_world) with
                                          | Ok m => m | Exc _ => ∅ end) /\
  registry_wf (match fst (_get_mailpiles true ex_world) with Ok m => m | Exc _ => ∅ end).
Proof.
  assert (H : fst (_get_mailpiles true ex_world) =
              Ok (match fst (_get_mailpiles true ex_world) with Ok m => m | Exc _ => ∅ end))
    by vm_decide.
  split; [exact H|]. exact (get_mailpiles_wf true ex_world _ H).
Defined.

(** ** Output *)

Lemma out_mono_parse_ps : out_mono _parse_ps.
Proof. unfold _parse_ps. out_mono_tac. Qed.
Lemma out_mono_parse_netstat : out_mono _parse_netstat.
Proof. unfold _parse_netstat. out_mono_tac. Qed.
#[export] Hint Resolve out_mono_parse_ps out_mono_parse_netstat : outmono.

Lemma out_mono_discover_mailpiles m : out_mono (discover_mailpiles m).
Proof. unfold discover_mailpiles. out_mono_tac. Qed.
Lemma out_mono_parse_htaccess m : out_mono (parse_htaccess m).
Proof. unfold parse_htaccess. out_mono_tac. Qed.
#[export] Hint Resolve out_mono_discover_mailpiles out_mono_parse_htaccess : outmono.

Lemma out_mono_get_mailpiles b : out_mono (_get_mailpiles b).
Proof. unfold _get_mailpiles. out_mono_tac. Qed.
#[export] Hint Resolve out_mono_get_mailpiles : outmono.
