(* ===== verification/Htaccess.v ===== *)
(** * Writing the proxy routes: [save_htaccess]

    Models lines 77-92 (the two templates) and 270-287 ([save_htaccess]) of
    mailpile-admin.py.  The loop over [mailpiles.iteritems()] keeps the
    first record of each user, in the dict's iteration order, and prints a
    warning for every other; the rules are joined into the .htaccess
    template, written to [.htaccess.new], and the file is replaced by
    [os.remove] followed by [os.rename].  [os_settings] is a dict the
    caller passes in and keeps: the function stores ["rewriterules"] in
    it, so the updated dict is returned.  *)

From Stdlib Require Import String Ascii ZArith Lia.
From stdpp Require Import base list gmap strings.
From S2P Require Import Prelude PyStr Escape Regex World Registry.
Open Scope string_scope.
Open Scope py_scope.

Definition APACHE_REWRITE_TEMPLATE : string :=
  "RewriteRule ^(%(user)s/.*)$  http://%(host)s:%(port)s/mailpile/$1  [P,L,QSA]  # MP".

Definition APACHE_HTACCESS_TEMPLATE : string :=
  "# Note: Autogenerated by mailpile-admin.py, edit at your own risk!" ++ nl ++
  nl ++
  "# These are our configured Mailpiles:" ++ nl ++
  "%(rewriterules)s" ++ nl ++
  nl ++
  "# Redirect any proxy errors or 404 errors to mailpile-admin.py:" ++ nl ++
  "ErrorDocument 503 %(webroot)snot-running.html" ++ nl ++
  "ErrorDocument 404 %(webroot)snot-running.html" ++ nl ++
  "RewriteRule ^not-running.html %(webroot)s [L,R=302,E=nolcache:1]" ++ nl ++
  "Header always set Cache-Control " ++ dq ++ "no-store, no-cache, must-revalidate" ++ dq ++
    " env=nocache" ++ nl ++
  "Header always set Expires " ++ dq ++ "Thu, 01 Jan 1970 00:00:00 GMT" ++ dq ++
    " env=nocache" ++ nl.

Definition HTACCESS_NEW : string := APACHE_HTACCESS_PATH ++ ".new".

(** One iteration of the loop: [(rules, added)] is the list of rules and
    the set of users [added] already has. *)
Definition save_step (acc : list string * gset string) (e : string * mailpile)
    : Py (list string * gset string) :=
  let '(rules, added) := acc in
  let '(hostport, r) := e in
  if bool_decide (mp_user r ∈ added) then
    py_print ("WARNING: User " ++ mp_user r ++ " has multiple Mailpiles! Skipped " ++ hostport) ;;
    ret acc
  else
    u <- lift_res (_escape (mp_user r)) ;;
    rule <- lift_res (py_format APACHE_REWRITE_TEMPLATE
                        (<["user" := u]> (<["host" := mp_host r]> {[ "port" := mp_port r ]}))) ;;
    ret ((rules ++ [rule])%list, {[ mp_user r ]} ∪ added).

(** The rules, for the records in iteration order [l]. *)
Definition save_rules (l : list (string * mailpile)) : Py (list string * gset string) :=
  py_fold save_step l ([], ∅).

(** [with open(... + '.new', 'w') as fd: ...]: the file is created empty
    when opened, then written. *)
Definition write_htaccess_new (os_settings : gmap string string) (rules : list string)
    : Py (gmap string string) :=
  write_file HTACCESS_NEW "" ;;
  let os' := <["rewriterules" := String.concat nl rules]> os_settings in
  content <- lift_res (py_format APACHE_HTACCESS_TEMPLATE os') ;;
  write_file HTACCESS_NEW content ;;
  ret os'.

Definition save_htaccess_in_order (l : list (string * mailpile))
    (os_settings : gmap string string) : Py (gmap string string) :=
  acc <- save_rules l ;;
  os' <- write_htaccess_new os_settings (fst acc) ;;
  os_remove APACHE_HTACCESS_PATH ;;
  os_rename HTACCESS_NEW APACHE_HTACCESS_PATH ;;
  ret os'.

Definition save_htaccess (os_settings : gmap string string) (m : mailpiles)
    : Py (gmap string string) :=
  save_htaccess_in_order (map_to_list m) os_settings.

(** ** The rules the loop produces *)

Definition rewrite_rule (user host port : string) : string :=
  "RewriteRule ^(" ++ user ++ "/.*)$  http://" ++ host ++ ":" ++ port ++
  "/mailpile/$1  [P,L,QSA]  # MP".

Lemma format_rewrite_rule u h p :
  py_format APACHE_REWRITE_TEMPLATE (<["user" := u]> (<["host" := h]> {[ "port" := p ]})) =
  Ok (rewrite_rule u h p).
Proof. reflexivity. Qed.

(** The records kept: the first of each user, in iteration order. *)
Fixpoint first_per_user_acc (seen : gset string) (l : list (string * mailpile))
    : list (string * mailpile) :=
  match l with
  | [] => []
  | (hp, r) :: l' =>
      if bool_decide (mp_user r ∈ seen) then first_per_user_acc seen l'
      else (hp, r) :: first_per_user_acc ({[ mp_user r ]} ∪ seen) l'
  end.
Definition first_per_user (l : list (string * mailpile)) := first_per_user_acc ∅ l.

Definition dup_warning (hp : string) (r : mailpile) : string :=
  "WARNING: User " ++ mp_user r ++ " has multiple Mailpiles! Skipped " ++ hp.

(** The warnings printed for the records skipped. *)
Fixpoint skipped_acc (seen : gset string) (l : list (string * mailpile)) : list string :=
  match l with
  | [] => []
  | (hp, r) :: l' =>
      if bool_decide (mp_user r ∈ seen)
      then dup_warning hp r :: skipped_acc seen l'
      else skipped_acc ({[ mp_user r ]} ∪ seen) l'
  end.

Definition rule_of (e : string * mailpile) : string :=
  rewrite_rule (json_escape (mp_user e.2)) (mp_host e.2) (mp_port e.2).

Abbreviation users l := (fmap (fun e : string * mailpile => mp_user e.2) l).

Lemma py_fold_cons {S A B} (f : B -> A -> PyM S B) x l b (w : S) :
  py_fold f (x :: l) b w =
  match f b x w with
  | (Ok b', w') => py_fold f l b' w'
  | (Exc e, w') => (Exc e, w')
  end.
Proof. reflexivity. Qed.

Lemma save_step_dup rules seen hp r w :
  mp_user r ∈ seen ->
  save_step (rules, seen) (hp, r) w = (Ok (rules, seen), set_out (w_out w ++ [dup_warning hp r]) w).
Proof. intros H. unfold save_step. by rewrite bool_decide_eq_true_2. Qed.

Lemma save_step_new rules seen hp r w :
  mp_user r ∉ seen -> str_all is_ascii7 (mp_user r) = true ->
  save_step (rules, seen) (hp, r) w =
  (Ok ((rules ++ [rule_of (hp, r)])%list, {[ mp_user r ]} ∪ seen), w).
Proof.
  intros H Ha. unfold save_step. rewrite bool_decide_eq_false_2 by done.
  unfold bind, lift_res. by rewrite escape_ascii, format_rewrite_rule.
Qed.

(** The loop from any accumulator: the rule of the first record of each
    new user is appended, a warning is printed for every other record. *)
Lemma save_rules_acc l rules seen w :
  Forall (fun e => str_all is_ascii7 (mp_user e.2) = true) l ->
  py_fold save_step l (rules, seen) w =
  (Ok ((rules ++ map rule_of (first_per_user_acc seen l))%list, seen ∪ list_to_set (users l)),
   set_out (w_out w ++ skipped_acc seen l) w).
Proof.
  revert rules seen w. induction l as [|[hp r] l IH]; intros rules seen w Hall.
  - cbn [py_fold first_per_user_acc skipped_acc map fmap list_fmap list_to_set].
    by rewrite !app_nil_r, set_out_id, union_empty_r_L.
  - apply Forall_cons in Hall as [Hu Hall]. cbn in Hu.
    rewrite py_fold_cons. cbn [first_per_user_acc skipped_acc].
    destruct (decide (mp_user r ∈ seen)) as [Hin|Hin].
    + rewrite save_step_dup, IH by done. rewrite !bool_decide_eq_true_2 by done.
      rewrite w_out_set_out, set_out_set_out, <- app_assoc. do 3 f_equal. set_solver.
    + rewrite save_step_new, IH by done. rewrite !bool_decide_eq_false_2 by done.
      rewrite <- app_assoc. do 3 f_equal. set_solver.
Qed.

Lemma first_per_user_acc_fresh seen l u :
  u ∈ users (first_per_user_acc seen l) -> u ∉ seen.
Proof.
  revert seen. induction l as [|[hp r] l IH]; intros seen Hu; simpl in Hu; [set_solver|].
  case_bool_decide; [by apply IH|].
  rewrite fmap_cons, elem_of_cons in Hu. destruct Hu as [->|Hu]; [done|].
  apply IH in Hu. set_solver.
Qed.

Lemma first_per_user_acc_nodup seen l : NoDup (users (first_per_user_acc seen l)).
Proof.
  revert seen. induction l as [|[hp r] l IH]; intros seen; simpl; [constructor|].
  case_bool_decide; [done|]. rewrite fmap_cons. constructor; [|done].
  intros Hin%first_per_user_acc_fresh. set_solver.
Qed.

Lemma first_per_user_acc_cover seen l u :
  u ∈ users l -> u ∈ seen \/ u ∈ users (first_per_user_acc seen l).
Proof.
  revert seen. induction l as [|[hp r] l IH]; intros seen Hu; [set_solver|].
  rewrite fmap_cons, elem_of_cons in Hu. simpl.
  case_bool_decide as Hin; destruct Hu as [->|Hu].
  - by left.
  - by apply IH.
  - right. rewrite fmap_cons. by left.
  - destruct (IH ({[mp_user r]} ∪ seen) Hu) as [H|H];
      [|right; rewrite fmap_cons, elem_of_cons; by right].
    apply elem_of_union in H as [H|H]; [|by left].
    right. rewrite fmap_cons, elem_of_cons. left. simpl. set_solver.
Qed.

Lemma first_per_user_acc_sub seen l u :
  u ∈ users (first_per_user_acc seen l) -> u ∈ users l.
Proof.
  revert seen. induction l as [|[hp r] l IH]; intros seen Hu; simpl in Hu; [done|].
  rewrite fmap_cons, elem_of_cons.
  case_bool_decide; [right; by eapply IH|].
  rewrite fmap_cons, elem_of_cons in Hu. destruct Hu as [->|Hu]; [by left|right; by eapply IH].
Qed.

Lemma first_per_user_acc_first seen l e :
  e ∈ first_per_user_acc seen l ->
  exists l1 l2, l = (l1 ++ (e :: l2))%list /\ (mp_user e.2 ∉ users l1) /\ mp_user e.2 ∉ seen.
Proof.
  revert seen. induction l as [|[hp r] l IH]; intros seen He; simpl in He; [set_solver|].
  case_bool_decide as Hin.
  - destruct (IH seen He) as (l1 & l2 & -> & Hn & Hs).
    exists ((hp, r) :: l1), l2. split; [done|]. split; [|done].
    rewrite fmap_cons, elem_of_cons. intros [Heq|]; [|done]. simpl in Heq. by rewrite Heq in Hs.
  - apply elem_of_cons in He as [->|He].
    + exists [], l. split; [done|]. split; [set_solver|done].
    + destruct (IH _ He) as (l1 & l2 & -> & Hn & Hs).
      exists ((hp, r) :: l1), l2. split; [done|].
      rewrite fmap_cons, elem_of_cons. split; set_solver.
Qed.

Lemma first_per_user_acc_length seen l :
  length (first_per_user_acc seen l) + length (skipped_acc seen l) = length l.
Proof.
  revert seen. induction l as [|[hp r] l IH]; intros seen; [done|]. simpl.
  case_bool_decide; simpl; [specialize (IH seen)|specialize (IH ({[mp_user r]} ∪ seen))]; lia.
Qed.

(** C3: [save_htaccess]'s loop writes exactly one rule per user, for
    every iteration order of the registry: the rules are those of the
    first record of each user, in order; every user of the registry gets
    one, no user gets two, and each other record is reported by a warning
    instead (records = rules + warnings).  The users must be ASCII, as
    [_escape] requires. *)
Theorem save_rules_one_per_user (l : list (string * mailpile)) (w : world) :
  Forall (fun e => str_all is_ascii7 (mp_user e.2) = true) l ->
  exists added,
    save_rules l w = (Ok (map rule_of (first_per_user l), added),
                      set_out (w_out w ++ skipped_acc ∅ l) w) /\
    NoDup (users (first_per_user l)) /\
    (forall u, u ∈ users l <-> u ∈ users (first_per_user l)) /\
    (forall e, e ∈ first_per_user l ->
       exists l1 l2, l = (l1 ++ (e :: l2))%list /\ mp_user e.2 ∉ users l1) /\
    length (first_per_user l) + length (skipped_acc ∅ l) = length l.
Proof.
  intros Hall. eexists. split; [unfold save_rules; by rewrite save_rules_acc|].
  split; [apply first_per_user_acc_nodup|]. split.
  { intros u. split; [|apply first_per_user_acc_sub].
    intros Hu. destruct (first_per_user_acc_cover ∅ l u Hu); set_solver. }
  split; [|apply first_per_user_acc_length].
  intros e He. destruct (first_per_user_acc_first ∅ l e He) as (l1 & l2 & ? & ? & _). eauto.
Qed.

Definition ex_dup_routes : list (string * mailpile) :=
  [("127.0.0.1:1000", {| mp_user := "alice"; mp_host := "127.0.0.1"; mp_port := "1000";
      mp_in_htaccess := true; mp_pid := None; mp_rss := None; mp_is_list := true |});
   ("127.0.0.1:2000", {| mp_user := "alice"; mp_host := "127.0.0.1"; mp_port := "2000";
      mp_in_htaccess := false; mp_pid := None; mp_rss := None; mp_is_list := false |})].

Lemma save_rules_one_per_user_witness :
  Forall (fun e => str_all is_ascii7 (mp_user e.2) = true) ex_dup_routes /\
  exists added,
    save_rules ex_dup_routes ex_world =
      (Ok (map rule_of (first_per_user ex_dup_routes), added),
       set_out (w_out ex_world ++ skipped_acc ∅ ex_dup_routes) ex_world) /\
    NoDup (users (first_per_user ex_dup_routes)) /\
    (forall u, u ∈ users ex_dup_routes <-> u ∈ users (first_per_user ex_dup_routes)) /\
    (forall e, e ∈ first_per_user ex_dup_routes ->
       exists l1 l2, ex_dup_routes = (l1 ++ (e :: l2))%list /\ mp_user e.2 ∉ users l1) /\
    length (first_per_user ex_dup_routes) + length (skipped_acc ∅ ex_dup_routes) =
      length ex_dup_routes.
Proof.
  assert (H : Forall (fun e => str_all is_ascii7 (mp_user e.2) = true) ex_dup_routes)
    by (repeat constructor).
  split; [exact H|]. apply save_rules_one_per_user. exact H.
Defined.

(** ** The file written *)

Definition ht_p1 : string :=
  "# Note: Autogenerated by mailpile-admin.py, edit at your own risk!" ++ nl ++
  nl ++ "# These are our configured Mailpiles:" ++ nl.
Definition ht_p2 : string :=
  nl ++ nl ++ "# Redirect any proxy errors or 404 errors to mailpile-admin.py:" ++ nl ++
  "ErrorDocument 503 ".
Definition ht_p3 : string := "not-running.html" ++ nl ++ "ErrorDocument 404 ".
Definition ht_p4 : string := "not-running.html" ++ nl ++ "RewriteRule ^not-running.html ".
Definition ht_p5 : string :=
  " [L,R=302,E=nolcache:1]" ++ nl ++
  "Header always set Cache-Control " ++ dq ++ "no-store, no-cache, must-revalidate" ++ dq ++
    " env=nocache" ++ nl ++
  "Header always set Expires " ++ dq ++ "Thu, 01 Jan 1970 00:00:00 GMT" ++ dq ++
    " env=nocache" ++ nl.

(** The .htaccess text for the joined rules and the web root. *)
Definition htaccess_text (rewriterules webroot : string) : string :=
  ht_p1 ++ rewriterules ++ ht_p2 ++ webroot ++ ht_p3 ++ webroot ++ ht_p4 ++ webroot ++ ht_p5.

Lemma htaccess_template_split :
  APACHE_HTACCESS_TEMPLATE =
  ht_p1 ++ "%(" ++ "rewriterules" ++ ")s" ++ ht_p2 ++ "%(" ++ "webroot" ++ ")s" ++
  ht_p3 ++ "%(" ++ "webroot" ++ ")s" ++ ht_p4 ++ "%(" ++ "webroot" ++ ")s" ++ ht_p5 ++ "".
Proof. reflexivity. Qed.

Lemma format_htaccess (os : gmap string string) rr wr :
  os !! "webroot" = Some wr ->
  py_format APACHE_HTACCESS_TEMPLATE (<["rewriterules" := rr]> os) = Ok (htaccess_text rr wr).
Proof.
  intros Hw. unfold py_format. rewrite htaccess_template_split.
  assert (Hw' : <["rewriterules" := rr]> os !! "webroot" = Some wr)
    by (by rewrite lookup_insert_ne).
  assert (Hr : <["rewriterules" := rr]> os !! "rewriterules" = Some rr)
    by (by rewrite lookup_insert_eq).
  repeat first
    [ rewrite (fmt_go_directive _ "rewriterules" rr) by (reflexivity || assumption)
    | rewrite (fmt_go_directive _ "webroot" wr) by (reflexivity || assumption)
    | rewrite fmt_go_text by reflexivity ].
  rewrite fmt_go_empty.
  cbn. unfold htaccess_text. by rewrite append_nil_r.
Qed.

Lemma save_rules_run l w :
  Forall (fun e => str_all is_ascii7 (mp_user e.2) = true) l ->
  save_rules l w = (Ok (map rule_of (first_per_user l), list_to_set (users l)),
                    set_out (w_out w ++ skipped_acc ∅ l) w).
Proof. intros H. unfold save_rules. rewrite save_rules_acc by done. by rewrite union_empty_l_L. Qed.

Lemma write_htaccess_new_run os rules wr w :
  os !! "webroot" = Some wr ->
  write_htaccess_new os rules w =
  (Ok (<["rewriterules" := String.concat nl rules]> os),
   set_files (<[HTACCESS_NEW := htaccess_text (String.concat nl rules) wr]> (w_files w)) w).
Proof.
  intros Hw. unfold write_htaccess_new, bind, write_file, modify_st, lift_res, ret.
  rewrite (format_htaccess _ _ wr) by done. simpl. by rewrite insert_insert_eq.
Qed.

Lemma new_ne_path : HTACCESS_NEW <> APACHE_HTACCESS_PATH.
Proof. done. Qed.

Lemma path_ne_new : APACHE_HTACCESS_PATH <> HTACCESS_NEW.
Proof. done. Qed.

#[export] Hint Resolve new_ne_path path_ne_new : mailpile.

(** The effect of [save_htaccess] on a world with an .htaccess file. *)
Lemma save_htaccess_in_order_run (l : list (string * mailpile)) (os : gmap string string)
    (w : world) (wr old : string) :
  Forall (fun e => str_all is_ascii7 (mp_user e.2) = true) l ->
  os !! "webroot" = Some wr -> w_files w !! APACHE_HTACCESS_PATH = Some old ->
  let rr := String.concat nl (map rule_of (first_per_user l)) in
  save_htaccess_in_order l os w =
  (Ok (<["rewriterules" := rr]> os),
   set_files (<[APACHE_HTACCESS_PATH := htaccess_text rr wr]> (delete HTACCESS_NEW (w_files w)))
     (set_out (w_out w ++ skipped_acc ∅ l) w)).
Proof.
  intros Hall Hw Hold rr. unfold save_htaccess_in_order.
  unfold bind at 1. rewrite save_rules_run by done. simpl fst.
  unfold bind at 1. rewrite write_htaccess_new_run with (wr := wr) by done.
  unfold bind, os_remove, os_rename, ret. simpl.
  rewrite lookup_insert_ne by auto with mailpile. rewrite Hold. simpl.
  rewrite lookup_delete_ne, lookup_insert_eq by auto with mailpile. simpl.
  rewrite !set_files_set_files. do 2 f_equal. apply map_eq. intros k.
  destruct (decide (k = APACHE_HTACCESS_PATH)) as [->|Hk]; [by rewrite !lookup_insert_eq|].
  rewrite !lookup_insert_ne by congruence.
  destruct (decide (k = HTACCESS_NEW)) as [->|Hn]; [by rewrite !lookup_delete_eq|].
  by rewrite !lookup_delete_ne, lookup_insert_ne by congruence.
Qed.

(** C4: with an existing .htaccess, [save_htaccess] replaces it by the
    template filled with the rules of [save_rules] (one per user) joined by
    newlines and the configured web root; [.htaccess.new] is gone, no other
    file changes, the skipped records are reported, and the caller's
    [os_settings] dict now holds the rules. *)
Theorem save_htaccess_replaces (l : list (string * mailpile)) (os : gmap string string)
    (w : world) (wr old : string) :
  Forall (fun e => str_all is_ascii7 (mp_user e.2) = true) l ->
  os !! "webroot" = Some wr -> w_files w !! APACHE_HTACCESS_PATH = Some old ->
  let rr := String.concat nl (map rule_of (first_per_user l)) in
  save_htaccess_in_order l os w =
  (Ok (<["rewriterules" := rr]> os),
   set_files (<[APACHE_HTACCESS_PATH := htaccess_text rr wr]> (delete HTACCESS_NEW (w_files w)))
     (set_out (w_out w ++ skipped_acc ∅ l) w)).
Proof. apply save_htaccess_in_order_run. Qed.

(** The effect of [save_htaccess] on a world without an .htaccess file. *)
Lemma save_htaccess_missing_run (l : list (string * mailpile)) (os : gmap string string)
    (w : world) (wr : string) :
  Forall (fun e => str_all is_ascii7 (mp_user e.2) = true) l ->
  os !! "webroot" = Some wr -> w_files w !! APACHE_HTACCESS_PATH = None ->
  let rr := String.concat nl (map rule_of (first_per_user l)) in
  save_htaccess_in_order l os w =
  (Exc OSError,
   set_files (<[HTACCESS_NEW := htaccess_text rr wr]> (w_files w))
     (set_out (w_out w ++ skipped_acc ∅ l) w)).
Proof.
  intros Hall Hw Hnone rr. unfold save_htaccess_in_order.
  unfold bind at 1. rewrite save_rules_run by done. simpl fst.
  unfold bind at 1. rewrite write_htaccess_new_run with (wr := wr) by done.
  unfold bind, os_remove. simpl.
  by rewrite lookup_insert_ne, Hnone by auto with mailpile.
Qed.

(** C18: without an .htaccess file (a fresh install: [parse_htaccess] only
    warns about it), [save_htaccess] writes [.htaccess.new] and then fails
    with [OSError] in [os.remove]: the routing file is never created.  The
    specification treats a missing route file as an empty store. *)
Theorem save_htaccess_missing_file (l : list (string * mailpile)) (os : gmap string string)
    (w : world) (wr : string) :
  Forall (fun e => str_all is_ascii7 (mp_user e.2) = true) l ->
  os !! "webroot" = Some wr -> w_files w !! APACHE_HTACCESS_PATH = None ->
  let rr := String.concat nl (map rule_of (first_per_user l)) in
  save_htaccess_in_order l os w =
  (Exc OSError,
   set_files (<[HTACCESS_NEW := htaccess_text rr wr]> (w_files w))
     (set_out (w_out w ++ skipped_acc ∅ l) w)).
Proof. apply save_htaccess_missing_run. Qed.

Lemma save_htaccess_missing_file_witness :
  (Forall (fun e => str_all is_ascii7 (mp_user e.2) = true) ex_dup_routes /\
   ({[ "webroot" := "/mailpile/" ]} : gmap string string) !! "webroot" = Some "/mailpile/" /\
   w_files (set_files ∅ ex_world) !! APACHE_HTACCESS_PATH = None) /\
  save_htaccess_in_order ex_dup_routes {[ "webroot" := "/mailpile/" ]} (set_files ∅ ex_world) =
  (Exc OSError,
   set_files (<[HTACCESS_NEW := htaccess_text
                  (String.concat nl (map rule_of (first_per_user ex_dup_routes))) "/mailpile/"]>
                (w_files (set_files ∅ ex_world)))
     (set_out (w_out (set_files ∅ ex_world) ++ skipped_acc ∅ ex_dup_routes) (set_files ∅ ex_world))).
Proof.
  assert (H : Forall (fun e => str_all is_ascii7 (mp_user e.2) = true) ex_dup_routes)
    by (repeat constructor).
  split; [split; [exact H|split; reflexivity]|].
  apply save_htaccess_missing_file; [exact H|reflexivity|reflexivity].
Defined.

Lemma save_htaccess_replaces_witness :
  (Forall (fun e => str_all is_ascii7 (mp_user e.2) = true) ex_dup_routes /\
   ({[ "webroot" := "/mailpile/" ]} : gmap string string) !! "webroot" = Some "/mailpile/" /\
   w_files ex_world !! APACHE_HTACCESS_PATH =
     Some (default "" (w_files ex_world !! APACHE_HTACCESS_PATH))) /\
  let rr := String.concat nl (map rule_of (first_per_user ex_dup_routes)) in
  save_htaccess_in_order ex_dup_routes {[ "webroot" := "/mailpile/" ]} ex_world =
  (Ok (<["rewriterules" := rr]> {[ "webroot" := "/mailpile/" ]}),
   set_files (<[APACHE_HTACCESS_PATH := htaccess_text rr "/mailpile/"]>
                (delete HTACCESS_NEW (w_files ex_world)))
     (set_out (w_out ex_world ++ skipped_acc ∅ ex_dup_routes) ex_world)).
Proof.
  assert (H : Forall (fun e => str_all is_ascii7 (mp_user e.2) = true) ex_dup_routes)
    by (repeat constructor).
  split; [split; [exact H|split; reflexivity]|].
  apply (save_htaccess_replaces _ _ _ _ (default "" (w_files ex_world !! APACHE_HTACCESS_PATH)));
    [exact H|reflexivity|reflexivity].
Defined.

(** ** Output *)

Lemma out_mono_save_step acc e : out_mono (save_step acc e).
Proof. unfold save_step. destruct acc, e. out_mono_tac. Qed.
#[export] Hint Resolve out_mono_save_step : outmono.

Lemma out_mono_save_htaccess os m : out_mono (save_htaccess os m).
Proof. unfold save_htaccess, save_htaccess_in_order, save_rules, write_htaccess_new. out_mono_tac. Qed.
#[export] Hint Resolve out_mono_save_htaccess : outmono.
