(* ===== verification/Roundtrip.v ===== *)
(** * Reading back what [save_htaccess] wrote

    [save_htaccess] (lines 270-287 of mailpile-admin.py) writes one rewrite
    rule per user into the .htaccess, each ending in the marker [# MP], and
    [parse_htaccess] (lines 252-267) reads the routes back with the pattern
    ['^RewriteRule\s+[^a-z]+([a-z0-9]+).*?\/\/([^:]+):(\d+)\/.*# MP\s*$'].
    This file proves that the two agree: the routes read back from the file
    [save_htaccess] wrote are exactly the records it kept, when the user
    names are made of [[a-z0-9]] and start with a letter, the hosts are
    non-empty and have no [:], the ports are decimal and the web root has
    no newline.  Other user names do not survive: the pattern keeps only
    the longest [[a-z0-9]] run after the leading non-letters.

    The proof computes the match of each line of the file: the lines of
    the template and the web root's lines do not end in the marker, so the
    pattern, whose tail is [# MP\s*$], rejects them; a rule line matches
    with the user, host and port as its three groups. *)

From Stdlib Require Import String Ascii ZArith Lia.
From stdpp Require Import base list gmap strings.
From S2P Require Import Prelude PyStr Escape Regex World Registry Htaccess.
Open Scope string_scope.
Open Scope py_scope.

(** ** The records whose rule reads back *)

Definition lowdig (c : ascii) : bool := is_lower c || is_digit c.
Definition host_char (c : ascii) : bool := cls_neq ":" c && cls_dot c.

(** A user name [[a-z0-9]+] group 1 captures whole. *)
Definition route_user_ok (u : string) : bool :=
  match u with String c u' => is_lower c && str_all lowdig u' | EmptyString => false end.
Definition route_host_ok (h : string) : bool := negb (String.eqb h "") && str_all host_char h.
Definition route_port_ok (p : string) : bool := negb (String.eqb p "") && str_all is_digit p.
Definition route_ok (r : mailpile) : bool :=
  route_user_ok (mp_user r) && route_host_ok (mp_host r) && route_port_ok (mp_port r).

(** The record [parse_htaccess] makes of the rule written for [r]. *)
Definition htaccess_route (r : mailpile) : mailpile :=
  {| mp_user := mp_user r; mp_host := mp_host r; mp_port := mp_port r; mp_in_htaccess := true;
     mp_pid := None; mp_rss := None; mp_is_list := true |}.

(** The routes read back from the rules of the records [kept], in order. *)
Definition routes_of_kept (kept : list (string * mailpile)) : mailpiles :=
  foldl (fun m e => <[mp_host e.2 ++ ":" ++ mp_port e.2 := htaccess_route e.2]> m) ∅ kept.

(** A character that JSON leaves alone and that is no slash. *)
Definition name_char (c : ascii) : bool :=
  printable c && negb (code c =? 34)%nat && negb (code c =? 92)%nat && negb (code c =? 47)%nat.

(** The name without its leading characters outside [[a-z]]. *)
Fixpoint skip_nonlower (s : string) : string :=
  match s with
  | EmptyString => EmptyString
  | String c s' => if is_lower c then s else skip_nonlower s'
  end.

(** The longest prefix in [[a-z0-9]]. *)
Fixpoint lowdig_prefix (s : string) : string :=
  match s with
  | EmptyString => EmptyString
  | String c s' => if lowdig c then String c (lowdig_prefix s') else EmptyString
  end.

(** The user [parse_htaccess] reads from the rule written for [u]: after
    the leading characters outside [[a-z]], the longest [[a-z0-9]] run. *)
Definition read_user (u : string) : string := lowdig_prefix (skip_nonlower u).

(** A name whose rule reads back: printable, JSON-plain, without slash,
    with a letter in [[a-z]]. *)
Definition readable_user (u : string) : bool :=
  str_all name_char u && negb (String.eqb (skip_nonlower u) "").

(** A record whose rule reads back, perhaps under another user name. *)
Definition route_readable (r : mailpile) : bool :=
  readable_user (mp_user r) && route_host_ok (mp_host r) && route_port_ok (mp_port r).

(** The record [parse_htaccess] makes of the rule written for [r]. *)
Definition read_route (r : mailpile) : mailpile :=
  {| mp_user := read_user (mp_user r); mp_host := mp_host r; mp_port := mp_port r;
     mp_in_htaccess := true; mp_pid := None; mp_rss := None; mp_is_list := true |}.

(** [# MP] ends the line once trailing whitespace is stripped. *)
Definition mp_marked (line : string) : bool := endswith (rstrip line) "# MP".

(** ** The lines of the file *)

Definition cat (l : list string) : string := foldr String.append "" l.

Definition header_lines : list string :=
  ["# Note: Autogenerated by mailpile-admin.py, edit at your own risk!" ++ nl; nl;
   "# These are our configured Mailpiles:" ++ nl].

(** The rules end with the newline the template puts after them; no rule
    leaves an empty line. *)
Definition rule_lines (rules : list string) : list string :=
  match rules with [] => [nl] | _ => map (fun r => r ++ nl) rules end.

Definition trailer_lines (wr : string) : list string :=
  [nl; "# Redirect any proxy errors or 404 errors to mailpile-admin.py:" ++ nl;
   ("ErrorDocument 503 " ++ wr) ++ ("not-running.html" ++ nl);
   ("ErrorDocument 404 " ++ wr) ++ ("not-running.html" ++ nl);
   ("RewriteRule ^not-running.html " ++ wr) ++ (" [L,R=302,E=nolcache:1]" ++ nl);
   "Header always set Cache-Control " ++ dq ++ "no-store, no-cache, must-revalidate" ++ dq ++
     " env=nocache" ++ nl;
   "Header always set Expires " ++ dq ++ "Thu, 01 Jan 1970 00:00:00 GMT" ++ dq ++
     " env=nocache" ++ nl].

Definition line_ok (x : string) : Prop := exists y, x = y ++ nl /\ str_all cls_dot y = true.

Lemma cat_app l1 l2 : cat (l1 ++ l2) = cat l1 ++ cat l2.
Proof. induction l1 as [|x l1 IH]; [done|]. simpl. by rewrite IH, append_assoc'. Qed.

Lemma concat_nl_rule_lines rules : String.concat nl rules ++ nl = cat (rule_lines rules).
Proof.
  destruct rules as [|r rs]; [done|]. unfold rule_lines. revert r.
  induction rs as [|r' rs IH]; intros r; [cbn; by rewrite append_nil_r|].
  change (String.concat nl (r :: r' :: rs)) with (r ++ nl ++ String.concat nl (r' :: rs)).
  rewrite !append_assoc', IH. cbn [map foldr cat]. by rewrite !append_assoc'.
Qed.

Lemma htaccess_text_lines rules wr :
  htaccess_text (String.concat nl rules) wr = cat (header_lines ++ rule_lines rules ++ trailer_lines wr).
Proof.
  rewrite !cat_app, <-concat_nl_rule_lines.
  unfold htaccess_text, ht_p1, ht_p2, ht_p3, ht_p4, ht_p5, cat, header_lines, trailer_lines.
  cbn [foldr]. rewrite !append_assoc'. reflexivity.
Qed.

Lemma file_lines_acc_line cur y s :
  str_all cls_dot y = true ->
  file_lines_acc cur (y ++ nl ++ s) = (str_rev cur ++ y ++ nl) :: file_lines_acc "" s.
Proof.
  revert cur. induction y as [|c y IH]; intros cur Hy; [done|].
  apply andb_true_iff in Hy as [Hc Hy]. unfold cls_dot in Hc. apply negb_true_iff in Hc.
  rewrite append_cons. simpl. rewrite Hc, IH by done. simpl. by rewrite !append_assoc'.
Qed.

Lemma file_lines_cat l : Forall line_ok l -> file_lines (cat l) = l.
Proof.
  induction 1 as [|x l [y [-> Hy]] _ IH]; [done|]. unfold file_lines in *. simpl.
  by rewrite append_assoc', file_lines_acc_line, IH.
Qed.

Lemma line_ok_split a b : str_all cls_dot a = true -> str_all cls_dot b = true -> line_ok (a ++ (b ++ nl)).
Proof. intros Ha Hb. exists (a ++ b). rewrite append_assoc', str_all_app, Ha, Hb. done. Qed.

Lemma lowdig_dot c : lowdig c = true -> cls_dot c = true.
Proof.
  unfold lowdig, is_lower, is_digit, cls_dot. intros H.
  apply negb_true_iff, Nat.eqb_neq. apply orb_true_iff in H as [H|H];
    apply andb_true_iff in H as [H1 H2]; apply Nat.leb_le in H1; lia.
Qed.

Lemma host_char_dot c : host_char c = true -> cls_dot c = true.
Proof. unfold host_char. by intros [_ ?]%andb_true_iff. Qed.

Lemma host_char_neq c : host_char c = true -> cls_neq ":" c = true.
Proof. unfold host_char. by intros [? _]%andb_true_iff. Qed.

Lemma digit_dot c : is_digit c = true -> cls_dot c = true.
Proof. intros H. apply lowdig_dot. unfold lowdig. by rewrite H, orb_true_r. Qed.

Lemma route_user_dot u : route_user_ok u = true -> str_all cls_dot u = true.
Proof.
  destruct u as [|c u]; [done|]. simpl. intros [Hc Hu]%andb_true_iff.
  rewrite (str_all_impl lowdig cls_dot u lowdig_dot Hu), lowdig_dot; [done|].
  unfold lowdig. by rewrite Hc.
Qed.

Lemma json_escape_lowdig_char c : lowdig c = true -> json_escape_char c = String c EmptyString.
Proof.
  intros H. destruct c as [[] [] [] [] [] [] [] []]; vm_compute in H; try discriminate H; reflexivity.
Qed.

Lemma json_escape_route_user u : route_user_ok u = true -> json_escape u = u.
Proof.
  assert (Hall : forall v, str_all lowdig v = true -> json_escape v = v).
  { induction v as [|c v IH]; [done|]. simpl. intros [Hc Hv]%andb_true_iff.
    by rewrite json_escape_lowdig_char, IH. }
  destruct u as [|c u]; [done|]. simpl. intros [Hc Hu]%andb_true_iff.
  rewrite json_escape_lowdig_char, Hall; [done|done|]. unfold lowdig. by rewrite Hc.
Qed.

Lemma rewrite_rule_dot u h p :
  str_all cls_dot u = true -> route_host_ok h = true -> route_port_ok p = true ->
  str_all cls_dot (rewrite_rule u h p) = true.
Proof.
  unfold route_host_ok, route_port_ok. intros Hu [_ Hh]%andb_true_iff [_ Hp]%andb_true_iff.
  unfold rewrite_rule. rewrite !str_all_app, Hu.
  by rewrite (str_all_impl _ _ _ host_char_dot Hh), (str_all_impl _ _ _ digit_dot Hp).
Qed.

Lemma rule_of_route e : route_ok e.2 = true ->
  rule_of e = rewrite_rule (mp_user e.2) (mp_host e.2) (mp_port e.2) /\
  str_all cls_dot (rule_of e) = true.
Proof.
  unfold route_ok. intros [[Hu Hh]%andb_true_iff Hp]%andb_true_iff.
  unfold rule_of. rewrite json_escape_route_user by done. split; [done|].
  apply rewrite_rule_dot; [by apply route_user_dot|done|done].
Qed.

(** ** Matching the lines *)

Definition rule_tail : string := "mailpile/$1  [P,L,QSA]  # MP" ++ nl.

Lemma rule_line_split u h p :
  rewrite_rule u h p ++ nl =
  "RewriteRule" ++ " " ++ "^(" ++ u ++ "/.*)$  http:" ++ "//" ++ h ++ ":" ++ p ++ "/" ++ rule_tail.
Proof. unfold rewrite_rule, rule_tail. rewrite !append_assoc'. reflexivity. Qed.

Lemma mt_lazy p s cs k : mt (RRep true 0 p) s cs k = rep_lazy p s cs k.
Proof. reflexivity. Qed.

Lemma name_char_dot c : name_char c = true -> cls_dot c = true.
Proof.
  unfold name_char, printable, cls_dot. intros [[[Hp _]%andb_true_iff _]%andb_true_iff _]%andb_true_iff.
  apply andb_true_iff in Hp as [Hp _]. apply Nat.leb_le in Hp. apply negb_true_iff, Nat.eqb_neq. lia.
Qed.

Lemma name_char_not_slash c : name_char c = true -> c <> "/"%char.
Proof. unfold name_char. intros [_ H]%andb_true_iff ->. discriminate H. Qed.

Lemma suffixes_app a b : suffixes (a ++ b) = (map (fun x => (x ++ b)%string) (suffixes a) ++ suffixes b)%list.
Proof. induction a as [|c a IH]; [done|]. rewrite append_cons. simpl. by rewrite IH. Qed.

Lemma suffixes_start (p : ascii -> bool) x :
  str_all p x = true -> Forall (fun y => exists c r, y = String c r /\ p c = true) (suffixes x).
Proof.
  induction x as [|c x IH]; [constructor|]. simpl. intros [Hc Hx]%andb_true_iff.
  constructor; [by exists c, x|by apply IH].
Qed.

Lemma stops_app p x s : stops p x = true -> stops p s = true -> stops p (x ++ s) = true.
Proof. by destruct x. Qed.

(** The rule line of [U ++ u ++ X]: [[^a-z]+] takes [U], group 1 takes
    [u], the lazy [.*?] skips [X], which has no slash. *)
Lemma match_rule_line_gen U u X h p :
  str_all (fun c => negb (is_lower c)) U = true -> route_user_ok u = true ->
  stops lowdig X = true -> str_all name_char X = true ->
  route_host_ok h = true -> route_port_ok p = true ->
  re_match htaccess_re (rewrite_rule (U ++ u ++ X) h p ++ nl) = Some ("", [(3%nat, p); (2%nat, h); (1%nat, u)]).
Proof.
  destruct u as [|cu u]; [done|]. destruct h as [|ch h]; [done|]. destruct p as [|cp p]; [done|].
  intros HU [Hcu Hu]%andb_true_iff HXs HX [_ [Hch Hh]%andb_true_iff]%andb_true_iff
    [_ [Hcp Hp]%andb_true_iff]%andb_true_iff.
  unfold re_match, htaccess_re, plus, star, lstar. rewrite rule_line_split. cbn [RSeqs].
  rewrite mt_seq, mt_str. cbv beta.
  rewrite mt_seq. eapply mt_plus_run; [reflexivity|reflexivity|reflexivity|cbv beta].
  rewrite !append_assoc'.
  match goal with |- mt _ ("^(" ++ (U ++ ?R)) _ _ = _ =>
    replace ("^(" ++ (U ++ R)) with (String "^" ("(" ++ U) ++ R)
      by (rewrite append_cons, append_assoc'; reflexivity) end.
  rewrite mt_seq. eapply mt_plus_run; [reflexivity|by rewrite str_all_app, HU| |cbv beta].
  { rewrite append_cons. simpl. by rewrite Hcu. }
  rewrite mt_seq, mt_group.
  eapply mt_plus_run; [by rewrite Hcu|exact Hu|apply stops_app; [exact HXs|reflexivity]|cbv beta].
  rewrite capture_app, mt_seq, mt_lazy, <-(append_assoc' X "/.*)$  http:").
  rewrite rep_lazy_skip.
  3:{ rewrite suffixes_app. apply Forall_app. split.
      - apply Forall_fmap. eapply Forall_impl; [exact (suffixes_start _ _ HX)|].
        intros y (c & r & -> & Hc). cbv beta. unfold compose. rewrite append_cons, mt_seq.
        match goal with |- mt (RStr "//") ?t ?cs ?k = None =>
          destruct (mt (RStr "//") t cs k) as [x|] eqn:E; [|reflexivity] end.
        apply mt_str_inv in E as (s' & Hs & _). injection Hs as Hc'.
        exfalso. exact (name_char_not_slash c Hc Hc').
      - cbn [suffixes]. repeat (constructor; [reflexivity|]); constructor. }
  2:{ rewrite str_all_app, (str_all_impl _ _ _ name_char_dot HX). reflexivity. }
  apply rep_lazy_here. rewrite mt_seq, mt_str. cbv beta.
  rewrite mt_seq, mt_group. eapply mt_plus_run;
    [exact (host_char_neq _ Hch)|exact (str_all_impl _ _ _ host_char_neq Hh)|reflexivity|cbv beta].
  rewrite capture_app. rewrite mt_seq, mt_chr.
  rewrite mt_seq, mt_group. eapply mt_plus_run; [exact Hcp|exact Hp|reflexivity|cbv beta].
  rewrite capture_app. rewrite mt_seq, mt_chr. reflexivity.
Qed.

(** A rule line matches, its groups are the user, the host and the port. *)
Lemma match_rule_line u h p :
  route_user_ok u = true -> route_host_ok h = true -> route_port_ok p = true ->
  re_match htaccess_re (rewrite_rule u h p ++ nl) = Some ("", [(3%nat, p); (2%nat, h); (1%nat, u)]).
Proof.
  intros Hu Hh Hp. pose proof (match_rule_line_gen "" u "" h p eq_refl Hu eq_refl eq_refl Hh Hp) as H.
  by rewrite append_empty_l, append_nil_r in H.
Qed.

(** The pattern ends with [# MP\s*$]: a line it matches carries the marker. *)
Lemma htaccess_re_tail s cs k :
  mt htaccess_re s cs k =
  mt (RSeqs [RStr "RewriteRule"; plus cls_s; plus (fun c => negb (is_lower c));
             RGroup 1 (plus (fun c => is_lower c || is_digit c)); lstar cls_dot; RStr "//";
             RGroup 2 (plus (cls_neq ":")); RChr ":"; RGroup 3 (plus cls_d); RChr "/";
             star cls_dot]) s cs
     (fun s' cs' => mt (RSeqs [RStr "# MP"; star cls_s; REnd]) s' cs' k).
Proof. reflexivity. Qed.

Lemma match_marked line x : re_match htaccess_re line = Some x -> mp_marked line = true.
Proof.
  unfold re_match. rewrite htaccess_re_tail. intros H.
  destruct (mt_inv _ _ _ _ _ H) as (pre & s' & cs' & -> & H1). cbn [RSeqs] in H1.
  rewrite mt_seq in H1. destruct (mt_str_inv _ _ _ _ _ H1) as (s2 & -> & H2).
  rewrite mt_seq in H2. destruct (rep_min_inv _ _ _ _ _ _ _ H2) as (sp & s3 & -> & Hsp & H3).
  apply mt_end_inv in H3 as [Hs3 _].
  assert (Hsp3 : str_all is_space (sp ++ s3) = true)
    by (rewrite str_all_app; destruct Hs3 as [-> | ->]; exact (andb_true_intro (conj Hsp eq_refl))).
  unfold mp_marked.
  replace (pre ++ "# MP" ++ sp ++ s3) with (((pre ++ "# M") ++ String "P" EmptyString) ++ (sp ++ s3))
    by (by rewrite !append_assoc').
  rewrite rstrip_app_spaces, rstrip_last by done. rewrite append_assoc'. apply (endswith_suffix pre "# MP").
Qed.

Lemma parse_line_unmarked m line : mp_marked line = false -> parse_line m line = m.
Proof.
  intros Hm. unfold parse_line. destruct (re_match htaccess_re line) eqn:E; [|done].
  by rewrite (match_marked _ _ E) in Hm.
Qed.

Lemma foldl_unmarked m l : Forall (fun x => mp_marked x = false) l -> foldl parse_line m l = m.
Proof. intros H. revert m. induction H as [|x l Hx _ IH]; intros m; [done|]. simpl. by rewrite parse_line_unmarked. Qed.

(** A line with a variable part followed by a fixed one: the fixed part
    decides the marker. *)
Lemma mp_marked_app a b :
  str_all is_space b = false -> (4 <=? String.length (rstrip b))%nat = true ->
  mp_marked (a ++ b) = mp_marked b.
Proof.
  intros Hb Hl. unfold mp_marked. rewrite rstrip_app_nonspace by done.
  apply endswith_app. by apply Nat.leb_le.
Qed.

Lemma header_unmarked : Forall (fun x => mp_marked x = false) header_lines.
Proof. repeat constructor. Qed.

Lemma trailer_unmarked wr : Forall (fun x => mp_marked x = false) (trailer_lines wr).
Proof.
  unfold trailer_lines. repeat apply Forall_cons_2; try apply Forall_nil_2;
    try (rewrite mp_marked_app by reflexivity); reflexivity.
Qed.

(** A line of the template without a variable part: it ends with a
    newline and has no other. *)
Definition line_okb (x : string) : bool :=
  match str_rev x with String c r => (code c =? 10)%nat && str_all cls_dot r | EmptyString => false end.

Lemma line_okb_spec x : line_okb x = true -> line_ok x.
Proof.
  unfold line_okb. destruct (str_rev x) as [|c r] eqn:E; [done|]. intros [Hc Hr]%andb_true_iff.
  exists (str_rev r). rewrite str_all_rev. split; [|done].
  rewrite <-(str_rev_involutive x), E. simpl. apply Nat.eqb_eq in Hc. unfold nl, chr_s, chr, code in *.
  by rewrite <-Hc, ascii_nat_embedding.
Qed.

Lemma first_per_user_acc_forall (P : string * mailpile -> Prop) seen l :
  Forall P l -> Forall P (first_per_user_acc seen l).
Proof.
  intros H. revert seen. induction H as [|[hp r] l Hx _ IH]; intros seen; simpl; [done|].
  case_bool_decide; [done|]. by constructor.
Qed.

Lemma file_lines_ok kept wr :
  Forall (fun e => str_all cls_dot (rule_of e) = true) kept -> str_all cls_dot wr = true ->
  Forall line_ok (header_lines ++ rule_lines (map rule_of kept) ++ trailer_lines wr).
Proof.
  intros Hk Hwr. apply Forall_app. split; [repeat constructor; apply line_okb_spec; reflexivity|].
  apply Forall_app. split.
  - destruct kept as [|e kept]; [repeat constructor; by exists ""|]. unfold rule_lines.
    apply Forall_fmap, Forall_fmap. eapply Forall_impl; [exact Hk|]. intros e' He.
    by exists (rule_of e').
  - unfold trailer_lines.
    repeat apply Forall_cons_2; try apply Forall_nil_2;
      first [apply line_ok_split; [by rewrite str_all_app, Hwr|reflexivity]
            |apply line_okb_spec; reflexivity].
Qed.

(** The rule lines give the routes of their records, when each line does. *)
Lemma parse_rules (P : string * mailpile -> Prop) (f : mailpile -> mailpile) m kept :
  (forall m' e, P e -> parse_line m' (rule_of e ++ nl) = <[mp_host e.2 ++ ":" ++ mp_port e.2 := f e.2]> m') ->
  Forall P kept ->
  foldl parse_line m (rule_lines (map rule_of kept)) =
  foldl (fun m e => <[mp_host e.2 ++ ":" ++ mp_port e.2 := f e.2]> m) m kept.
Proof.
  intros Hline. destruct kept as [|e0 kept0]; [done|].
  change (rule_lines (map rule_of (e0 :: kept0)))
    with (map (fun r => r ++ nl) (map rule_of (e0 :: kept0))). rewrite map_map.
  generalize (e0 :: kept0). intros kept Hk. revert m.
  induction Hk as [|e kept He _ IH]; intros m; [done|]. simpl. rewrite Hline by done. apply IH.
Qed.

Lemma lowdig_ascii c : lowdig c = true -> is_ascii7 c = true.
Proof.
  unfold lowdig, is_lower, is_digit, is_ascii7. intros H. apply Nat.ltb_lt.
  apply orb_true_iff in H as [H|H]; apply andb_true_iff in H as [_ H]; apply Nat.leb_le in H; lia.
Qed.

Lemma route_ok_ascii r : route_ok r = true -> str_all is_ascii7 (mp_user r) = true.
Proof.
  unfold route_ok. intros [[Hu _]%andb_true_iff _]%andb_true_iff.
  destruct (mp_user r) as [|c u]; [done|]. simpl in *. apply andb_true_iff in Hu as [Hc Hu].
  rewrite (str_all_impl _ _ _ lowdig_ascii Hu), lowdig_ascii; [done|]. unfold lowdig. by rewrite Hc.
Qed.

(** ** The round trip *)

(** What [parse_htaccess] reads back from the file [save_htaccess]
    wrote, when the records kept satisfy [P]: the rule of each reads back
    as the route [f] makes of it, and together they read back in order. *)
Lemma routes_of_saved (P : string * mailpile -> Prop) (f : mailpile -> mailpile)
    (os : gmap string string) (m : mailpiles) (w : world) (wr old : string) :
  (forall e, P e -> str_all is_ascii7 (mp_user e.2) = true /\ str_all cls_dot (rule_of e) = true) ->
  (forall m' e, P e -> parse_line m' (rule_of e ++ nl) = <[mp_host e.2 ++ ":" ++ mp_port e.2 := f e.2]> m') ->
  Forall P (map_to_list m) -> os !! "webroot" = Some wr ->
  str_all cls_dot wr = true -> w_files w !! APACHE_HTACCESS_PATH = Some old ->
  routes_of (snd (save_htaccess os m w)) =
  foldl (fun m e => <[mp_host e.2 ++ ":" ++ mp_port e.2 := f e.2]> m) ∅ (first_per_user (map_to_list m)).
Proof.
  intros HP Hline Hl Hw Hwr Hold. unfold save_htaccess.
  assert (Hk : Forall P (first_per_user (map_to_list m))) by (by apply first_per_user_acc_forall).
  rewrite (save_htaccess_in_order_run _ os w wr old);
    [|eapply Forall_impl; [exact Hl|]; intros e He; apply (HP e He)|done|done].
  unfold routes_of. cbn [snd]. rewrite w_files_set_files, lookup_insert_eq.
  rewrite htaccess_text_lines, file_lines_cat
    by (apply file_lines_ok; [eapply Forall_impl; [exact Hk|]; intros e He; apply (HP e He)|done]).
  rewrite !foldl_app, (foldl_unmarked _ (trailer_lines wr)) by apply trailer_unmarked.
  rewrite (foldl_unmarked _ header_lines) by apply header_unmarked.
  by apply (parse_rules P f).
Qed.

(** C5: the routes [parse_htaccess] reads back from the .htaccess that
    [save_htaccess] wrote are the records [save_htaccess] kept (the first
    of each user in the dict's iteration order), each keyed by its
    host:port and turned into a registered, not running route, when every
    user name is [[a-z][a-z0-9]*], every host is non-empty without [:] or
    newline, every port is decimal and the web root has no newline. *)
Theorem save_then_parse_routes (os : gmap string string) (m : mailpiles) (w : world)
    (wr old : string) :
  map_Forall (fun _ r => route_ok r = true) m -> os !! "webroot" = Some wr ->
  str_all cls_dot wr = true -> w_files w !! APACHE_HTACCESS_PATH = Some old ->
  routes_of (snd (save_htaccess os m w)) = routes_of_kept (first_per_user (map_to_list m)).
Proof.
  intros Hm Hw Hwr Hold.
  apply (routes_of_saved (fun e => route_ok e.2 = true) htaccess_route os m w wr old); try done.
  - intros e He. split; [by apply route_ok_ascii|by apply rule_of_route].
  - intros m' e He. destruct (rule_of_route e He) as [-> _]. unfold route_ok in He.
    apply andb_true_iff in He as [[Hu Hh]%andb_true_iff Hp].
    unfold parse_line. by rewrite match_rule_line.
  - apply map_Forall_to_list in Hm. eapply Forall_impl; [exact Hm|]. by intros [k r].
Qed.

Definition ex_rt_registry : mailpiles :=
  {[ "h:1" := {| mp_user := "alice"; mp_host := "h"; mp_port := "1"; mp_in_htaccess := true;
                 mp_pid := None; mp_rss := None; mp_is_list := true |};
     "127.0.0.1:33412" := {| mp_user := "bob2"; mp_host := "127.0.0.1"; mp_port := "33412";
                 mp_in_htaccess := false; mp_pid := Some "200"; mp_rss := Some "20";
                 mp_is_list := false |} ]}.

Lemma save_then_parse_routes_witness :
  (map_Forall (fun _ r => route_ok r = true) ex_rt_registry /\
   ({[ "webroot" := "/mailpile/" ]} : gmap string string) !! "webroot" = Some "/mailpile/" /\
   str_all cls_dot "/mailpile/" = true /\
   w_files ex_world !! APACHE_HTACCESS_PATH =
     Some (default "" (w_files ex_world !! APACHE_HTACCESS_PATH))) /\
  routes_of (snd (save_htaccess {[ "webroot" := "/mailpile/" ]} ex_rt_registry ex_world)) =
  routes_of_kept (first_per_user (map_to_list ex_rt_registry)).
Proof.
  assert (H : map_Forall (fun _ r => route_ok r = true) ex_rt_registry)
    by (apply map_Forall_to_list; vm_compute; repeat constructor).
  split; [split; [exact H|split; [reflexivity|split; reflexivity]]|].
  apply (save_then_parse_routes _ _ _ "/mailpile/" (default "" (w_files ex_world !! APACHE_HTACCESS_PATH)));
    [exact H|reflexivity|reflexivity|reflexivity].
Defined.

Definition ex_bad_users : mailpiles :=
  {[ "h:1" := {| mp_user := "bob_x"; mp_host := "h"; mp_port := "1"; mp_in_htaccess := true;
                 mp_pid := None; mp_rss := None; mp_is_list := true |};
     "h:2" := {| mp_user := "Alice"; mp_host := "h"; mp_port := "2"; mp_in_htaccess := true;
                 mp_pid := None; mp_rss := None; mp_is_list := true |} ]}.

Lemma lowdig_prefix_split t :
  exists X, t = lowdig_prefix t ++ X /\ str_all lowdig (lowdig_prefix t) = true /\ stops lowdig X = true.
Proof.
  induction t as [|c t (X & Ht & Ha & Hs)]; [by exists ""|]. simpl.
  destruct (lowdig c) eqn:Hc.
  - exists X. rewrite append_cons, <-Ht. simpl. by rewrite Hc.
  - exists (String c t). simpl. by rewrite Hc.
Qed.

(** A readable name is [U ++ u ++ X]: [U] without [[a-z]], [u] the run
    group 1 captures, [X] starting outside [[a-z0-9]]. *)
Lemma readable_split u :
  readable_user u = true ->
  exists U v X, u = U ++ v ++ X /\ str_all (fun c => negb (is_lower c)) U = true /\
    route_user_ok v = true /\ stops lowdig X = true /\ str_all name_char X = true /\ read_user u = v.
Proof.
  unfold readable_user, read_user. intros [Hn Hs]%andb_true_iff.
  induction u as [|c u IH]; [done|]. simpl in Hn, Hs |- *. apply andb_true_iff in Hn as [Hc Hn].
  destruct (is_lower c) eqn:Hl.
  - destruct (lowdig_prefix_split u) as (X & Hu & Ha & HX).
    assert (Hd : lowdig c = true) by (unfold lowdig; by rewrite Hl).
    exists "", (String c (lowdig_prefix u)), X. split_and!.
    + by rewrite append_empty_l, append_cons, <-Hu.
    + reflexivity.
    + simpl. by rewrite Hl, Ha.
    + exact HX.
    + rewrite Hu, str_all_app in Hn. by apply andb_true_iff in Hn as [_ Hn].
    + simpl. by rewrite Hd.
  - destruct (IH Hn Hs) as (U & v & X & -> & HU & Hv & HX & HXn & Hr).
    exists (String c U), v, X. split_and!; try done. simpl. by rewrite Hl.
Qed.

Lemma json_escape_name u : str_all name_char u = true -> json_escape u = u.
Proof.
  induction u as [|c u IH]; [done|]. simpl. intros [Hc Hu]%andb_true_iff. rewrite IH by done.
  assert (Hj : json_escape_char c = String c EmptyString).
  { destruct c as [[] [] [] [] [] [] [] []]; vm_compute in Hc; try discriminate Hc; reflexivity. }
  by rewrite Hj.
Qed.

Lemma name_char_ascii c : name_char c = true -> is_ascii7 c = true.
Proof.
  unfold name_char, printable, is_ascii7. intros [[[Hp _]%andb_true_iff _]%andb_true_iff _]%andb_true_iff.
  apply andb_true_iff in Hp as [_ Hp]. apply Nat.leb_le in Hp. apply Nat.ltb_lt. lia.
Qed.

(** C20: a user name outside [[a-z][a-z0-9]*] does not survive the round
    trip.  For every registry whose records have printable names without
    quote, backslash or slash but with a letter in [[a-z]], decimal ports
    and hosts without [:], the routes [parse_htaccess] reads back from
    the file [save_htaccess] wrote carry as user [read_user] of the name:
    [[^a-z]+] eats the characters before the first letter and group 1
    keeps only the [[a-z0-9]] run that follows.  So [bob_x] reads back as
    [bob], [Alice] as [lice], and the next save writes the routes under
    these names. *)
Theorem save_then_parse_renames_users (os : gmap string string) (m : mailpiles) (w : world)
    (wr old : string) :
  map_Forall (fun _ r => route_readable r = true) m -> os !! "webroot" = Some wr ->
  str_all cls_dot wr = true -> w_files w !! APACHE_HTACCESS_PATH = Some old ->
  routes_of (snd (save_htaccess os m w)) =
  foldl (fun m e => <[mp_host e.2 ++ ":" ++ mp_port e.2 := read_route e.2]> m) ∅
    (first_per_user (map_to_list m)).
Proof.
  intros Hm Hw Hwr Hold.
  apply (routes_of_saved (fun e => route_readable e.2 = true) read_route os m w wr old); try done.
  - intros e He. unfold route_readable, readable_user in He.
    apply andb_true_iff in He as [[[Hn _]%andb_true_iff Hh]%andb_true_iff Hp]. split.
    + exact (str_all_impl _ _ _ name_char_ascii Hn).
    + unfold rule_of. rewrite json_escape_name by done.
      apply rewrite_rule_dot; [exact (str_all_impl _ _ _ name_char_dot Hn)|done|done].
  - intros m' e He. unfold route_readable in He.
    apply andb_true_iff in He as [[Hr Hh]%andb_true_iff Hp].
    destruct (readable_split _ Hr) as (U & v & X & Hu & HU & Hv & HX & HXn & Hrd).
    unfold rule_of. unfold readable_user in Hr. apply andb_true_iff in Hr as [Hn _].
    rewrite json_escape_name by done. rewrite Hu at 1. unfold parse_line.
    rewrite match_rule_line_gen by done. cbn. unfold read_route. by rewrite Hrd.
  - apply map_Forall_to_list in Hm. eapply Forall_impl; [exact Hm|]. by intros [k r].
Qed.


Lemma save_then_parse_renames_users_witness :
  map_Forall (fun _ r => route_readable r = true) ex_bad_users /\
  routes_of (snd (save_htaccess {[ "webroot" := "/mailpile/" ]} ex_bad_users ex_world)) =
  foldl (fun m e => <[mp_host e.2 ++ ":" ++ mp_port e.2 := read_route e.2]> m) ∅
    (first_per_user (map_to_list ex_bad_users)) /\
  foldl (fun m e => <[mp_host e.2 ++ ":" ++ mp_port e.2 := read_route e.2]> m) ∅
    (first_per_user (map_to_list ex_bad_users)) =
  ({[ "h:1" := {| mp_user := "bob"; mp_host := "h"; mp_port := "1"; mp_in_htaccess := true;
                 mp_pid := None; mp_rss := None; mp_is_list := true |};
     "h:2" := {| mp_user := "lice"; mp_host := "h"; mp_port := "2"; mp_in_htaccess := true;
                 mp_pid := None; mp_rss := None; mp_is_list := true |} ]} : mailpiles).
Proof.
  assert (H : map_Forall (fun _ r => route_readable r = true) ex_bad_users)
    by (apply map_Forall_to_list; vm_compute; repeat constructor).
  split_and!; [exact H| |vm_decide].
  exact (save_then_parse_renames_users {[ "webroot" := "/mailpile/" ]} ex_bad_users ex_world "/mailpile/"
           (default "" (w_files ex_world !! APACHE_HTACCESS_PATH)) H eq_refl eq_refl eq_refl).
Defined.
