(* ===== verification/Ports.v ===== *)
(** * Choosing a port: [_get_random_port] and the port of [get_user_settings]

    Models lines 166-177 ([_get_random_port]) and 206-212 (the port choice
    of [get_user_settings]) of mailpile-admin.py.  [_get_random_port]
    creates ONE generator [ns = _parse_netstat()] before its loop of 100
    tries; every try draws [random.randint(34110, 64110)] and scans the
    generator for a local address ending in [":" + port], stopping at the
    first hit.  The generator is not restarted: a later try resumes after
    the row of the previous hit, and once it is exhausted no row is
    checked any more.  The generator starts (netstat runs) at the first
    scan, after the first draw. *)

From Stdlib Require Import String Ascii ZArith Lia.
From stdpp Require Import base list gmap strings.
From S2P Require Import Prelude PyStr Escape Regex World Registry.
Open Scope string_scope.
Open Scope py_scope.

Abbreviation nsrow := (string * string * string * string)%type.

Definition PORT_LO : Z := 34110.
Definition PORT_HI : Z := 64110.

(** The inner [for lhp, rhp, pid, proc in ns] loop: whether it stopped at a
    row whose local address ends with [cport], and the rows left. *)
Fixpoint scan_rows (cport : string) (rows : list nsrow) : bool * list nsrow :=
  match rows with
  | [] => (false, [])
  | (lhp, _, _, _) :: rows' => if endswith lhp cport then (true, rows') else scan_rows cport rows'
  end.

(** The generator [ns]: not started ([None]) or the rows it has left. *)
Definition gen_rows (g : option (list nsrow)) : Py (list nsrow) :=
  match g with
  | Some rows => ret rows
  | None => _parse_netstat
  end.

(** [for tries in range(0, 100): ...] with [tries] iterations left. *)
Fixpoint random_port_loop (tries : nat) (g : option (list nsrow)) : Py string :=
  match tries with
  | O => raise AssertionError
  | S t =>
      n <- randint PORT_LO PORT_HI ;;
      let port := str_of_Z n in
      rows <- gen_rows g ;;
      let scanned := scan_rows (":" ++ port) rows in
      if fst scanned then random_port_loop t (Some (snd scanned)) else ret port
  end.

Definition _get_random_port : Py string := random_port_loop 100 None.

(** [port] is truthy: given and not empty. *)
Definition truthy (o : option string) : bool :=
  match o with Some s => negb (String.eqb s "") | None => false end.

(** [[int(m[2]) for m in mailpiles.values() if m[0] == user]]: the first
    [int] failure propagates. *)
Fixpoint ports_of (user : string) (l : list mailpile) : res (list Z) :=
  match l with
  | [] => Ok []
  | r :: l' =>
      if String.eqb (mp_user r) user then
        n <-! py_int (mp_port r) ;; ns <-! ports_of user l' ;; Ok (n :: ns)
      else ports_of user l'
  end.

Definition list_min (n : Z) (l : list Z) : Z := foldr Z.min n l.

(** Lines 206-212: [args.port], else the lowest port registered for the
    user (when [mailpiles] is given and not empty), else a random one. *)
Definition choose_port (args_port : option string) (mailpiles : option mailpiles)
    (user : string) : Py string :=
  port <- (match mailpiles with
           | Some m =>
               if negb (bool_decide (m = ∅)) && negb (truthy args_port) then
                 ports <- lift_res (ports_of user (map snd (map_to_list m))) ;;
                 match ports with
                 | [] => ret args_port
                 | n :: ns => ret (Some (str_of_Z (list_min n ns)))
                 end
               else ret args_port
           | None => ret args_port
           end) ;;
  if truthy port then ret (default "" port) else _get_random_port.

(** The [i]-th draw of [random.randint(34110, 64110)] from [w] on. *)
Definition draw (w : world) (i : nat) : Z :=
  (PORT_LO + w_rand w (w_rand_next w + i) mod (PORT_HI - PORT_LO + 1))%Z.

(** ** Properties *)

Lemma randint_run a b w :
  randint a b w = (Ok (a + w_rand w (w_rand_next w) mod (b - a + 1))%Z,
                   set_rand_next (S (w_rand_next w)) w).
Proof. reflexivity. Qed.

Lemma randint_range a b x : (a <= b)%Z -> (a <= a + x mod (b - a + 1) <= b)%Z.
Proof. intros H. pose proof (Z.mod_pos_bound x (b - a + 1)). lia. Qed.

Lemma scan_rows_shorter cport rows :
  fst (scan_rows cport rows) = true -> length (snd (scan_rows cport rows)) < length rows.
Proof.
  induction rows as [|[[[lhp rhp] pid] proc] rows IH]; simpl; [done|].
  destruct (endswith lhp cport); simpl; [lia|]. intros H. specialize (IH H). lia.
Qed.

Lemma scan_rows_miss cport rows :
  forallb (fun r => negb (endswith r.1.1.1 cport)) rows = true -> scan_rows cport rows = (false, []).
Proof.
  induction rows as [|[[[lhp rhp] pid] proc] rows IH]; simpl; [done|].
  destruct (endswith lhp cport); simpl; [done|]. apply IH.
Qed.

Lemma random_port_loop_step t g w :
  random_port_loop (S t) g w =
  (let n := (PORT_LO + w_rand w (w_rand_next w) mod (PORT_HI - PORT_LO + 1))%Z in
   let w1 := set_rand_next (S (w_rand_next w)) w in
   match gen_rows g w1 with
   | (Ok rows, w2) =>
       (if fst (scan_rows (":" ++ str_of_Z n) rows)
        then random_port_loop t (Some (snd (scan_rows (":" ++ str_of_Z n) rows)))
        else ret (str_of_Z n)) w2
   | (Exc e, w2) => (Exc e, w2)
   end).
Proof. reflexivity. Qed.

(** C27: every port [_get_random_port] returns is the decimal text of a
    number in [34110, 64110]. *)
Theorem random_port_in_range (w w' : world) (p : string) :
  _get_random_port w = (Ok p, w') -> exists z, (PORT_LO <= z <= PORT_HI)%Z /\ p = str_of_Z z.
Proof.
  unfold _get_random_port. generalize 100%nat as t, (@None (list nsrow)) as g.
  intros t. revert w. induction t as [|t IH]; intros w g H; [done|].
  rewrite random_port_loop_step in H. cbv zeta in H.
  destruct (gen_rows g _) as [[rows|e] w2]; [|done].
  destruct (fst (scan_rows _ rows)); cbv beta iota in H; [by eapply IH|].
  unfold ret in H. injection H as <- _. eexists. split; [|reflexivity]. apply randint_range. done.
Qed.

Lemma random_port_in_range_witness :
  _get_random_port ex_world = (Ok "34110", snd (_get_random_port ex_world)) /\
  exists z, (PORT_LO <= z <= PORT_HI)%Z /\ "34110" = str_of_Z z.
Proof.
  assert (H : _get_random_port ex_world = (Ok "34110", snd (_get_random_port ex_world)))
    by (vm_compute; reflexivity).
  split; [exact H|]. exact (random_port_in_range _ _ _ H).
Defined.

(** With the generator started and fewer rows left than tries, the loop
    returns a port: each hit consumes at least one row. *)
Lemma random_port_loop_total t rows w :
  length rows < t -> exists p w', random_port_loop t (Some rows) w = (Ok p, w').
Proof.
  revert rows w. induction t as [|t IH]; intros rows w Hlen; [lia|].
  rewrite random_port_loop_step. cbv zeta. unfold gen_rows, ret at 1. cbv beta iota.
  destruct (fst (scan_rows _ rows)) eqn:Hs; cbv beta iota; [|unfold ret; eauto].
  apply IH. pose proof (scan_rows_shorter _ _ Hs). lia.
Qed.

Lemma gen_rows_start w :
  gen_rows None w =
  match w_netstat w with
  | Some out => (Ok (rows_of ns_re out), set_cmds (w_cmds w ++ ["netstat -ant --program"]) w)
  | None => (Exc OSError, w)
  end.
Proof. unfold gen_rows, _parse_netstat, bind, run_netstat, ret. by destruct (w_netstat w). Qed.

Lemma random_port_returns (w : world) (out : string) :
  w_netstat w = Some out -> length (rows_of ns_re out) < 100 ->
  exists p w', _get_random_port w = (Ok p, w').
Proof.
  intros Hn Hlen. unfold _get_random_port. rewrite random_port_loop_step. cbv zeta.
  rewrite gen_rows_start. cbn [w_netstat set_rand_next]. rewrite Hn. cbv beta iota.
  destruct (fst (scan_rows _ _)) eqn:Hs; cbv beta iota; [|unfold ret; eauto].
  apply random_port_loop_total. pose proof (scan_rows_shorter _ _ Hs). lia.
Qed.

(** C28: when netstat lists fewer than 100 TCP rows, [_get_random_port]
    always returns (its [assert] is unreachable), whatever the draws. *)
Theorem random_port_total (w : world) (out : string) :
  w_netstat w = Some out -> length (rows_of ns_re out) < 100 ->
  exists p w', _get_random_port w = (Ok p, w').
Proof. apply random_port_returns. Qed.

Lemma random_port_total_witness :
  (w_netstat ex_world = Some (default "" (w_netstat ex_world)) /\
   length (rows_of ns_re (default "" (w_netstat ex_world))) < 100) /\
  exists p w', _get_random_port ex_world = (Ok p, w').
Proof.
  assert (H1 : w_netstat ex_world = Some (default "" (w_netstat ex_world))) by reflexivity.
  assert (H2 : length (rows_of ns_re (default "" (w_netstat ex_world))) < 100)
    by (vm_compute; lia).
  split; [split; assumption|]. exact (random_port_total _ _ H1 H2).
Defined.

(** C17: the allocator can return a port that netstat lists as taken.  If
    the first draw hits the second row, the generator is left after it, and
    the second draw, the port of the FIRST row, is checked only against
    the remaining rows: it is returned although the first row listens on
    it.  The specification says the allocator never returns a port in use. *)
Theorem random_port_reuses_taken (w : world) (out : string) (r1 r2 : nsrow)
    (rest : list nsrow) (p1 p2 : Z) :
  w_netstat w = Some out -> rows_of ns_re out = r1 :: r2 :: rest ->
  draw w 0 = p2 -> draw w 1 = p1 ->
  endswith r1.1.1.1 (":" ++ str_of_Z p1) = true ->
  endswith r1.1.1.1 (":" ++ str_of_Z p2) = false ->
  endswith r2.1.1.1 (":" ++ str_of_Z p2) = true ->
  forallb (fun r => negb (endswith r.1.1.1 (":" ++ str_of_Z p1))) rest = true ->
  fst (_get_random_port w) = Ok (str_of_Z p1) /\
  exists r, r ∈ rows_of ns_re out /\ endswith r.1.1.1 (":" ++ str_of_Z p1) = true.
Proof.
  intros Hn Hrows Hd0 Hd1 H11 H12 H22 Hrest. split; [|exists r1; rewrite Hrows; split; [left|done]].
  unfold _get_random_port. rewrite random_port_loop_step. cbv zeta.
  rewrite gen_rows_start. cbn [w_netstat set_rand_next]. rewrite Hn, Hrows. cbv beta iota.
  unfold draw in Hd0, Hd1. rewrite Nat.add_0_r in Hd0. rewrite Hd0.
  destruct r1 as [[[l1 x1] y1] z1], r2 as [[[l2 x2] y2] z2]. simpl in H11, H12, H22.
  cbn [scan_rows]. rewrite H12, H22. cbv beta iota. cbn [fst snd].
  rewrite random_port_loop_step. cbv zeta. cbn [gen_rows ret]. cbv beta iota.
  cbn [w_rand w_rand_next set_rand_next set_cmds].
  rewrite Nat.add_1_r in Hd1. rewrite Hd1, scan_rows_miss by done. done.
Qed.

Definition ex_port_world : world :=
  {| w_files := ∅; w_ps := None;
     w_netstat := Some (
       "tcp        0      0 127.0.0.1:40000         0.0.0.0:*               LISTEN      100/python2" ++ nl ++
       "tcp        0      0 127.0.0.1:40001         0.0.0.0:*               LISTEN      200/python2");
     w_out := []; w_rand := fun i => match i with 0 => 5891%Z | _ => 5890%Z end;
     w_rand_next := 0; w_uid := 0%Z; w_passwd := []; w_hostname := "h"; w_cmds := [];
     w_realpath := fun p => p; w_file := ""; w_argv0 := ""; w_sys := sys0 |}.

Lemma random_port_reuses_taken_witness :
  fst (_get_random_port ex_port_world) = Ok "40000" /\
  exists r, r ∈ rows_of ns_re (default "" (w_netstat ex_port_world)) /\
            endswith r.1.1.1 ":40000" = true.
Proof.
  refine (random_port_reuses_taken ex_port_world (default "" (w_netstat ex_port_world))
            ("127.0.0.1:40000", "0.0.0.0:*", "100", "python2")
            ("127.0.0.1:40001", "0.0.0.0:*", "200", "python2") [] 40000 40001
            _ _ _ _ _ _ _ _); vm_compute; reflexivity.
Defined.

(** What the allocator changes in the world: the generator position, and
    the netstat run when the generator starts. *)
Lemma random_port_loop_world t rows w r w' :
  random_port_loop t (Some rows) w = (r, w') -> exists n, w' = set_rand_next n w.
Proof.
  revert rows w. induction t as [|t IH]; intros rows w H.
  - injection H as _ <-. exists (w_rand_next w). by destruct w.
  - rewrite random_port_loop_step in H. cbv zeta in H. unfold gen_rows, ret at 1 in H.
    cbv beta iota in H. destruct (fst (scan_rows _ rows)); cbv beta iota in H.
    + apply IH in H as [n ->]. by exists n.
    + injection H as _ <-. by eexists.
Qed.

Lemma get_random_port_world w out r w' :
  w_netstat w = Some out -> _get_random_port w = (r, w') ->
  exists n, w' = set_rand_next n (set_cmds (w_cmds w ++ ["netstat -ant --program"])%list w).
Proof.
  intros Hn H. unfold _get_random_port in H. rewrite random_port_loop_step in H. cbv zeta in H.
  rewrite gen_rows_start in H. cbn [w_netstat set_rand_next] in H. rewrite Hn in H.
  cbv beta iota in H. destruct (fst (scan_rows _ _)); cbv beta iota in H.
  - apply random_port_loop_world in H as [n ->]. by exists n.
  - injection H as _ <-. by eexists.
Qed.

Lemma choose_port_random p user w :
  truthy p = false -> choose_port p None user w = _get_random_port w.
Proof. intros Hp. unfold choose_port, bind, ret. cbv beta iota. by rewrite Hp. Qed.

(** ** The port of [get_user_settings] *)

Lemma list_min_spec n ns :
  list_min n ns ∈ n :: ns /\ Forall (fun y => (list_min n ns <= y)%Z) (n :: ns).
Proof.
  induction ns as [|m ns [Hin Hall]]; simpl; [split; [left|by repeat constructor]|].
  unfold list_min in *. simpl. split.
  - destruct (Z.min_spec m (foldr Z.min n ns)) as [[_ ->]|[_ ->]]; [by right; left|].
    apply elem_of_cons in Hin as [->|Hin]; [left|by right; right].
  - inversion Hall as [|? ? Hn Hns]; subst. constructor; [lia|]. constructor; [lia|].
    eapply Forall_impl; [exact Hns|]. intros y Hy; simpl in Hy. lia.
Qed.

Lemma ports_of_empty user : ports_of user (map snd (map_to_list (∅ : mailpiles))) = Ok [].
Proof. by rewrite map_to_list_empty. Qed.

(** A given, non-empty [--port] is used as is: no draw, no netstat. *)
Lemma choose_port_explicit p mp user w :
  truthy (Some p) = true -> choose_port (Some p) mp user w = (Ok p, w).
Proof.
  intros Ht. unfold choose_port, bind. destruct mp as [m|]; rewrite ?Ht, ?andb_false_r;
  unfold ret; rewrite Ht; reflexivity.
Qed.

(** C26: without [--port], a user who has Mailpiles in the registry gets the
    lowest of their ports, and the world is left unchanged: no random draw
    and no netstat.  A non-numeric registered port raises [ValueError]. *)
Theorem choose_port_lowest (args_port : option string) (m : mailpiles) (user : string)
    (ports : list Z) (w : world) :
  truthy args_port = false -> ports_of user (map snd (map_to_list m)) = Ok ports -> ports <> [] ->
  exists z, choose_port args_port (Some m) user w = (Ok (str_of_Z z), w) /\
            z ∈ ports /\ Forall (fun y => (z <= y)%Z) ports.
Proof.
  intros Ht Hp Hne. destruct ports as [|n ns]; [done|].
  assert (Hm : m <> ∅) by (intros ->; rewrite ports_of_empty in Hp; done).
  exists (list_min n ns). split; [|apply list_min_spec].
  unfold choose_port, bind. rewrite Ht, bool_decide_false by done. cbn.
  rewrite Hp. unfold ret, truthy. by rewrite truthy_str_of_Z.
Qed.

Lemma choose_port_nonnumeric args_port (m : mailpiles) user w :
  truthy args_port = false -> ports_of user (map snd (map_to_list m)) = Exc ValueError ->
  fst (choose_port args_port (Some m) user w) = Exc ValueError.
Proof.
  intros Ht Hp. assert (Hm : m <> ∅) by (intros ->; rewrite ports_of_empty in Hp; done).
  unfold choose_port, bind. rewrite Ht, bool_decide_false by done. cbn. by rewrite Hp.
Qed.

(** A registry with two Mailpiles of alice, on ports 33412 and 33411. *)
Definition ex_registry : mailpiles :=
  <["127.0.0.1:33412" := {| mp_user := "alice"; mp_host := "127.0.0.1"; mp_port := "33412";
       mp_in_htaccess := true; mp_pid := None; mp_rss := None; mp_is_list := false |}]>
  (<["127.0.0.1:33411" := {| mp_user := "alice"; mp_host := "127.0.0.1"; mp_port := "33411";
       mp_in_htaccess := false; mp_pid := Some "100"; mp_rss := Some "9"; mp_is_list := true |}]> ∅).

Lemma choose_port_lowest_witness :
  exists (ports : list Z) (z : Z),
  truthy None = false /\
  ports_of "alice" (map snd (map_to_list ex_registry)) = Ok ports /\ ports <> [] /\
  choose_port None (Some ex_registry) "alice" ex_world = (Ok (str_of_Z z), ex_world) /\
  z ∈ ports /\ Forall (fun y => (z <= y)%Z) ports.
Proof.
  set (ports := match ports_of "alice" (map snd (map_to_list ex_registry)) with
                | Ok p => p | Exc _ => [] end).
  assert (H1 : truthy None = false) by reflexivity.
  assert (H2 : ports_of "alice" (map snd (map_to_list ex_registry)) = Ok ports)
    by (vm_compute; reflexivity).
  assert (H3 : ports <> []) by (vm_compute; discriminate).
  destruct (choose_port_lowest None _ "alice" ports ex_world H1 H2 H3) as [z Hz].
  exists ports, z. split; [|split; [|split]]; assumption.
Defined.

(** ** Output *)

Lemma out_mono_random_port_loop t g : out_mono (random_port_loop t g).
Proof.
  revert g. induction t as [|t IH]; intros g; simpl; [apply out_mono_raise|].
  unfold gen_rows. out_mono_tac.
Qed.
Lemma out_mono_get_random_port : out_mono _get_random_port.
Proof. apply out_mono_random_port_loop. Qed.
#[export] Hint Resolve out_mono_random_port_loop out_mono_get_random_port : outmono.

Lemma out_mono_choose_port p mp user : out_mono (choose_port p mp user).
Proof. unfold choose_port. out_mono_tac. Qed.
#[export] Hint Resolve out_mono_choose_port : outmono.
