(* ===== verification/Shell.v ===== *)
(** * The external programs: [os.system] and [expect]

    The script starts external programs in two ways: [os.system(line)] in
    [run_script] (a shell command line, whose exit status it reads), and
    [subprocess.Popen(['expect', '-'])] followed by [communicate(input)] in
    [run_as_user].  What those programs do is outside the repository, so
    they are a typeclass [Shell]: any implementation gives each command an
    exit status and a new world, and promises only what the script relies
    on.  The laws say that a started program is recorded in [w_cmds] and
    that the script's own printed lines are not touched.  The operations
    the script uses are [os_system], [popen_expect] and [communicate].

    [table_shell] is an implementation for examples: a table gives the
    exit status of each command line, and nothing but [w_cmds] changes. *)

From Stdlib Require Import String ZArith.
From stdpp Require Import base list gmap strings.
From S2P Require Import Prelude PyStr World.
Open Scope string_scope.
Open Scope py_scope.

Class Shell : Type := {
  (** [os.system(c)]: the exit status and the world after the command. *)
  sh_system : string -> world -> Z * world;
  (** [subprocess.Popen(argv)]: [OSError] when the program cannot start. *)
  sh_popen : string -> world -> res unit * world;
  (** [p.communicate(input=i)]: (stdout, stderr) of the started program. *)
  sh_communicate : string -> world -> (string * string) * world;
  sh_system_cmds : forall c w, w_cmds (snd (sh_system c w)) = (w_cmds w ++ [c])%list;
  sh_system_out : forall c w, w_out (snd (sh_system c w)) = w_out w;
  sh_popen_cmds : forall p w,
    match fst (sh_popen p w) with
    | Ok _ => w_cmds (snd (sh_popen p w)) = (w_cmds w ++ [p])%list
    | Exc e => e = OSError /\ snd (sh_popen p w) = w
    end;
  sh_popen_out : forall p w, w_out (snd (sh_popen p w)) = w_out w;
  sh_communicate_cmds : forall i w, w_cmds (snd (sh_communicate i w)) = w_cmds w;
  sh_communicate_out : forall i w, w_out (snd (sh_communicate i w)) = w_out w
}.

Section Ops.
Context `{Shell}.

Definition os_system (c : string) : Py Z :=
  fun w => let '(rv, w') := sh_system c w in (Ok rv, w').

Definition popen_expect : Py unit := sh_popen "expect -".

Definition communicate (i : string) : Py (string * string) :=
  fun w => let '(o, w') := sh_communicate i w in (Ok o, w').

Lemma os_system_run c w : os_system c w = (Ok (fst (sh_system c w)), snd (sh_system c w)).
Proof. unfold os_system. by destruct (sh_system c w). Qed.

Lemma communicate_run i w :
  communicate i w = (Ok (fst (sh_communicate i w)), snd (sh_communicate i w)).
Proof. unfold communicate. by destruct (sh_communicate i w). Qed.

Lemma out_mono_os_system c : out_mono (os_system c).
Proof.
  apply out_mono_keep. intros w. unfold os_system.
  pose proof (sh_system_out c w). by destruct (sh_system c w).
Qed.

Lemma out_mono_popen_expect : out_mono popen_expect.
Proof. apply out_mono_keep. intros w. apply sh_popen_out. Qed.

Lemma out_mono_communicate i : out_mono (communicate i).
Proof.
  apply out_mono_keep. intros w. unfold communicate.
  pose proof (sh_communicate_out i w). by destruct (sh_communicate i w).
Qed.

End Ops.

#[export] Hint Resolve out_mono_os_system out_mono_popen_expect out_mono_communicate : outmono.

(** A shell whose commands only have an exit status, given by a table. *)
Definition table_system (st : string -> Z) (c : string) (w : world) : Z * world :=
  (st c, set_cmds ((w_cmds w ++ [c])%list) w).

Definition table_popen (p : string) (w : world) : res unit * world :=
  (Ok tt, set_cmds ((w_cmds w ++ [p])%list) w).

#[export] Instance table_shell (st : string -> Z) (reply : string * string) : Shell := {
  sh_system := table_system st;
  sh_popen := table_popen;
  sh_communicate := fun _ w => (reply, w);
  sh_system_cmds := fun _ _ => eq_refl;
  sh_system_out := fun _ _ => eq_refl;
  sh_popen_cmds := fun _ _ => eq_refl;
  sh_popen_out := fun _ _ => eq_refl;
  sh_communicate_cmds := fun _ _ => eq_refl;
  sh_communicate_out := fun _ _ => eq_refl
}.

Lemma table_system_files st c w : w_files (snd (table_system st c w)) = w_files w.
Proof. done. Qed.
