(* ===== verification/Lifecycle.v ===== *)
(** * Starting and stopping a user's Mailpile

    Models lines 23-74 (the shell scripts and paths), 103-141 (the arguments, as the
    record argparse produces), 180-221 ([get_os_settings],
    [get_user_settings]), 288-298 ([run_script]), 331-402
    ([install_apache], [run_as_user], [start_mailpile], [stop_mailpile])
    and 405-408 ([usage]) of mailpile-admin.py.  Every external program
    goes through the [Shell] interface of Shell.v, so the theorems hold for
    any behaviour of the programs that respects its laws. *)

From Stdlib Require Import String Ascii ZArith Lia.
From stdpp Require Import base list gmap strings.
From S2P Require Import Prelude PyStr Escape Regex World Registry Htaccess Ports Shell.
Open Scope string_scope.
Open Scope py_scope.

(** ** The shell scripts (lines 23-74) *)

Definition MAILPILE_STOP_SCRIPT : list string :=
  ["kill " ++ dq ++ "%(pid)s" ++ dq ++ " || (rm -f " ++ dq ++ "%(pidfile)s" ++ dq ++ "; false)";
   "sleep 10";
   "kill " ++ dq ++ "%(pid)s" ++ dq ++ " || (rm -f " ++ dq ++ "%(pidfile)s" ++ dq ++ "; true)"].

Definition MAILPILE_FORCE_STOP_SCRIPT : list string :=
  ["kill -INT " ++ dq ++ "%(pid)s" ++ dq ++ " && (sleep 20; kill -9 " ++ dq ++ "%(pid)s" ++ dq ++
     ") || true";
   "rm -f " ++ dq ++ "%(pidfile)s" ++ dq].

Definition MAILPILE_START_SCRIPT : list string :=
  ["screen -S mailpile -d -m " ++ dq ++ "%(mailpile)s" ++ dq ++
   " " ++ dq ++ "--www=%(host)s:%(port)s%(path)s" ++ dq ++
   " " ++ dq ++ "--pid=%(pidfile)s" ++ dq ++
   " --interact"].

Definition INSTALL_APACHE_SCRIPT : list string :=
  [dq ++ "%(packager)s" ++ dq ++ " install screen expect";
   "a2enmod headers rewrite proxy proxy_http";
   "mkdir -p /var/lib/mailpile/apache/ /var/lib/mailpile/pids/";
   "cp -a " ++ dq ++ "%(mailpile-www)s" ++ dq ++ "/* /var/lib/mailpile/apache/";
   "rm -f /var/lib/mailpile/apache/shared";
   "ln -fs " ++ dq ++ "%(mailpile-static)s" ++ dq ++ " /var/lib/mailpile/apache/shared";
   "ln -fs " ++ dq ++ "%(mailpile-admin)s" ++ dq ++ " /var/lib/mailpile/apache/admin.cgi";
   "ln -fs " ++ dq ++ "%(mailpile-conf)s" ++ dq ++ " /etc/apache2/conf-enabled/";
   "apache2ctl restart"].

Definition FIX_PERMS_SCRIPT : list string :=
  ["chown -R %(apache-user)s:%(apache-group)s /var/lib/mailpile/apache/";
   "chmod go+rwxt /var/lib/mailpile/pids"].

(** The triple-quoted string, its [\\n] and [\\\\] read as Python reads them. *)
Definition RUN_AS_EXPECT_SCRIPT : string :=
  "    spawn su -l %(user)s" ++ nl ++
  "    expect assword {" ++ nl ++
  "        send " ++ dq ++ "%(password)s" ++ bs ++ "n" ++ dq ++ nl ++
  "    }" ++ nl ++
  "    expect {" ++ nl ++
  "        incorrect   exit" ++ nl ++
  "        failure     exit" ++ nl ++
  "        timeout     exit" ++ nl ++
  "        " ++ dq ++ bs ++ bs ++ "$" ++ dq ++ nl ++
  "    }" ++ nl ++
  "    send " ++ dq ++ "exec %(command)s" ++ bs ++ "n" ++ dq ++ nl ++
  "    expect heat_death_of_universe" ++ nl.

Definition MAILPILE_PIDS_PATH : string := "/var/lib/mailpile/pids".
Definition APACHE_DEFAULT_WEBROOT : string := "/mailpile/".

(** ** The parsed arguments (lines 103-141) *)

(** [app_args.parse_args()]: argparse itself is not modelled; a flag is a
    [bool], an option [None] unless given. *)
Record args : Type := {
  a_list : bool; a_start : bool; a_stop : bool; a_install_apache : bool;
  a_force : bool;
  a_password : option string;
  a_user : option string;
  a_port : option string;
  a_host : string;
  a_discover : bool;
  a_webroot : string;
  a_mailpile_root : option string;
  a_packager : option string;
  a_apache_user : option string;
  a_apache_group : option string
}.

(** The defaults of lines 117-141, with the action flag given. *)
Definition default_args : args :=
  {| a_list := false; a_start := false; a_stop := false; a_install_apache := false;
     a_force := false; a_password := None; a_user := None; a_port := None;
     a_host := "localhost"; a_discover := false; a_webroot := APACHE_DEFAULT_WEBROOT;
     a_mailpile_root := None; a_packager := None; a_apache_user := None;
     a_apache_group := None |}.

(** ** [get_os_settings] (lines 180-197) *)

(** [a or b] on an optional string argument. *)
Definition py_or (o : option string) (d : string) : string :=
  if truthy o then default "" o else d.

Fixpoint drop_to_slash (r : string) : string :=
  match r with
  | EmptyString => EmptyString
  | String c r' => if ascii_dec c "/" then r else drop_to_slash r'
  end.

Fixpoint lstrip_slash (s : string) : string :=
  match s with
  | String c s' => if ascii_dec c "/" then lstrip_slash s' else s
  | EmptyString => EmptyString
  end.

(** [os.path.dirname(p)] (posixpath): up to the last [/], trailing [/]s
    removed unless the head is made of [/] only. *)
Definition dirname (p : string) : string :=
  let head := str_rev (drop_to_slash (str_rev p)) in
  if negb (String.eqb head "") && negb (str_all (fun c => bool_decide (c = "/"%char)) head)
  then str_rev (lstrip_slash (str_rev head)) else head.

Definition os_settings_of (a : args) (w : world) : gmap string string :=
  let mp_root := w_realpath w (py_or (a_mailpile_root a) (path_join (dirname (w_file w)) "..")) in
  let mpa_root := path_join (path_join mp_root "packages") "apache" in
  <["packager" := py_or (a_packager a) "apt-get"]>
  (<["apache-user" := py_or (a_apache_user a) "www-data"]>
  (<["apache-group" := py_or (a_apache_group a) "www-data"]>
  (<["webroot" := a_webroot a]>
  (<["mailpile" := path_join mp_root "mp"]>
  (<["mailpile-root" := mp_root]>
  (<["mailpile-admin" := w_realpath w (w_argv0 w)]>
  (<["mailpile-static" := path_join (path_join (path_join mp_root "mailpile") "www") "default"]>
  (<["mailpile-www" := path_join mpa_root "www"]>
  {[ "mailpile-conf" := path_join mpa_root "mailpile.conf" ]})))))))).

Definition get_os_settings (a : args) : Py (gmap string string) :=
  fun w => (Ok (os_settings_of a w), w).

(** ** [get_user_settings] (lines 200-221) *)

(** The dict it returns, one field per key. *)
Record user_settings : Type := {
  us_user : string;
  us_mailpile : string;
  us_host : string;
  us_port : string;
  us_path : string;
  us_pidfile : string;
  us_pid : pyval
}.

Definition us_dict (us : user_settings) : gmap string pyval :=
  <["user" := PStr (us_user us)]> (<["mailpile" := PStr (us_mailpile us)]>
  (<["host" := PStr (us_host us)]> (<["port" := PStr (us_port us)]>
  (<["path" := PStr (us_path us)]> (<["pidfile" := PStr (us_pidfile us)]>
  {[ "pid" := us_pid us ]}))))).

Definition pidfile_of (user : string) : string := path_join MAILPILE_PIDS_PATH (user ++ ".pid").

(** [os.path.exists(pidfile) and open(pidfile, 'r').read().strip()] *)
Definition read_pid (pidfile : string) : Py pyval :=
  ex <- path_exists pidfile ;;
  if ex then c <- read_file pidfile ;; ret (PStr (strip c)) else ret (PBool false).

Definition get_user_settings (a : args) (user : option string) (mailpiles : option mailpiles)
    : Py user_settings :=
  settings <- get_os_settings a ;;
  user <- (if truthy user then ret (default "" user) else getpwuid_name) ;;
  py_assert (negb (str_mem "." user) && negb (str_mem "/" user)) ;;
  let pidfile := pidfile_of user in
  port <- choose_port (a_port a) mailpiles user ;;
  pid <- read_pid pidfile ;;
  ret {| us_user := user; us_mailpile := default "" (settings !! "mailpile");
         us_host := "127.0.0.1"; us_port := port;
         us_path := replace (a_webroot a ++ "/" ++ user ++ "/") "//" "/";
         us_pidfile := pidfile; us_pid := pid |}.

(** ** Running scripts (lines 288-298, 341-349, 405-408) *)

Section Scripts.
Context `{Shell}.

(** [run_script(args, settings, script)]: each line is formatted with the
    escaped settings (again for every line), printed and run; the first
    non-zero status is printed and ends the script, which returns
    normally either way. *)
Fixpoint run_script (settings : gmap string pyval) (script : list string) : Py unit :=
  match script with
  | [] => py_print "===[ SUCCESS! ]==="
  | line :: rest =>
      esc <- lift_res (_escaped settings) ;;
      l <- lift_res (py_format line esc) ;;
      py_print ("==> " ++ l) ;;
      rv <- os_system l ;;
      if Z.eqb 0 rv then run_script settings rest
      else py_print ("==[ FAILED! Exit code: " ++ str_of_Z rv ++ " ]==")
  end.

(** [run_as_user(user, password, command)]: expect is started before the
    script is formatted. *)
Definition run_as_user (user password command : string) : Py (string * string) :=
  popen_expect ;;
  esc <- lift_res (_escaped (<["user" := PStr user]> (<["password" := PStr password]>
                               {[ "command" := PStr command ]}))) ;;
  input <- lift_res (py_format RUN_AS_EXPECT_SCRIPT esc) ;;
  communicate input.

(** [usage(ap, reason, code)]: [ap.print_usage()] prints the usage text
    argparse builds for the parser, [usage_text] here. *)
Definition usage (usage_text reason : string) (code : Z) : Py unit :=
  py_print ("error: " ++ reason) ;;
  py_print usage_text ;;
  raise (SystemExit code).

End Scripts.

(** ** The actions (lines 331-402) *)

(** [d[k]]: [KeyError] for a missing key. *)
Definition getitem {V} (d : gmap string V) (k : string) : res V :=
  match d !! k with Some v => Ok v | None => Exc KeyError end.

(** The truth value of a settings value ([user_settings.get('pid')]). *)
Definition pyval_truthy (v : pyval) : bool :=
  match v with PStr s => negb (String.eqb s "") | PBool b => b | PNone => false end.

(** [re.match('^[0-9]+$', port)] and [re.match('^[a-z0-9\.]+$', host)] *)
Definition port_re : regex := RSeq (plus cls_d) REnd.
Definition host_cls (c : ascii) : bool := is_lower c || is_digit c || bool_decide (c = "."%char).
Definition host_re : regex := RSeq (plus host_cls) REnd.
Definition re_ok (r : regex) (s : string) : bool :=
  match re_match r s with Some _ => true | None => false end.

Definition sudo_line (command : string) : string :=
  "sudo -u " ++ dq ++ "%(user)s" ++ dq ++ " -- " ++ command.

(** The command [start_mailpile] runs as the user, from the escaped
    admin path, port and host. *)
Definition start_command (admin port host : string) : string :=
  dq ++ admin ++ dq ++ " --start --port=" ++ dq ++ port ++ dq ++ " --host=" ++ dq ++ host ++ dq.

Section Actions.
Context `{Shell}.
Variable usage_text : string.

(** [install_apache(app_args, args)] *)
Definition install_apache (a : args) : Py unit :=
  uid <- getuid ;;
  if Z.eqb uid 0 then
    os_settings <- get_os_settings a ;;
    run_script (PStr <$> os_settings) INSTALL_APACHE_SCRIPT ;;
    m <- _get_mailpiles (a_discover a) ;;
    os' <- save_htaccess os_settings m ;;
    run_script (PStr <$> os') FIX_PERMS_SCRIPT
  else usage usage_text "Please run this as root!" 3.

(** The record [start_mailpile] stores for the user it started. *)
Definition started_record (us : user_settings) : mailpile :=
  {| mp_user := us_user us; mp_host := us_host us; mp_port := us_port us;
     mp_in_htaccess := false; mp_pid := None; mp_rss := None; mp_is_list := false |}.

(** [start_mailpile(app_args, args)] *)
Definition start_mailpile (a : args) : Py unit :=
  os_settings <- get_os_settings a ;;
  mailpiles <- parse_htaccess ∅ ;;
  us <- get_user_settings a (a_user a) (Some mailpiles) ;;
  py_assert (re_ok port_re (us_port us)) ;;
  py_assert (re_ok host_re (us_host us)) ;;
  script <- (if truthy (a_user a) then
               admin <- lift_res (getitem os_settings "mailpile-admin") ;;
               ma <- lift_res (_escape admin) ;;
               p <- lift_res (_escape (us_port us)) ;;
               h <- lift_res (_escape (us_host us)) ;;
               let command := start_command ma p h in
               if truthy (a_password a) then
                 out <- run_as_user (default "" (a_user a)) (default "" (a_password a)) command ;;
                 py_print (out.1 ++ out.2) ;;
                 ret None
               else ret (Some [sudo_line command])
             else ret (Some MAILPILE_START_SCRIPT)) ;;
  match script with
  | Some ((_ :: _) as l) => run_script (us_dict us) l
  | _ => ret tt
  end ;;
  if truthy (a_user a) then
    let hostport := us_host us ++ ":" ++ us_port us in
    os' <- save_htaccess os_settings (<[hostport := started_record us]> mailpiles) ;;
    run_script (PStr <$> os') FIX_PERMS_SCRIPT
  else ret tt.

(** [stop_mailpile(app_args, args)] *)
Definition stop_mailpile (a : args) : Py unit :=
  us <- get_user_settings a (a_user a) None ;;
  let finish script :=
    if pyval_truthy (us_pid us) then run_script (us_dict us) script
    else usage usage_text "No PID found, cannot stop Mailpile" 0 in
  if truthy (a_user a) then
    rp <- realpath_argv0 ;;
    e <- lift_res (_escape rp) ;;
    let command := dq ++ e ++ dq ++ " --stop" in
    if truthy (a_password a) then
      out <- run_as_user (default "" (a_user a)) (default "" (a_password a)) command ;;
      py_print (out.1 ++ out.2)
    else finish [sudo_line command]
  else finish (MAILPILE_STOP_SCRIPT ++ (if a_force a then MAILPILE_FORCE_STOP_SCRIPT else []))%list.

End Actions.

(** The lines of a script as [run_script] formats them. *)
Fixpoint format_all (esc : gmap string string) (script : list string) : res (list string) :=
  match script with
  | [] => Ok []
  | line :: rest => l <-! py_format line esc ;; ls <-! format_all esc rest ;; Ok (l :: ls)
  end.

(** The arguments with [--host h]. *)
Definition with_host (h : string) (a : args) : args :=
  {| a_list := a_list a; a_start := a_start a; a_stop := a_stop a;
     a_install_apache := a_install_apache a; a_force := a_force a; a_password := a_password a;
     a_user := a_user a; a_port := a_port a; a_host := h; a_discover := a_discover a;
     a_webroot := a_webroot a; a_mailpile_root := a_mailpile_root a; a_packager := a_packager a;
     a_apache_user := a_apache_user a; a_apache_group := a_apache_group a |}.

(** The settings [get_user_settings] returns for a given user and port. *)
Definition us_of (a : args) (w : world) (user port : string) : user_settings :=
  {| us_user := user; us_mailpile := default "" (os_settings_of a w !! "mailpile");
     us_host := "127.0.0.1"; us_port := port;
     us_path := replace (a_webroot a ++ "/" ++ user ++ "/") "//" "/";
     us_pidfile := pidfile_of user;
     us_pid := match w_files w !! pidfile_of user with
               | Some c => PStr (strip c) | None => PBool false end |}.

Definition success_line : string := "===[ SUCCESS! ]===".
Definition failed_line (rv : Z) : string := "==[ FAILED! Exit code: " ++ str_of_Z rv ++ " ]==".

(** ** Properties of [run_script] *)

Section RunScript.
Context `{Shell}.

Lemma w_cmds_set_out o w : w_cmds (set_out o w) = w_cmds w.
Proof. done. Qed.

(** The lines [run_script] runs when command [l] exits with status
    [status l], and the line it prints last: the lines up to the first
    one whose status is not 0, or all of them. *)
Definition script_ran (status : string -> Z) (lines : list string) : list string * string :=
  match list_find (fun l => status l <> 0%Z) lines with
  | Some (k, l) => (take (S k) lines, failed_line (status l))
  | None => (lines, success_line)
  end.

Lemma run_script_prefix (settings : gmap string pyval) (script : list string)
    (esc : gmap string string) (lines : list string) (w : world) :
  _escaped settings = Ok esc -> format_all esc script = Ok lines ->
  exists n w', run_script settings script w = (Ok tt, w') /\ n <= length lines /\
    w_cmds w' = (w_cmds w ++ take n lines)%list /\
    ((n = length lines /\ last (w_out w') = Some success_line) \/
     (exists rv, rv <> 0%Z /\ 0 < n /\ last (w_out w') = Some (failed_line rv))).
Proof.
  intros He. revert lines w. induction script as [|line rest IH]; intros lines w Hf.
  - injection Hf as <-. exists 0, (set_out (w_out w ++ [success_line])%list w).
    rewrite w_cmds_set_out, w_out_set_out, app_nil_r, last_snoc. split; [done|]. eauto.
  - cbn [format_all] in Hf. destruct (py_format line esc) as [l|] eqn:Hl; [|done].
    destruct (format_all esc rest) as [ls|] eqn:Hr; [|done]. injection Hf as <-.
    cbn [run_script]. unfold bind, lift_res. rewrite He, Hl. unfold py_print, modify_st.
    set (w1 := set_out (w_out w ++ [("==> " ++ l)%string])%list w).
    pose proof (sh_system_cmds l w1) as Hc. unfold os_system.
    destruct (sh_system l w1) as [rv w2]. cbn [fst snd] in Hc. cbv beta iota.
    destruct (Z.eqb_spec 0 rv) as [<-|Hz].
    + destruct (IH ls w2 eq_refl) as (n & w' & Hrun & Hn & Hcmds & Hend).
      exists (S n), w'. split; [done|]. split; [simpl; lia|]. split.
      * rewrite Hcmds, Hc. simpl. by rewrite <-app_assoc.
      * destruct Hend as [[-> ?]|(rv & ? & ? & ?)]; [left; done|right; exists rv; split_and!; [done|lia|done]].
    + eexists 1, _. split; [reflexivity|]. split; [simpl; lia|]. split.
      * by rewrite w_cmds_set_out, Hc.
      * right. exists rv. rewrite w_out_set_out, last_snoc. split_and!; [by intros ->|lia|done].
Qed.

Lemma run_script_nil settings w : run_script settings [] w = (Ok tt, set_out (w_out w ++ [success_line]) w).
Proof. reflexivity. Qed.

(** One line of a script: formatted, printed, run; the script goes on
    when the status is 0 and ends with the failure line otherwise. *)
Lemma run_script_step settings line rest esc l w :
  _escaped settings = Ok esc -> py_format line esc = Ok l ->
  run_script settings (line :: rest) w =
  let w1 := set_out (w_out w ++ ["==> " ++ l]) w in
  if Z.eqb 0 (fst (sh_system l w1)) then run_script settings rest (snd (sh_system l w1))
  else (Ok tt, set_out (w_out (snd (sh_system l w1)) ++ [failed_line (fst (sh_system l w1))])
                 (snd (sh_system l w1))).
Proof.
  intros He Hl. cbn [run_script]. unfold bind, lift_res. rewrite He, Hl.
  unfold py_print, modify_st, os_system. cbv zeta. destruct (sh_system l _) as [z w0]. simpl. by destruct z.
Qed.

(** What the commands and the printing keep, [run_script] keeps. *)
Lemma run_script_keeps {A} (f : world -> A)
    (Hs : forall c w, f (snd (sh_system c w)) = f w) (Ho : forall o w, f (set_out o w) = f w)
    settings script w r w' :
  run_script settings script w = (r, w') -> f w' = f w.
Proof.
  revert w. induction script as [|line rest IH]; intros w Hr; cbn [run_script] in Hr.
  - injection Hr as _ <-. apply Ho.
  - unfold bind, lift_res in Hr. destruct (_escaped settings); [|by injection Hr as _ <-].
    destruct (py_format line _); [|by injection Hr as _ <-].
    unfold py_print, modify_st, os_system in Hr. cbv beta iota in Hr.
    match type of Hr with context [sh_system ?c ?w1] =>
      pose proof (Hs c w1) as Hw; destruct (sh_system c w1) as [rv w2] end.
    cbv beta iota in Hr. cbn in Hw. rewrite Ho in Hw.
    destruct (0 =? rv)%Z; [rewrite (IH _ Hr); done|injection Hr as _ <-; by rewrite Ho].
Qed.

(** When the commands leave the files alone, so does [run_script]. *)
Lemma run_script_files (Hf : forall c w, w_files (snd (sh_system c w)) = w_files w)
    settings script w r w' :
  run_script settings script w = (r, w') -> w_files w' = w_files w.
Proof. apply (run_script_keeps w_files Hf (fun _ _ => eq_refl)). Qed.

(** C7: [run_script] never raises once its lines format, and when each
    command [l] exits with status [status l] it runs exactly the lines up
    to the first one whose status is not 0, in order, printing each
    before running it, and ends with the failure line of that status, or
    with the success line when every status is 0.  A failure is only
    printed: the caller goes on. *)
Theorem run_script_stops_at_failure (status : string -> Z)
    (Hst : forall c w, fst (sh_system c w) = status c)
    (settings : gmap string pyval) (script : list string)
    (esc : gmap string string) (lines : list string) (w : world) :
  _escaped settings = Ok esc -> format_all esc script = Ok lines ->
  exists w', run_script settings script w = (Ok tt, w') /\
    w_cmds w' = (w_cmds w ++ (script_ran status lines).1)%list /\
    w_out w' = (w_out w ++ map (fun l => ("==> " ++ l)%string) (script_ran status lines).1
                ++ [(script_ran status lines).2])%list.
Proof.
  intros He. revert lines w. induction script as [|line rest IH]; intros lines w Hf.
  - injection Hf as <-. eexists. split; [reflexivity|].
    by rewrite w_cmds_set_out, w_out_set_out, app_nil_r.
  - cbn [format_all] in Hf. destruct (py_format line esc) as [l|] eqn:Hl; [|done].
    destruct (format_all esc rest) as [ls|] eqn:Hr; [|done]. injection Hf as <-.
    rewrite (run_script_step settings line rest esc l w He Hl). cbv zeta. rewrite Hst.
    unfold script_ran. cbn [list_find]. destruct (Z.eqb_spec 0 (status l)) as [H0|H0].
    + rewrite decide_False by congruence.
      destruct (IH ls (sh_system l (set_out (w_out w ++ ["==> " ++ l]) w)).2 eq_refl)
        as (w' & Hrun & Hc & Ho). exists w'. split; [done|].
      unfold script_ran in Hc, Ho. rewrite sh_system_cmds, w_cmds_set_out in Hc.
      rewrite sh_system_out, w_out_set_out in Ho.
      destruct (list_find _ ls) as [[k l']|]; cbn in *; rewrite Hc, Ho, <-?app_assoc; done.
    + rewrite decide_True by congruence. eexists. split; [reflexivity|]. cbn.
      rewrite sh_system_cmds, sh_system_out, ?w_out_set_out, ?w_cmds_set_out, <-?app_assoc. done.
Qed.

End RunScript.

Definition ex_status (c : string) : Z := if String.eqb c "sleep 10" then 256%Z else 0%Z.

Definition ex_user_settings : user_settings :=
  {| us_user := "carol"; us_mailpile := "/opt/Mailpile/mp"; us_host := "127.0.0.1";
     us_port := "34110"; us_path := "/mailpile/carol/";
     us_pidfile := "/var/lib/mailpile/pids/carol.pid"; us_pid := PStr "4242" |}.

(** The escaped settings and formatted lines of the examples, computed once. *)
Definition ex_esc : gmap string string :=
  Eval vm_compute in match _escaped (us_dict ex_user_settings) with Ok e => e | Exc _ => ∅ end.
Definition ex_stop_lines : list string :=
  Eval vm_compute in match format_all ex_esc MAILPILE_STOP_SCRIPT with Ok l => l | Exc _ => [] end.

Lemma run_script_stops_at_failure_witness :
  exists esc lines,
  (_escaped (us_dict ex_user_settings) = Ok esc /\
   format_all esc MAILPILE_STOP_SCRIPT = Ok lines) /\
  exists w', run_script (H := table_shell ex_status ("", "")) (us_dict ex_user_settings)
               MAILPILE_STOP_SCRIPT ex_world = (Ok tt, w') /\
    w_cmds w' = (w_cmds ex_world ++ (script_ran ex_status lines).1)%list /\
    w_out w' = (w_out ex_world ++ map (fun l => ("==> " ++ l)%string) (script_ran ex_status lines).1
                ++ [(script_ran ex_status lines).2])%list.
Proof.
  assert (H1 : _escaped (us_dict ex_user_settings) = Ok ex_esc) by vm_decide.
  assert (H2 : format_all ex_esc MAILPILE_STOP_SCRIPT = Ok ex_stop_lines) by vm_decide.
  exists ex_esc, ex_stop_lines. split; [split; assumption|].
  exact (run_script_stops_at_failure (H := table_shell ex_status ("", "")) ex_status
           (fun _ _ => eq_refl) _ _ ex_esc ex_stop_lines ex_world H1 H2).
Defined.

(** ** Properties of [get_user_settings] and [stop_mailpile] *)

Lemma read_pid_run p w :
  read_pid p w = (Ok (match w_files w !! p with Some c => PStr (strip c) | None => PBool false end), w).
Proof.
  unfold read_pid, path_exists, bind, read_file, ret.
  destruct (w_files w !! p) eqn:E; [rewrite bool_decide_true by eauto|rewrite bool_decide_false by
    (intros [? ?]; discriminate)]; cbv beta iota; rewrite ?E; reflexivity.
Qed.

(** The pid of the settings is the stripped content of their pid file in
    the world [get_user_settings] leaves. *)
Lemma get_user_settings_pid a u mp w us w1 :
  get_user_settings a u mp w = (Ok us, w1) ->
  us_pid us = match w_files w1 !! us_pidfile us with Some c => PStr (strip c) | None => PBool false end.
Proof.
  intros H. unfold get_user_settings in H. cbv zeta in H.
  apply bind_Ok_inv in H as (st & w0 & _ & H). apply bind_Ok_inv in H as (user & w2 & _ & H).
  apply bind_Ok_inv in H as ([] & w3 & _ & H). apply bind_Ok_inv in H as (port & w4 & _ & H).
  apply bind_Ok_inv in H as (pid & w5 & Hp & H).
  rewrite read_pid_run in Hp. injection Hp as <- <-. by injection H as <- <-.
Qed.

(** With the user given, the settings are those of the chosen port, read
    in the world the port choice leaves. *)
Lemma get_user_settings_given a user mp w :
  user <> "" -> str_mem "." user = false -> str_mem "/" user = false ->
  get_user_settings a (Some user) mp w =
  match choose_port (a_port a) mp user w with
  | (Ok port, w1) =>
      (Ok {| us_user := user; us_mailpile := default "" (os_settings_of a w !! "mailpile");
             us_host := "127.0.0.1"; us_port := port;
             us_path := replace (a_webroot a ++ "/" ++ user ++ "/") "//" "/";
             us_pidfile := pidfile_of user;
             us_pid := match w_files w1 !! pidfile_of user with
                       | Some c => PStr (strip c) | None => PBool false end |}, w1)
  | (Exc e, w1) => (Exc e, w1)
  end.
Proof.
  intros Hu Hd Hs. unfold get_user_settings, get_os_settings, bind at 1. cbv beta iota.
  assert (Ht : truthy (Some user) = true)
    by (unfold truthy; destruct (String.eqb_spec user ""); [congruence|reflexivity]).

  rewrite Ht. unfold bind at 1, ret at 1. cbv beta iota. change (default "" (Some user)) with user. rewrite Hd, Hs.
  unfold py_assert, bind, ret. cbn [negb andb]. cbv beta iota.
  destruct (choose_port (a_port a) mp user w) as [[port|e] w1]; [|done].
  by rewrite read_pid_run.
Qed.

Section Stop.
Context `{Shell}.

(** C24: [stop --user U] without [--port] and [--password], when U has no
    pid file, ends with [SystemExit 0] and the "No PID found" message, as
    the specification's "nothing to stop" outcome, but not without an
    external command: [get_user_settings] allocates a port it does not
    need, which runs [netstat].  The files are left unchanged. *)
Theorem stop_no_pid_runs_netstat (usage_text : string) (a : args) (user out : string)
    (w : world) :
  a_user a = Some user -> user <> "" -> str_mem "." user = false -> str_mem "/" user = false ->
  truthy (a_password a) = false -> truthy (a_port a) = false ->
  w_files w !! pidfile_of user = None ->
  str_all is_ascii7 (w_realpath w (w_argv0 w)) = true ->
  w_netstat w = Some out -> length (rows_of ns_re out) < 100 ->
  exists w', stop_mailpile usage_text a w = (Exc (SystemExit 0), w') /\
    w_cmds w' = (w_cmds w ++ ["netstat -ant --program"])%list /\
    w_files w' = w_files w /\
    w_out w' = (w_out w ++ ["error: No PID found, cannot stop Mailpile"; usage_text])%list.
Proof.
  intros Ha Hu Hd Hs Hpw Hpo Hpid Hasc Hn Hlen.
  destruct (random_port_returns w out Hn Hlen) as (p & w1 & Hp).
  destruct (get_random_port_world w out _ _ Hn Hp) as [k ->].
  unfold stop_mailpile, bind at 1. rewrite Ha, get_user_settings_given by assumption.
  rewrite <-Ha, choose_port_random, Hp by done. cbv beta iota zeta.
  cbn [w_files set_rand_next set_cmds]. rewrite Hpid, Ha.
  assert (Ht : truthy (Some user) = true)
    by (unfold truthy; destruct (String.eqb_spec user ""); [congruence|reflexivity]).
  rewrite Ht. unfold bind, realpath_argv0, lift_res. cbn [w_realpath w_argv0 set_rand_next set_cmds].
  rewrite escape_ascii by done. cbv beta iota. rewrite Hpw. cbn [pyval_truthy].
  eexists. split; [reflexivity|]. cbn. split_and!; [done|done|by rewrite <-app_assoc].
Qed.

End Stop.

(** ** Properties of [start_mailpile] *)

Lemma get_user_settings_port a user p mp w :
  user <> "" -> str_mem "." user = false -> str_mem "/" user = false ->
  a_port a = Some p -> truthy (Some p) = true ->
  get_user_settings a (Some user) mp w = (Ok (us_of a w user p), w).
Proof.
  intros Hu Hd Hs Hp Ht. rewrite get_user_settings_given by assumption.
  by rewrite Hp, choose_port_explicit.
Qed.

Lemma getitem_admin a w : getitem (os_settings_of a w) "mailpile-admin" = Ok (w_realpath w (w_argv0 w)).
Proof. reflexivity. Qed.

Lemma os_settings_webroot a w : os_settings_of a w !! "webroot" = Some (a_webroot a).
Proof. reflexivity. Qed.

Lemma host_ok : re_ok host_re "127.0.0.1" = true.
Proof. vm_compute. reflexivity. Qed.

Section Start.
Context `{Shell}.
Hypothesis sh_system_files : forall c w, w_files (snd (sh_system c w)) = w_files w.

(** C6: [start --user U --port P] rewrites the routing file with the
    started record whatever the launch command's exit status: the shell is
    arbitrary here, and a failed launch is only printed by [run_script].
    The specification says the routing file is written only after the
    whole action succeeded. *)
Theorem start_saves_whatever_launch_status (a : args) (w : world) (user p old line1 : string)
    (esc1 esc2 : gmap string string) (lines2 : list string) :
  a_user a = Some user -> user <> "" -> str_mem "." user = false -> str_mem "/" user = false ->
  truthy (a_password a) = false -> a_port a = Some p -> truthy (Some p) = true ->
  re_ok port_re p = true -> str_all is_ascii7 p = true ->
  str_all is_ascii7 (w_realpath w (w_argv0 w)) = true ->
  w_files w !! APACHE_HTACCESS_PATH = Some old ->
  let us := us_of a w user p in
  let reg := <[us_host us ++ ":" ++ us_port us := started_record us]> (routes_of w) in
  let rr := String.concat nl (map rule_of (first_per_user (map_to_list reg))) in
  Forall (fun e => str_all is_ascii7 (mp_user e.2) = true) (map_to_list reg) ->
  _escaped (us_dict us) = Ok esc1 ->
  py_format (sudo_line (start_command (json_escape (w_realpath w (w_argv0 w))) (json_escape p)
                          "127.0.0.1")) esc1 = Ok line1 ->
  _escaped (PStr <$> <["rewriterules" := rr]> (os_settings_of a w)) = Ok esc2 ->
  format_all esc2 FIX_PERMS_SCRIPT = Ok lines2 ->
  exists w', start_mailpile a w = (Ok tt, w') /\ line1 ∈ w_cmds w' /\
    w_files w' = <[APACHE_HTACCESS_PATH := htaccess_text rr (a_webroot a)]>
                   (delete HTACCESS_NEW (w_files w)).
Proof.
  intros Ha Hu Hd Hs Hpw Hp Htp Hre Hpa Hadm Hold us reg rr Hall He1 Hf1 He2 Hf2.
  pose proof (parse_htaccess_run w) as Hph. rewrite Hold in Hph.
  unfold start_mailpile. py_run (eq_refl : get_os_settings a w = _). py_run Hph.
  rewrite Ha. py_run (get_user_settings_port _ _ _ (Some (routes_of w)) w Hu Hd Hs Hp Htp).
  change (us_port (us_of a w user p)) with p. change (us_host (us_of a w user p)) with "127.0.0.1".
  unfold py_assert at 1. rewrite Hre, bind_ret_l.
  unfold py_assert at 1. rewrite host_ok, bind_ret_l.
  assert (Ht : truthy (Some user) = true)
    by (unfold truthy; destruct (String.eqb_spec user ""); [congruence|reflexivity]).
  rewrite Ht, bind_assoc. py_run (eq_refl : lift_res (getitem (os_settings_of a w) "mailpile-admin") w = _).
  rewrite bind_assoc. py_run (lift_res_ok _ _ w (escape_ascii _ Hadm)).
  rewrite bind_assoc. py_run (lift_res_ok _ _ w (escape_ascii _ Hpa)).
  rewrite bind_assoc. py_run (lift_res_ok _ _ w (eq_refl : _escape "127.0.0.1" = Ok "127.0.0.1")).
  rewrite Hpw, bind_ret_l.
  assert (Hfa : format_all esc1 [sudo_line (start_command (json_escape (w_realpath w (w_argv0 w)))
                  (json_escape p) "127.0.0.1")] = Ok [line1]) by (cbn [format_all]; by rewrite Hf1).
  destruct (run_script_prefix _ _ _ _ w He1 Hfa) as (n & w1 & Hr1 & Hn1 & Hc1 & Hend1).
  pose proof (run_script_files sh_system_files _ _ _ _ _ Hr1) as Hfi1.
  py_run Hr1. unfold save_htaccess.
  change (<["127.0.0.1" ++ ":" ++ p := started_record (us_of a w user p)]> (routes_of w)) with reg.
  assert (Hold1 : w_files w1 !! APACHE_HTACCESS_PATH = Some old) by by rewrite Hfi1.
  py_run (save_htaccess_in_order_run _ _ w1 (a_webroot a) old Hall (os_settings_webroot a w) Hold1).
  match goal with |- exists _, run_script _ _ ?w2 = _ /\ _ =>
    destruct (run_script_prefix _ _ _ _ w2 He2 Hf2) as (n2 & w3 & Hr2 & _ & Hc2 & _) end.
  pose proof (run_script_files sh_system_files _ _ _ _ _ Hr2) as Hfi3.
  exists w3. split; [exact Hr2|]. split.
  - rewrite Hc2. cbn [w_cmds set_files set_out]. rewrite Hc1. apply elem_of_app. left.
    apply elem_of_app. right. destruct n as [|n]; [|by left].
    destruct Hend1 as [[? _]|(_ & _ & ? & _)]; simpl in *; lia.
  - by rewrite Hfi3, w_files_set_files, Hfi1.
Qed.

End Start.

Section Host.
Context `{Shell}.

(** C25: [start_mailpile] does not depend on [--host]: [get_user_settings]
    always uses 127.0.0.1, so the host validation of line 356 checks a
    constant, and a host such as ["evil; rm -rf /"] is not rejected (the
    start goes on and runs its commands).  The specification requires a
    [ValidationError] before any external command for such a host. *)
Theorem start_ignores_host (a : args) (h : string) (w : world) :
  start_mailpile (with_host h a) w = start_mailpile a w.
Proof. reflexivity. Qed.

End Host.

Section Install.
Context `{Shell}.

(** C31: [--install-apache] by a user other than root prints the error
    and the usage and exits with status 3, before anything else: no
    command, no file. *)
Theorem install_requires_root (usage_text : string) (a : args) (w : world) :
  w_uid w <> 0%Z ->
  install_apache usage_text a w =
  (Exc (SystemExit 3), set_out (w_out w ++ ["error: Please run this as root!"; usage_text]) w).
Proof.
  intros Hu. unfold install_apache, getuid, bind at 1. cbv beta iota.
  apply Z.eqb_neq in Hu. rewrite Hu. unfold usage, py_print, modify_st, bind, raise. simpl.
  by rewrite <-app_assoc.
Qed.

Hypothesis sh_keeps_htaccess :
  forall c w, w_files (snd (sh_system c w)) !! APACHE_HTACCESS_PATH = w_files w !! APACHE_HTACCESS_PATH.

(** C21: on a fresh system, without an .htaccess that the install
    commands would create ([cp -a www/*] does not copy dot files), root's
    [--install-apache] runs (a prefix of) the install script, then
    [save_htaccess] writes [.htaccess.new] and fails with [OSError] in
    [os.remove]: no routing file is created and the permission fix-up
    never runs.  The specification says the install (re)writes the
    routing file. *)
Theorem install_fresh_raises (usage_text : string) (a : args) (w : world)
    (esc : gmap string string) (lines : list string) :
  w_uid w = 0%Z -> a_discover a = false -> w_files w !! APACHE_HTACCESS_PATH = None ->
  _escaped (PStr <$> os_settings_of a w) = Ok esc -> format_all esc INSTALL_APACHE_SCRIPT = Ok lines ->
  exists w' n, install_apache usage_text a w = (Exc OSError, w') /\
    w_files w' !! APACHE_HTACCESS_PATH = None /\ is_Some (w_files w' !! HTACCESS_NEW) /\
    w_cmds w' = (w_cmds w ++ take n lines)%list.
Proof.
  intros Hu Hd Hnone He Hf. unfold install_apache.
  assert (Hg : getuid w = (Ok 0%Z, w)) by (unfold getuid; by rewrite Hu).
  py_run Hg. cbv beta. rewrite Z.eqb_refl.
  py_run (eq_refl : get_os_settings a w = (Ok (os_settings_of a w), w)).
  destruct (run_script_prefix _ _ _ _ w He Hf) as (n & w1 & Hr & _ & Hc & _). py_run Hr.
  assert (H1 : w_files w1 !! APACHE_HTACCESS_PATH = None).
  { rewrite <-Hnone. exact (run_script_keeps (fun w => w_files w !! APACHE_HTACCESS_PATH)
                             sh_keeps_htaccess (fun _ _ => eq_refl) _ _ _ _ _ Hr). }
  assert (Hm : _get_mailpiles (a_discover a) w1 = (Ok ∅, set_out (w_out w1 ++ [htaccess_warning]) w1)).
  { rewrite Hd. unfold _get_mailpiles, bind at 1. rewrite parse_htaccess_run, H1.
    unfold routes_of. by rewrite H1. }
  py_run Hm. unfold save_htaccess. rewrite map_to_list_empty.
  rewrite (bind_Exc _ _ _ _ _ (save_htaccess_missing_run [] _ _ (a_webroot a) (Forall_nil_2 _)
             (os_settings_webroot a w)
             (H1 : w_files (set_out (w_out w1 ++ [htaccess_warning]) w1) !! APACHE_HTACCESS_PATH = None))).
  eexists _, n. split; [reflexivity|]. cbn [w_files w_cmds set_files set_out].
  rewrite lookup_insert_ne by auto with mailpile. split; [exact H1|].
  split; [by rewrite lookup_insert_eq|exact Hc].
Qed.

End Install.

(** [--start --user bob --port 33412], every command failing with status 256. *)
Definition ex_start_args : args :=
  {| a_list := false; a_start := true; a_stop := false; a_install_apache := false;
     a_force := false; a_password := None; a_user := Some "bob"; a_port := Some "33412";
     a_host := "localhost"; a_discover := false; a_webroot := APACHE_DEFAULT_WEBROOT;
     a_mailpile_root := None; a_packager := None; a_apache_user := None;
     a_apache_group := None |}.

Definition ex_fail_shell : Shell := table_shell (fun _ => 256%Z) ("", "").

Definition ex_start_us : user_settings := us_of ex_start_args ex_world "bob" "33412".
Definition ex_start_rr : string :=
  Eval vm_compute in
  String.concat nl (map rule_of (first_per_user (map_to_list
    (<[us_host ex_start_us ++ ":" ++ us_port ex_start_us := started_record ex_start_us]>
       (routes_of ex_world))))).
Definition ex_start_esc1 : gmap string string :=
  Eval vm_compute in match _escaped (us_dict ex_start_us) with Ok e => e | Exc _ => ∅ end.
Definition ex_start_esc2 : gmap string string :=
  Eval vm_compute in
  match _escaped (PStr <$> <["rewriterules" := ex_start_rr]> (os_settings_of ex_start_args ex_world))
  with Ok e => e | Exc _ => ∅ end.
Definition ex_start_lines2 : list string :=
  Eval vm_compute in match format_all ex_start_esc2 FIX_PERMS_SCRIPT with Ok l => l | Exc _ => [] end.

Lemma start_saves_whatever_launch_status_witness :
  let us := us_of ex_start_args ex_world "bob" "33412" in
  let reg := <[us_host us ++ ":" ++ us_port us := started_record us]> (routes_of ex_world) in
  let rr := String.concat nl (map rule_of (first_per_user (map_to_list reg))) in
  exists w', start_mailpile (H := ex_fail_shell) ex_start_args ex_world = (Ok tt, w') /\
    "sudo -u " ++ dq ++ "bob" ++ dq ++ " -- " ++
      start_command "/opt/Mailpile/scripts/mailpile-admin.py" "33412" "127.0.0.1" ∈ w_cmds w' /\
    w_files w' = <[APACHE_HTACCESS_PATH := htaccess_text rr (a_webroot ex_start_args)]>
                   (delete HTACCESS_NEW (w_files ex_world)).
Proof.
  intros us reg rr.
  refine (start_saves_whatever_launch_status (H := ex_fail_shell) (fun c w => eq_refl)
            ex_start_args ex_world "bob" "33412" (default "" (w_files ex_world !! APACHE_HTACCESS_PATH))
            _ ex_start_esc1 ex_start_esc2 ex_start_lines2 _ _ _ _ _ _ _ _ _ _ _ _ _ _ _ _).
  all: first [discriminate | vm_decide].
Defined.

(** [--stop --user carol], without a pid file for carol. *)
Definition ex_stop_args : args :=
  {| a_list := false; a_start := false; a_stop := true; a_install_apache := false;
     a_force := false; a_password := None; a_user := Some "carol"; a_port := None;
     a_host := "localhost"; a_discover := false; a_webroot := APACHE_DEFAULT_WEBROOT;
     a_mailpile_root := None; a_packager := None; a_apache_user := None;
     a_apache_group := None |}.

Lemma stop_no_pid_runs_netstat_witness :
  exists w', stop_mailpile (H := ex_fail_shell) "usage: mailpile-admin.py" ex_stop_args ex_world
             = (Exc (SystemExit 0), w') /\
    w_cmds w' = (w_cmds ex_world ++ ["netstat -ant --program"])%list /\
    w_files w' = w_files ex_world /\
    w_out w' = (w_out ex_world ++ ["error: No PID found, cannot stop Mailpile";
                                   "usage: mailpile-admin.py"])%list.
Proof.
  refine (stop_no_pid_runs_netstat (H := ex_fail_shell) "usage: mailpile-admin.py" ex_stop_args
            "carol" (default "" (w_netstat ex_world)) ex_world _ _ _ _ _ _ _ _ _ _).
  all: first [discriminate | vm_compute; reflexivity | vm_compute; lia].
Defined.

(** [--install-apache], on a machine where the script runs as uid 1000. *)
Definition ex_install_args : args :=
  {| a_list := false; a_start := false; a_stop := false; a_install_apache := true;
     a_force := false; a_password := None; a_user := None; a_port := None;
     a_host := "localhost"; a_discover := false; a_webroot := APACHE_DEFAULT_WEBROOT;
     a_mailpile_root := None; a_packager := None; a_apache_user := None;
     a_apache_group := None |}.

Definition ex_user_world : world :=
  {| w_files := w_files ex_world; w_ps := w_ps ex_world; w_netstat := w_netstat ex_world;
     w_out := []; w_rand := w_rand ex_world; w_rand_next := 0; w_uid := 1000%Z;
     w_passwd := [("alice", 1000%Z)]; w_hostname := "host"; w_cmds := [];
     w_realpath := fun p => p; w_file := w_file ex_world; w_argv0 := w_argv0 ex_world; w_sys := sys0 |}.

Lemma install_requires_root_witness :
  w_uid ex_user_world <> 0%Z /\
  install_apache (H := ex_fail_shell) "usage: mailpile-admin.py" ex_install_args ex_user_world =
  (Exc (SystemExit 3), set_out (w_out ex_user_world ++
     ["error: Please run this as root!"; "usage: mailpile-admin.py"]) ex_user_world).
Proof. split; [discriminate|]. apply install_requires_root. discriminate. Defined.

Definition ex_fresh_world : world := set_files ∅ ex_world.
Definition ex_install_esc : gmap string string :=
  Eval vm_compute in
  match _escaped (PStr <$> os_settings_of ex_install_args ex_fresh_world) with Ok e => e | Exc _ => ∅ end.
Definition ex_install_lines : list string :=
  Eval vm_compute in match format_all ex_install_esc INSTALL_APACHE_SCRIPT with Ok l => l | Exc _ => [] end.

Lemma install_fresh_raises_witness :
  (w_uid ex_fresh_world = 0%Z /\ a_discover ex_install_args = false /\
   w_files ex_fresh_world !! APACHE_HTACCESS_PATH = None /\
   _escaped (PStr <$> os_settings_of ex_install_args ex_fresh_world) = Ok ex_install_esc /\
   format_all ex_install_esc INSTALL_APACHE_SCRIPT = Ok ex_install_lines) /\
  exists w' n, install_apache (H := ex_fail_shell) "usage: mailpile-admin.py" ex_install_args
                 ex_fresh_world = (Exc OSError, w') /\
    w_files w' !! APACHE_HTACCESS_PATH = None /\ is_Some (w_files w' !! HTACCESS_NEW) /\
    w_cmds w' = (w_cmds ex_fresh_world ++ take n ex_install_lines)%list.
Proof.
  assert (He : _escaped (PStr <$> os_settings_of ex_install_args ex_fresh_world) = Ok ex_install_esc)
    by vm_decide.
  assert (Hf : format_all ex_install_esc INSTALL_APACHE_SCRIPT = Ok ex_install_lines) by vm_decide.
  split; [split_and!; [reflexivity|reflexivity|reflexivity|exact He|exact Hf]|].
  exact (install_fresh_raises (H := ex_fail_shell) (fun c w => eq_refl) "usage: mailpile-admin.py"
           ex_install_args ex_fresh_world _ _ eq_refl eq_refl eq_refl He Hf).
Defined.

(** Root runs [--stop] (no [--user]); someone has planted
    /var/lib/mailpile/pids/root.pid, a file of the world-writable
    directory [FIX_PERMS_SCRIPT] sets up ([chmod go+rwxt]). *)
Definition ex_root_stop_args : args :=
  {| a_list := false; a_start := false; a_stop := true; a_install_apache := false;
     a_force := false; a_password := None; a_user := None; a_port := None;
     a_host := "localhost"; a_discover := false; a_webroot := APACHE_DEFAULT_WEBROOT;
     a_mailpile_root := None; a_packager := None; a_apache_user := None;
     a_apache_group := None |}.

(** Root's pid file holds a command substitution. *)
Definition ex_planted_world : world :=
  {| w_files := <[pidfile_of "root" := "$(reboot)"]> (w_files ex_world); w_ps := w_ps ex_world;
     w_netstat := w_netstat ex_world; w_out := []; w_rand := w_rand ex_world; w_rand_next := 0;
     w_uid := 0%Z; w_passwd := [("root", 0%Z)]; w_hostname := "host"; w_cmds := [];
     w_realpath := fun p => p; w_file := w_file ex_world; w_argv0 := w_argv0 ex_world; w_sys := sys0 |}.

(** ** Output *)

Section Output.
Context `{Shell}.

Lemma out_mono_get_os_settings a : out_mono (get_os_settings a).
Proof. unfold get_os_settings. keeps_out. Qed.
#[local] Hint Resolve out_mono_get_os_settings : outmono.

Lemma out_mono_run_script settings script : out_mono (run_script settings script).
Proof. induction script as [|line rest IH]; simpl; out_mono_tac. Qed.
#[local] Hint Resolve out_mono_run_script : outmono.

Lemma out_mono_get_user_settings a u mp : out_mono (get_user_settings a u mp).
Proof. unfold get_user_settings, read_pid. out_mono_tac. Qed.
#[local] Hint Resolve out_mono_get_user_settings : outmono.

Lemma out_mono_run_as_user u p c : out_mono (run_as_user u p c).
Proof. unfold run_as_user. out_mono_tac. Qed.
Lemma out_mono_usage t r c : out_mono (usage t r c).
Proof. unfold usage. out_mono_tac. Qed.
#[local] Hint Resolve out_mono_run_as_user out_mono_usage : outmono.

Lemma out_mono_install_apache t a : out_mono (install_apache t a).
Proof. unfold install_apache. out_mono_tac. Qed.
Lemma out_mono_start_mailpile a : out_mono (start_mailpile a).
Proof. unfold start_mailpile. out_mono_tac. Qed.
Lemma out_mono_stop_mailpile t a : out_mono (stop_mailpile t a).
Proof. unfold stop_mailpile. out_mono_tac. Qed.

End Output.

#[export] Hint Resolve out_mono_get_os_settings out_mono_run_script out_mono_get_user_settings out_mono_run_as_user
  out_mono_usage out_mono_install_apache out_mono_start_mailpile out_mono_stop_mailpile : outmono.
