(* ===== verification/Expect.v ===== *)
(** * What [run_as_user] feeds to expect

    [run_as_user] (lines 341-349 of mailpile-admin.py) starts
    [expect -] and writes to its standard input [RUN_AS_EXPECT_SCRIPT]
    (lines 58-71) formatted with [_escaped({'user': ..., 'password': ...,
    'command': ...})].  [_escape] writes a JSON string body, which escapes
    double quotes, backslashes and control characters only: brackets and
    dollar signs in the password reach the double-quoted argument of
    Tcl's [send] unchanged.  Tcl performs command substitution on [[...]] in such
    a word (and in the bodies of expect's actions when they run); [tcl_substs]
    models that part of Tcl: it lists the bracketed commands a script
    substitutes, with [\] escaping the next character and brackets
    nesting.  Tcl and expect are outside the repository: only this
    substitution is modelled. *)

From Stdlib Require Import String Ascii ZArith Lia.
From stdpp Require Import base list gmap strings.
From S2P Require Import Prelude PyStr Escape World Registry Shell Lifecycle.
Open Scope string_scope.
Open Scope py_scope.

(** ** [_escaped] on ASCII strings *)

(** [_escaped] of a dict of ASCII strings escapes each of them. *)
Lemma escaped_ascii (d : gmap string pyval) :
  map_Forall (fun _ v => exists s, v = PStr s /\ str_all is_ascii7 s = true) d ->
  exists e, _escaped d = Ok e /\ forall k s, d !! k = Some (PStr s) -> e !! k = Some (json_escape s).
Proof.
  unfold _escaped. revert d. apply (map_fold_weak_ind (fun r d =>
    map_Forall (fun _ v => exists s, v = PStr s /\ str_all is_ascii7 s = true) d ->
    exists e, r = Ok e /\ forall k s, d !! k = Some (PStr s) -> e !! k = Some (json_escape s))).
  - intros _. exists ∅. split; [done|]. intros k s. by rewrite lookup_empty.
  - intros i x m r Hi IH Hall. apply map_Forall_insert in Hall as [(s & -> & Hs) Hall]; [|done].
    destruct (IH Hall) as (e & -> & He). simpl. rewrite escape_val_ascii by done. simpl.
    eexists. split; [reflexivity|]. intros k s'.
    destruct (decide (k = i)) as [->|Hk].
    + rewrite !lookup_insert_eq. by intros [= ->].
    + rewrite !lookup_insert_ne by congruence. apply He.
Qed.

(** ** The script given to expect *)

Definition expect_pieces : list (string * string) :=
  [("    spawn su -l ", "user");
   (nl ++ "    expect assword {" ++ nl ++ "        send " ++ dq, "password");
   (bs ++ "n" ++ dq ++ nl ++ "    }" ++ nl ++ "    expect {" ++ nl ++
    "        incorrect   exit" ++ nl ++ "        failure     exit" ++ nl ++
    "        timeout     exit" ++ nl ++ "        " ++ dq ++ bs ++ bs ++ "$" ++ dq ++ nl ++
    "    }" ++ nl ++ "    send " ++ dq ++ "exec ", "command")].

Definition expect_last : string := bs ++ "n" ++ dq ++ nl ++ "    expect heat_death_of_universe" ++ nl.

Lemma expect_tmpl : RUN_AS_EXPECT_SCRIPT = tmpl expect_pieces expect_last.
Proof. reflexivity. Qed.

(** [RUN_AS_EXPECT_SCRIPT % _escaped({...})] (lines 346-348), given the
    three escaped values. *)
Definition expect_script (user password command : string) : string :=
  tmpl_fill expect_pieces [user; password; command] expect_last.

Section RunAsUser.
Context `{Shell}.

(** C13: for a user name, a password and a command in ASCII,
    [run_as_user] starts expect and feeds it the expect script with the
    three values JSON-escaped: the password is the body of the
    double-quoted argument of [send], where JSON escaping leaves the
    brackets and dollar signs that Tcl substitutes as they are. *)
Theorem run_as_user_sends_escaped (u p c : string) (w : world) :
  str_all is_ascii7 u = true -> str_all is_ascii7 p = true -> str_all is_ascii7 c = true ->
  run_as_user u p c w =
  (popen_expect ;; communicate (expect_script (json_escape u) (json_escape p) (json_escape c))) w.
Proof.
  intros Hu Hp Hc.
  destruct (escaped_ascii (<["user" := PStr u]> (<["password" := PStr p]> {[ "command" := PStr c ]})))
    as (e & He & Hk).
  { repeat apply map_Forall_insert_2; try apply map_Forall_empty; (eexists; split; [reflexivity|assumption]). }
  assert (Hf : py_format RUN_AS_EXPECT_SCRIPT e =
               Ok (expect_script (json_escape u) (json_escape p) (json_escape c))).
  { rewrite expect_tmpl. apply py_format_tmpl; [|reflexivity].
    repeat constructor; try reflexivity; apply Hk; reflexivity. }
  unfold run_as_user, bind. destruct (popen_expect w) as [[[]|ex] w1]; [|reflexivity].
  rewrite He. simpl. by rewrite Hf.
Qed.

End RunAsUser.

(** ** Tcl's command substitution

    Tcl replaces [[script]] in a word, double-quoted or bare, by the result
    of running [script]; a backslash makes the next character literal.
    The bodies of expect's actions ([expect assword { ... }]) are scripts
    too, substituted when the action runs.  [tcl_go] lists the outermost
    bracketed scripts in order, [depth] counting the open brackets. *)
Fixpoint tcl_go (s : string) (depth : nat) (cur : string) (acc : list string) : list string :=
  match s with
  | EmptyString => rev acc
  | String c s' =>
      if (code c =? 92)%nat then
        match s' with
        | EmptyString => rev acc
        | String c2 s'' =>
            tcl_go s'' depth (if (depth =? 0)%nat then cur else String c2 (String c cur)) acc
        end
      else if (code c =? 91)%nat then
        if (depth =? 0)%nat then tcl_go s' 1 EmptyString acc else tcl_go s' (S depth) (String c cur) acc
      else if (code c =? 93)%nat && negb (depth =? 0)%nat then
        if (depth =? 1)%nat then tcl_go s' 0 EmptyString (str_rev cur :: acc)
        else tcl_go s' (pred depth) (String c cur) acc
      else tcl_go s' depth (if (depth =? 0)%nat then cur else String c cur) acc
  end.

Definition tcl_substs (s : string) : list string := tcl_go s 0 EmptyString [].

Lemma run_as_user_sends_escaped_witness :
  let c := dq ++ "/usr/share/mailpile/mailpile-admin.py" ++ dq ++ " --start --port 33412" in
  run_as_user (H := ex_fail_shell) "alice" "[exec touch /tmp/pwned]" c ex_world =
    (popen_expect (H := ex_fail_shell) ;; communicate (H := ex_fail_shell) (expect_script (json_escape "alice") (json_escape "[exec touch /tmp/pwned]")
                                   (json_escape c))) ex_world /\
  tcl_substs (expect_script (json_escape "alice") (json_escape "[exec touch /tmp/pwned]") (json_escape c))
    = ["exec touch /tmp/pwned"].
Proof. intros c. split; [apply run_as_user_sends_escaped; reflexivity|vm_compute; reflexivity]. Defined.
