(* ===== verification/Argparse.v ===== *)
(** * [app_arguments().parse_args(argv)]

    The parser [app_arguments] builds (lines 103-141 of mailpile-admin.py)
    and what argparse (Python 2.7's [argparse.py]) does with an argument
    list: [main] parses [sys.argv[1:]] (line 413), [handle_cgi_post] parses
    [['--start', '--user', username, '--password', password]] (lines
    444-445).  The parser has [-h]/[--help] (added by argparse), the
    required mutually exclusive group [--list], [--start], [--stop],
    [--install-apache], the flags [--force] and [--discover], and nine
    options that take one value.

    argparse first classifies every argument ([_parse_optional]): an
    option string, given in full, as a unique prefix of a long option, or
    with [=value]; a positional (no leading [-], a lone [-], a negative
    number, where Python's [$] also matches before a final newline, or a
    string with a space); or an unknown option.  An
    ambiguous prefix is an error at once.  After a lone [--] every
    argument is positional.  It then consumes the arguments in order
    ([_parse_known_args]): a flag takes no argument, a value option takes
    the next argument if that one is positional (options of this parser
    never take [--]), [-h] prints the help and exits with status 0, two
    options of the group conflict.  Positionals and unknown options are
    collected and reported at the end, as is a missing group option.
    Every error exits with status 2 after printing the usage on stderr;
    the model keeps the status, not the message.

    The theorems: [parse_args] reads back every namespace with one action
    from the command line [argv_of] writes for it (through
    [parse_args_items], which computes [parse_args] on any list of
    well-formed options), and the invariant [group_inv] of the
    consumption loop makes every namespace it returns have exactly one
    action. *)

From Stdlib Require Import String Ascii Bool Lia.
From stdpp Require Import base list sets.
From S2P Require Import Prelude PyStr World Lifecycle.
Open Scope string_scope.
Open Scope py_scope.

(** ** The parser of [app_arguments] *)

Inductive opt : Type :=
| OHelp | OList | OStart | OStop | OInstallApache | OForce | OPassword | OUser | OPort
| OHost | ODiscover | OWebroot | OMailpileRoot | OPackager | OApacheUser | OApacheGroup.

#[export] Instance opt_eq_dec : EqDecision opt.
Proof. solve_decision. Defined.

Definition opt_long (o : opt) : string :=
  match o with
  | OHelp => "--help" | OList => "--list" | OStart => "--start" | OStop => "--stop"
  | OInstallApache => "--install-apache" | OForce => "--force" | OPassword => "--password"
  | OUser => "--user" | OPort => "--port" | OHost => "--host" | ODiscover => "--discover"
  | OWebroot => "--webroot" | OMailpileRoot => "--mailpile-root" | OPackager => "--packager"
  | OApacheUser => "--apache-user" | OApacheGroup => "--apache-group"
  end.

(** [parser._option_string_actions]: every option string of the parser. *)
Definition option_strings : list (string * opt) :=
  ("-h", OHelp) ::
  map (fun o => (opt_long o, o))
    [OHelp; OList; OStart; OStop; OInstallApache; OForce; OPassword; OUser; OPort; OHost;
     ODiscover; OWebroot; OMailpileRoot; OPackager; OApacheUser; OApacheGroup].

(** The mutually exclusive group of lines 107-119. *)
Definition in_group (o : opt) : bool :=
  match o with OList | OStart | OStop | OInstallApache => true | _ => false end.

(** The options declared without [action='store_true']. *)
Definition takes_value (o : opt) : bool :=
  match o with
  | OPassword | OUser | OPort | OHost | OWebroot | OMailpileRoot | OPackager
  | OApacheUser | OApacheGroup => true
  | _ => false
  end.

(** [action='store_true'] *)
Definition set_flag (o : opt) (a : args) : args :=
  match o with
  | OList => {| a_list := true; a_start := a_start a; a_stop := a_stop a; a_install_apache := a_install_apache a;
               a_force := a_force a; a_password := a_password a; a_user := a_user a; a_port := a_port a;
               a_host := a_host a; a_discover := a_discover a; a_webroot := a_webroot a;
               a_mailpile_root := a_mailpile_root a; a_packager := a_packager a;
               a_apache_user := a_apache_user a; a_apache_group := a_apache_group a |}
  | OStart => {| a_list := a_list a; a_start := true; a_stop := a_stop a; a_install_apache := a_install_apache a;
               a_force := a_force a; a_password := a_password a; a_user := a_user a; a_port := a_port a;
               a_host := a_host a; a_discover := a_discover a; a_webroot := a_webroot a;
               a_mailpile_root := a_mailpile_root a; a_packager := a_packager a;
               a_apache_user := a_apache_user a; a_apache_group := a_apache_group a |}
  | OStop => {| a_list := a_list a; a_start := a_start a; a_stop := true; a_install_apache := a_install_apache a;
               a_force := a_force a; a_password := a_password a; a_user := a_user a; a_port := a_port a;
               a_host := a_host a; a_discover := a_discover a; a_webroot := a_webroot a;
               a_mailpile_root := a_mailpile_root a; a_packager := a_packager a;
               a_apache_user := a_apache_user a; a_apache_group := a_apache_group a |}
  | OInstallApache => {| a_list := a_list a; a_start := a_start a; a_stop := a_stop a; a_install_apache := true;
               a_force := a_force a; a_password := a_password a; a_user := a_user a; a_port := a_port a;
               a_host := a_host a; a_discover := a_discover a; a_webroot := a_webroot a;
               a_mailpile_root := a_mailpile_root a; a_packager := a_packager a;
               a_apache_user := a_apache_user a; a_apache_group := a_apache_group a |}
  | OForce => {| a_list := a_list a; a_start := a_start a; a_stop := a_stop a; a_install_apache := a_install_apache a;
               a_force := true; a_password := a_password a; a_user := a_user a; a_port := a_port a;
               a_host := a_host a; a_discover := a_discover a; a_webroot := a_webroot a;
               a_mailpile_root := a_mailpile_root a; a_packager := a_packager a;
               a_apache_user := a_apache_user a; a_apache_group := a_apache_group a |}
  | ODiscover => {| a_list := a_list a; a_start := a_start a; a_stop := a_stop a; a_install_apache := a_install_apache a;
               a_force := a_force a; a_password := a_password a; a_user := a_user a; a_port := a_port a;
               a_host := a_host a; a_discover := true; a_webroot := a_webroot a;
               a_mailpile_root := a_mailpile_root a; a_packager := a_packager a;
               a_apache_user := a_apache_user a; a_apache_group := a_apache_group a |}
  | _ => a
  end.

(** [setattr(namespace, dest, value)] for an option with a value. *)
Definition set_val (o : opt) (v : string) (a : args) : args :=
  {| a_list := a_list a; a_start := a_start a; a_stop := a_stop a; a_install_apache := a_install_apache a;
     a_force := a_force a;
     a_password := if bool_decide (o = OPassword) then Some v else a_password a;
     a_user := if bool_decide (o = OUser) then Some v else a_user a;
     a_port := if bool_decide (o = OPort) then Some v else a_port a;
     a_host := if bool_decide (o = OHost) then v else a_host a;
     a_discover := a_discover a;
     a_webroot := if bool_decide (o = OWebroot) then v else a_webroot a;
     a_mailpile_root := if bool_decide (o = OMailpileRoot) then Some v else a_mailpile_root a;
     a_packager := if bool_decide (o = OPackager) then Some v else a_packager a;
     a_apache_user := if bool_decide (o = OApacheUser) then Some v else a_apache_user a;
     a_apache_group := if bool_decide (o = OApacheGroup) then Some v else a_apache_group a |}.

(** ** Classifying an argument: [_parse_optional] *)

(** How argparse reads one argument: a positional ('A'), the [--] marker,
    an option string of the parser with the [=] part if any, or an option
    the parser does not know ('O' without action). *)
Inductive cls : Type :=
| CArg
| CMarker
| COpt (o : opt) (optstr : string) (explicit : option string)
| CUnknown.

Definition lookup_opt (s : string) : option opt :=
  snd <$> List.find (fun p => String.eqb p.1 s) option_strings.

(** [s.split(c, 1)] when [s] holds [c]. *)
Fixpoint split_on (c0 : ascii) (s : string) : option (string * string) :=
  match s with
  | EmptyString => None
  | String c s' =>
      if Ascii.eqb c c0 then Some (EmptyString, s')
      else (fun p => (String c p.1, p.2)) <$> split_on c0 s'
  end.

Definition split_eq : string -> option (string * string) := split_on "=".

Definition is_digit_b (c : ascii) : bool := ((48 <=? nat_of_ascii c) && (nat_of_ascii c <=? 57))%nat.

(** The two alternatives of [parser._negative_number_matcher],
    [^-\d+$|^-\d*\.\d+$], on a string without its line end. *)
Definition neg_body (s : string) : bool :=
  match s with
  | String "-" t =>
      (negb (String.eqb t EmptyString) && str_all is_digit_b t) ||
      match split_on "." t with
      | Some (i, f) => str_all is_digit_b i && negb (String.eqb f EmptyString) && str_all is_digit_b f
      | None => false
      end
  | _ => false
  end.

(** [s] without a final newline, when it has one. *)
Fixpoint chop_nl (s : string) : option string :=
  match s with
  | EmptyString => None
  | String c EmptyString => if (nat_of_ascii c =? 10)%nat then Some EmptyString else None
  | String c s' => String c <$> chop_nl s'
  end.

(** [_negative_number_matcher.match(s)]: Python's [$] matches at the end
    of the string and also just before a final newline. *)
Definition neg_number (s : string) : bool :=
  neg_body s || match chop_nl s with Some s' => neg_body s' | None => false end.

(** [_get_option_tuples]: the readings of [s] as an abbreviation. *)
Definition option_tuples (s : string) : list (opt * string * option string) :=
  match s with
  | String "-" (String "-" _) =>
      let '(pre, ex) := match split_eq s with Some (p, e) => (p, Some e) | None => (s, None) end in
      map (fun p => (p.2, p.1, ex)) (List.filter (fun p => String.prefix pre p.1) option_strings)
  | String "-" (String c rest) =>
      omap (fun p => if String.eqb p.1 (String "-" (String c EmptyString)) then Some (p.2, p.1, Some rest)
                     else if String.prefix s p.1 then Some (p.2, p.1, None) else None) option_strings
  | _ => []
  end.

(** [_parse_optional(arg_string)]; [Exc] is the ambiguity error. *)
Definition classify (s : string) : res cls :=
  match s with
  | EmptyString => Ok CArg
  | String c _ =>
      if negb (Ascii.eqb c "-") then Ok CArg else
      match lookup_opt s with
      | Some o => Ok (COpt o s None)
      | None =>
          if (String.length s =? 1)%nat then Ok CArg else
          match (fun p => (p, lookup_opt p.1)) <$> split_eq s with
          | Some ((os, ex), Some o) => Ok (COpt o os (Some ex))
          | _ =>
              match option_tuples s with
              | [(o, os, ex)] => Ok (COpt o os ex)
              | _ :: _ :: _ => Exc (SystemExit 2)
              | [] => if neg_number s then Ok CArg
                      else if str_mem " " s then Ok CArg else Ok CUnknown
              end
          end
      end
  end.

(** The first pass of [_parse_known_args]: everything after [--] is
    positional. *)
Fixpoint classify_all (l : list string) : res (list (string * cls)) :=
  match l with
  | [] => Ok []
  | s :: r =>
      if String.eqb s "--" then Ok ((s, CMarker) :: map (fun x => (x, CArg)) r)
      else c <-! classify s ;; cs <-! classify_all r ;; Ok ((s, c) :: cs)
  end.

(** An argument that starts with a dash, is not a lone dash, not a
    negative number and has no space is never a positional: it is an
    option, an unknown option or an error. *)
Lemma classify_dash_not_arg s :
  startswith s "-" = true -> String.length s <> 1 -> neg_number s = false -> str_mem " " s = false ->
  classify s <> Ok CArg.
Proof.
  intros Hd Hl Hn Hs. destruct s as [|c s']; [discriminate|].
  unfold startswith in Hd. cbn [String.prefix] in Hd.
  destruct (ascii_dec "-" c) as [<-|Hc]; [|discriminate Hd].
  unfold classify. rewrite Ascii.eqb_refl. cbn [negb].
  rewrite (proj2 (Nat.eqb_neq _ _) Hl), Hn, Hs. repeat case_match; congruence.
Qed.

(** ** Consuming the arguments: [_parse_known_args] and [parse_args] *)

(** The outcome of [parse_args]: the namespace, the help (printed, then
    [SystemExit(0)]) or an error ([SystemExit(2)]). *)
Inductive pout : Type :=
| PArgs (a : args)
| PHelp
| PError.

(** [seen] holds the flags taken so far (their values differ from the
    defaults), [extras] the positionals and unknown options. *)
Fixpoint consume (l : list (string * cls)) (a : args) (seen : list opt) (extras : list string) : pout :=
  match l with
  | [] => if existsb in_group seen && bool_decide (extras = []) then PArgs a else PError
  | (s, COpt o os ex) :: r =>
      if takes_value o then
        match ex, r with
        | Some v, _ => consume r (set_val o v a) seen extras
        | None, (v, CArg) :: r' => consume r' (set_val o v a) seen extras
        | None, _ => PError
        end
      else
        match ex with
        | Some x => if String.eqb os "-h" && str_all (fun c => Ascii.eqb c "h") x then PHelp else PError
        | None =>
            if bool_decide (o = OHelp) then PHelp
            else if in_group o && existsb (fun o' => in_group o' && negb (bool_decide (o' = o))) seen
            then PError
            else consume r (set_flag o a) (o :: seen) extras
        end
  | (s, _) :: r => consume r a seen (extras ++ [s])
  end.

Definition parse_args (argv : list string) : pout :=
  match classify_all argv with
  | Ok cs => consume cs default_args [] []
  | Exc _ => PError
  end.

(** [app_args.parse_args(argv)] as a statement of the script: the help
    goes to standard output. *)
Definition parse_args_py (help_text : string) (argv : list string) : Py args :=
  match parse_args argv with
  | PArgs a => ret a
  | PHelp => py_print help_text ;; raise (SystemExit 0)
  | PError => raise (SystemExit 2)
  end.

(** ** Properties *)

(** An argument that does not start with [-] is positional. *)
Lemma classify_plain s : startswith s "-" = false -> classify s = Ok CArg.
Proof.
  destruct s as [|c s]; [done|]. unfold startswith. cbn [String.prefix].
  destruct (ascii_dec "-" c) as [<-|Hc]; [by destruct s|]. intros _.
  cbv beta iota delta [classify]. rewrite (proj2 (Ascii.eqb_neq c "-")) by congruence.
  reflexivity.
Qed.

(** ** Argument lists made of whole option names

    An item is a flag or an option with its value, written as argparse's
    user would: [--name] or [--name value]. *)
Inductive item : Type :=
| IFlag (o : opt)
| IVal (o : opt) (v : string).

Definition render (it : item) : list string :=
  match it with IFlag o => [opt_long o] | IVal o v => [opt_long o; v] end.

Definition apply_item (a : args) (it : item) : args :=
  match it with IFlag o => set_flag o a | IVal o v => set_val o v a end.

(** A flag other than [--help], or a value option with a value that does
    not start with [-]. *)
Definition item_ok (it : item) : bool :=
  match it with
  | IFlag o => negb (takes_value o) && negb (bool_decide (o = OHelp))
  | IVal o v => takes_value o && negb (startswith v "-")
  end.

(** The options of the exclusive group among the items, in order. *)
Definition group_flags (items : list item) : list opt :=
  omap (fun it => match it with IFlag o => if in_group o then Some o else None | _ => None end) items.

Definition render_cls (it : item) : list (string * cls) :=
  match it with
  | IFlag o => [(opt_long o, COpt o (opt_long o) None)]
  | IVal o v => [(opt_long o, COpt o (opt_long o) None); (v, CArg)]
  end.

Lemma classify_long o : classify (opt_long o) = Ok (COpt o (opt_long o) None).
Proof. by destruct o. Qed.

Lemma long_not_marker o : String.eqb (opt_long o) "--" = false.
Proof. by destruct o. Qed.

Lemma plain_not_marker v : startswith v "-" = false -> String.eqb v "--" = false.
Proof. intros H. destruct (String.eqb_spec v "--") as [->|]; [done|reflexivity]. Qed.

Lemma classify_items items :
  Forall (fun it => item_ok it = true) items ->
  classify_all (concat (map render items)) = Ok (concat (map render_cls items)).
Proof.
  induction 1 as [|[o|o v] items Hok _ IH]; [done| |]; cbn [map concat render render_cls app classify_all];
    rewrite long_not_marker, classify_long; simpl.
  - by rewrite IH.
  - apply andb_true_iff in Hok as [_ Hv%negb_true_iff].
    by rewrite plain_not_marker, classify_plain, IH.
Qed.

(** What argparse answers, given the group options met in order: the
    namespace when they are one option (possibly repeated), an error when
    there is none or two different ones. *)
Definition group_outcome (gs : list opt) (a : args) : pout :=
  match gs with
  | g :: gs' => if forallb (fun o => bool_decide (o = g)) gs' then PArgs a else PError
  | [] => PError
  end.

Lemma existsb_group_filter (o : opt) seen :
  existsb (fun o' => in_group o' && negb (bool_decide (o' = o))) seen =
  existsb (fun o' => negb (bool_decide (o' = o))) (List.filter in_group seen).
Proof. induction seen as [|o' seen IH]; [done|]. simpl. destruct (in_group o'); simpl; by rewrite IH. Qed.

Lemma forallb_same (o : opt) l : Forall (fun o' => o' = o) l -> forallb (fun o' => bool_decide (o' = o)) l = true.
Proof. induction 1 as [|x l Hx _ IH]; [done|]. simpl. by rewrite IH, bool_decide_eq_true_2. Qed.

(** Met again, the option of the group changes nothing. *)
Lemma group_outcome_again (o : opt) sg X a :
  Forall (fun o' => o' = o) sg ->
  group_outcome (sg ++ o :: X) a = group_outcome (o :: sg ++ X) a.
Proof.
  intros Hs. destruct sg as [|g sg]; [done|]. inversion Hs as [|? ? -> Hs']; subst.
  simpl. rewrite !forallb_app, forallb_same by done. simpl. by rewrite bool_decide_eq_true_2.
Qed.

(** A second, different option of the group is an error. *)
Lemma group_outcome_conflict (o : opt) sg X a :
  (forall o1 o2, o1 ∈ sg -> o2 ∈ sg -> o1 = o2) ->
  existsb (fun o' => negb (bool_decide (o' = o))) sg = true ->
  group_outcome (sg ++ o :: X) a = PError.
Proof.
  intros Hs Hex. apply existsb_exists in Hex as (o' & Hin & Hne).
  destruct sg as [|g sg]; [done|]. simpl.
  assert (o' = g) as -> by (apply Hs; [by apply list_elem_of_In|left]).
  rewrite forallb_app. simpl. rewrite bool_decide_eq_false_2; [by rewrite andb_false_r|].
  intros ->. by rewrite bool_decide_eq_true_2 in Hne.
Qed.

Lemma existsb_ne_false (o : opt) l :
  existsb (fun o' => negb (bool_decide (o' = o))) l = false -> Forall (fun o' => o' = o) l.
Proof.
  induction l as [|o' l IH]; [by constructor|]. simpl. intros [Ho Hl]%orb_false_iff.
  constructor; [|by apply IH]. apply negb_false_iff, bool_decide_eq_true in Ho. exact Ho.
Qed.

Lemma group_outcome_end (seen : list opt) a :
  (forall o1 o2, o1 ∈ List.filter in_group seen -> o2 ∈ List.filter in_group seen -> o1 = o2) ->
  (if existsb in_group seen && bool_decide (@nil string = []) then PArgs a else PError) =
  group_outcome (List.filter in_group seen ++ []) a.
Proof.
  intros Hs. rewrite app_nil_r, bool_decide_eq_true_2, andb_true_r by done.
  destruct (List.filter in_group seen) as [|g gs] eqn:Ef.
  - destruct (existsb in_group seen) eqn:Ex; [|done].
    apply existsb_exists in Ex as (o & Hin & Ho).
    assert (Hf : In o (List.filter in_group seen)) by (apply filter_In; done). by rewrite Ef in Hf.
  - assert (Hex : existsb in_group seen = true).
    { apply existsb_exists. assert (Hg : In g (List.filter in_group seen)) by (rewrite Ef; left; done).
      apply filter_In in Hg. by exists g. }
    rewrite Hex. simpl. rewrite forallb_same; [done|].
    apply Forall_forall. intros o Ho. apply Hs; set_solver.
Qed.

Lemma all_same_cons (o : opt) l :
  Forall (fun o' => o' = o) l -> forall o1 o2, o1 ∈ o :: l -> o2 ∈ o :: l -> o1 = o2.
Proof.
  rewrite Forall_forall. intros Hl o1 o2 [->|H1]%elem_of_cons [->|H2]%elem_of_cons;
    rewrite ?(Hl _ H1), ?(Hl _ H2); done.
Qed.

Lemma group_flags_flag o items :
  group_flags (IFlag o :: items) = if in_group o then o :: group_flags items else group_flags items.
Proof. unfold group_flags. simpl. by destruct (in_group o). Qed.

Lemma group_flags_val o v items : group_flags (IVal o v :: items) = group_flags items.
Proof. done. Qed.

(** The consumption loop on the items, from any flags already seen. *)
Lemma consume_items items a seen :
  Forall (fun it => item_ok it = true) items ->
  (forall o1 o2, o1 ∈ List.filter in_group seen -> o2 ∈ List.filter in_group seen -> o1 = o2) ->
  consume (concat (map render_cls items)) a seen [] =
  group_outcome (List.filter in_group seen ++ group_flags items) (foldl apply_item a items).
Proof.
  revert a seen. induction items as [|[o|o v] items IH]; intros a seen Hok Hs;
    [by apply group_outcome_end|inversion Hok as [|? ? Hit Hok']; subst..].
  - simpl in Hit. apply andb_true_iff in Hit as [Hv%negb_true_iff Hh%negb_true_iff].
    cbn [map concat render_cls app consume]. rewrite Hv, Hh, group_flags_flag. cbn [foldl apply_item].
    destruct (in_group o) eqn:Hg; cbn [andb].
    + rewrite existsb_group_filter.
      destruct (existsb (fun o' => negb (bool_decide (o' = o))) (List.filter in_group seen)) eqn:Ex.
      * symmetry. by apply group_outcome_conflict.
      * apply existsb_ne_false in Ex. rewrite group_outcome_again by done.
        rewrite IH by (done || (simpl; rewrite Hg; by apply all_same_cons)).
        simpl. by rewrite Hg.
    + rewrite IH by (done || (simpl; rewrite Hg; exact Hs)). simpl. by rewrite Hg.
  - simpl in Hit. apply andb_true_iff in Hit as [Hv _].
    cbn [map concat render_cls app consume]. rewrite Hv, group_flags_val. by apply IH.
Qed.

(** [parse_args] on whole option names: the items applied in order to
    the defaults, or an error unless exactly one option of the group
    (possibly repeated) is among them. *)
Lemma parse_args_items (items : list item) :
  Forall (fun it => item_ok it = true) items ->
  parse_args (concat (map render items)) = group_outcome (group_flags items) (foldl apply_item default_args items).
Proof.
  intros H. unfold parse_args. rewrite classify_items by done.
  rewrite consume_items by (done || set_solver). done.
Qed.

(** ** Writing a namespace back as arguments *)

Definition flag_item (b : bool) (o : opt) : list item := if b then [IFlag o] else [].
Definition val_item (v : option string) (o : opt) : list item :=
  match v with Some s => [IVal o s] | None => [] end.

(** The command line that asks for [a]: its action and flags, then its
    options, with [--host] and [--webroot] always written. *)
Definition items_of (a : args) : list item :=
  flag_item (a_list a) OList ++ flag_item (a_start a) OStart ++ flag_item (a_stop a) OStop ++
  flag_item (a_install_apache a) OInstallApache ++ flag_item (a_force a) OForce ++
  flag_item (a_discover a) ODiscover ++
  val_item (a_password a) OPassword ++ val_item (a_user a) OUser ++ val_item (a_port a) OPort ++
  [IVal OHost (a_host a); IVal OWebroot (a_webroot a)] ++
  val_item (a_mailpile_root a) OMailpileRoot ++ val_item (a_packager a) OPackager ++
  val_item (a_apache_user a) OApacheUser ++ val_item (a_apache_group a) OApacheGroup.

Definition argv_of (a : args) : list string := concat (map render (items_of a)).

(** The string values of a namespace. *)
Definition arg_values (a : args) : list string :=
  a_host a :: a_webroot a ::
  omap id [a_password a; a_user a; a_port a; a_mailpile_root a; a_packager a;
           a_apache_user a; a_apache_group a].

Definition one_action (a : args) : bool :=
  (Nat.b2n (a_list a) + Nat.b2n (a_start a) + Nat.b2n (a_stop a) + Nat.b2n (a_install_apache a) =? 1)%nat.

(** The flag of the namespace an option of the group sets. *)
Definition action_flag (o : opt) (a : args) : bool :=
  match o with
  | OList => a_list a | OStart => a_start a | OStop => a_stop a
  | OInstallApache => a_install_apache a
  | _ => false
  end.

(** What [consume] keeps true: the group's flags set are the group's
    options seen, and those are all one option. *)
Definition group_inv (a : args) (seen : list opt) : Prop :=
  (forall g, in_group g = true -> action_flag g a = true <-> g ∈ seen) /\
  (forall o1 o2, o1 ∈ List.filter in_group seen -> o2 ∈ List.filter in_group seen -> o1 = o2).

Lemma flag_item_ok b o :
  takes_value o = false -> o <> OHelp -> Forall (fun it => item_ok it = true) (flag_item b o).
Proof. intros Hv Hh. destruct b; repeat constructor. simpl. by rewrite Hv, bool_decide_eq_false_2. Qed.

Lemma val_item_ok v o :
  takes_value o = true -> (forall s, v = Some s -> startswith s "-" = false) ->
  Forall (fun it => item_ok it = true) (val_item v o).
Proof. intros Hv Hs. destruct v as [s|]; repeat constructor. simpl. by rewrite Hv, Hs. Qed.

Lemma items_of_ok a :
  Forall (fun v => startswith v "-" = false) (arg_values a) -> Forall (fun it => item_ok it = true) (items_of a).
Proof.
  rewrite Forall_forall. intros Hv.
  assert (Ho : forall v s, v ∈ [a_password a; a_user a; a_port a; a_mailpile_root a; a_packager a;
                                a_apache_user a; a_apache_group a] -> v = Some s -> startswith s "-" = false).
  { intros v s Hin ->. apply Hv. do 2 right. apply list_elem_of_omap. by exists (Some s). }
  unfold items_of. repeat apply Forall_app_2;
    first [apply flag_item_ok; done
          | apply val_item_ok; [done|intros s Hs; eapply Ho; [|exact Hs]; set_solver] | idtac].
  repeat constructor; cbn [item_ok takes_value andb negb]; rewrite Hv; set_solver.
Qed.

(** Parsing prints the help text at most: it never removes a printed line. *)
Lemma out_mono_parse_args_py help_text argv : out_mono (parse_args_py help_text argv).
Proof. unfold parse_args_py. out_mono_tac. Qed.
#[export] Hint Resolve out_mono_parse_args_py : outmono.

(** C14: an [args] value with exactly one action and option values that do
    not start with a dash is what [parse_args] gives back from the
    command line [argv_of] writes for it: the parser reads every option
    the way [app_arguments] declares it. *)
Theorem parse_args_roundtrip (a : args) :
  one_action a = true -> Forall (fun v => startswith v "-" = false) (arg_values a) ->
  parse_args (argv_of a) = PArgs a.
Proof.
  intros H1 Hv. unfold argv_of. rewrite parse_args_items by (by apply items_of_ok).
  destruct a as [[] [] [] [] f pw u pt h d wr mr pk au ag]; try discriminate;
    destruct f, d, pw, u, pt, mr, pk, au, ag; reflexivity.
Qed.

Lemma parse_args_roundtrip_witness :
  one_action ex_start_args = true /\
  Forall (fun v => startswith v "-" = false) (arg_values ex_start_args) /\
  parse_args (argv_of ex_start_args) = PArgs ex_start_args.
Proof.
  assert (H1 : one_action ex_start_args = true) by reflexivity.
  assert (H2 : Forall (fun v => startswith v "-" = false) (arg_values ex_start_args))
    by (repeat constructor).
  split; [exact H1|split; [exact H2|exact (parse_args_roundtrip ex_start_args H1 H2)]].
Defined.

(** ** Exactly one action *)

Lemma action_flag_set_val o v a g : action_flag g (set_val o v a) = action_flag g a.
Proof. by destruct g. Qed.

Lemma action_flag_set_flag o a g :
  in_group g = true -> action_flag g (set_flag o a) = bool_decide (g = o) || action_flag g a.
Proof. by destruct g, o. Qed.

Lemma group_inv_default : group_inv default_args [].
Proof. split; [intros g _; destruct g; cbn; split; try done; set_solver|set_solver]. Qed.

Lemma group_inv_set_val a seen o v : group_inv a seen -> group_inv (set_val o v a) seen.
Proof. intros [Hf Hs]. split; [|done]. intros g Hg. rewrite action_flag_set_val. by apply Hf. Qed.

(** A flag taken without conflict keeps the invariant. *)
Lemma group_inv_set_flag a seen o :
  group_inv a seen ->
  (in_group o && existsb (fun o' => in_group o' && negb (bool_decide (o' = o))) seen) = false ->
  group_inv (set_flag o a) (o :: seen).
Proof.
  intros [Hf Hs] Hc. split.
  - intros g Hg. rewrite action_flag_set_flag, orb_true_iff, bool_decide_eq_true, elem_of_cons by done.
    rewrite (Hf g Hg). tauto.
  - cbn [List.filter]. destruct (in_group o) eqn:Ho; [|exact Hs].
    rewrite existsb_group_filter in Hc. apply all_same_cons, existsb_ne_false, Hc.
Qed.

Lemma elem_of_filter_group g l : g ∈ List.filter in_group l <-> g ∈ l /\ in_group g = true.
Proof. by rewrite !list_elem_of_In, filter_In. Qed.

(** At the end, a group option seen and the invariant make exactly one
    action flag. *)
Lemma group_inv_one_action a seen :
  group_inv a seen -> existsb in_group seen = true -> one_action a = true.
Proof.
  intros [Hf Hs] (g & Hin & Hg)%existsb_exists. apply list_elem_of_In in Hin.
  assert (Hall : forall g', in_group g' = true -> action_flag g' a = bool_decide (g' = g)).
  { intros g' Hg'. apply Bool.eq_iff_eq_true. rewrite Hf, bool_decide_eq_true by done.
    split; [|by intros ->]. intros Hin'. apply Hs; apply elem_of_filter_group; done. }
  unfold one_action. change (a_list a) with (action_flag OList a).
  change (a_start a) with (action_flag OStart a). change (a_stop a) with (action_flag OStop a).
  change (a_install_apache a) with (action_flag OInstallApache a).
  rewrite !Hall by done. by destruct g.
Qed.

(** [consume] keeps the invariant to its end: a namespace it returns has
    one action. *)
Lemma consume_one_action l : forall a seen extras a',
  group_inv a seen -> consume l a seen extras = PArgs a' -> one_action a' = true.
Proof.
  induction l as [l IH] using (induction_ltof1 _ (@length _)).
  intros a seen extras a' Hi Hc.
  destruct l as [|[s c] r]; cbn [consume] in Hc.
  - destruct (existsb in_group seen) eqn:E; [|discriminate].
    destruct (bool_decide _); [|discriminate]. injection Hc as <-.
    exact (group_inv_one_action a seen Hi E).
  - assert (Hr : ltof _ (@length _) r ((s, c) :: r)) by (unfold ltof; simpl; lia).
    destruct c as [| |o os ex|]; try exact (IH r Hr _ _ _ _ Hi Hc).
    destruct (takes_value o), ex as [v|].
    + exact (IH r Hr _ _ _ _ (group_inv_set_val _ _ _ _ Hi) Hc).
    + destruct r as [|[v []] r']; try discriminate.
      assert (Hr' : ltof _ (@length _) r' ((s, COpt o os None) :: (v, CArg) :: r'))
        by (unfold ltof; simpl; lia).
      exact (IH r' Hr' _ _ _ _ (group_inv_set_val _ _ _ _ Hi) Hc).
    + by destruct (_ && _).
    + destruct (bool_decide (o = OHelp)); [discriminate|].
      destruct (in_group o && _) eqn:Ec; [discriminate|].
      exact (IH r Hr _ _ _ _ (group_inv_set_flag _ _ _ Hi Ec) Hc).
Qed.

(** C15: whatever the command line, a namespace [parse_args] returns has
    exactly one of [--list], [--start], [--stop] and [--install-apache]
    set: the required mutually exclusive group is enforced, so [main]'s
    chain of [if]/[elif] always runs exactly one action. *)
Theorem parse_args_one_action (argv : list string) (a : args) :
  parse_args argv = PArgs a -> one_action a = true.
Proof.
  unfold parse_args. destruct (classify_all argv) as [cs|e]; [|discriminate].
  apply consume_one_action, group_inv_default.
Qed.

Lemma parse_args_one_action_witness :
  parse_args ["--sto"; "--user"; "bob"; "--force"] = PArgs (set_flag OForce (set_val OUser "bob" (set_flag OStop default_args))) /\
  one_action (set_flag OForce (set_val OUser "bob" (set_flag OStop default_args))) = true.
Proof.
  assert (H : parse_args ["--sto"; "--user"; "bob"; "--force"] =
              PArgs (set_flag OForce (set_val OUser "bob" (set_flag OStop default_args)))) by (vm_compute; reflexivity).
  split; [exact H|exact (parse_args_one_action _ _ H)].
Defined.
