(* ===== verification/Report.v ===== *)
(** * The [--list] report: [list_mailpiles]

    Models lines 310-328 of mailpile-admin.py: the registry is built from
    the .htaccess routes and the live processes (discovery always runs
    here), then printed as a table, one row per host:port in sorted order,
    with Python's [%-8.8s]-style fields (truncated to the precision, padded
    to the width).  [discover_mailpiles] fills the dict it is given in
    place and the code ignores its return value; the model threads the
    same dict, which is what the aliasing amounts to. *)

From Stdlib Require Import String Ascii ZArith Lia Sorted Permutation.
From stdpp Require Import base list gmap strings.
From S2P Require Import Prelude PyStr Escape Regex World Registry Lifecycle.
Open Scope string_scope.
Open Scope py_scope.

Fixpoint spaces (n : nat) : string :=
  match n with O => EmptyString | S n' => String " " (spaces n') end.

(** ['%-W.Ps' % s] (left) and ['%W.Ps' % s] (right) with [W = P]. *)
Definition fmt_field (left : bool) (width : nat) (s : string) : string :=
  let t := substring 0 width s in
  let pad := spaces (width - String.length t) in
  if left then t ++ pad else pad ++ t.

(** [fmt % (user, pid, rss, access, port, url)] with
    [fmt = '%-8.8s %6.6s %6.6s %-6.6s %5.5s %s']. *)
Definition fmt_row (user pid rss access port url : string) : string :=
  fmt_field true 8 user ++ " " ++ fmt_field false 6 pid ++ " " ++ fmt_field false 6 rss ++ " " ++
  fmt_field true 6 access ++ " " ++ fmt_field false 5 port ++ " " ++ url.

Definition list_header : string := fmt_row "USER" "PID" "RSS" "ACCESS" "PORT" "URL".

(** The row of one record; [hostname] is [socket.gethostname()]. *)
Definition list_row (hostname webroot : string) (r : mailpile) : string :=
  let url := if mp_in_htaccess r then "http://" ++ hostname ++ webroot ++ mp_user r ++ "/"
             else "http://" ++ mp_host r ++ ":" ++ mp_port r ++ "/" in
  fmt_row (mp_user r) (default "" (mp_pid r)) (default "" (mp_rss r))
          (if mp_in_htaccess r then "apache" else "direct") (mp_port r) url.

(** [user_counts[user] = user_counts.get(user, 0) + 1] *)
Definition count_user (counts : gmap string Z) (u : string) : gmap string Z :=
  <[u := (default 0 (counts !! u) + 1)%Z]> counts.

Definition gethostname : Py string := fun w => (Ok (w_hostname w), w).

(** One iteration of [for hostport in sorted(mailpiles.keys())]. *)
Definition list_step (m : mailpiles) (os_settings : gmap string string)
    (counts : gmap string Z) (hp : string) : Py (gmap string Z) :=
  r <- lift_res (getitem m hp) ;;
  let counts' := count_user counts (mp_user r) in
  url <- (if mp_in_htaccess r then
            host <- gethostname ;;
            webroot <- lift_res (getitem os_settings "webroot") ;;
            ret ("http://" ++ host ++ webroot ++ mp_user r ++ "/")
          else ret ("http://" ++ mp_host r ++ ":" ++ mp_port r ++ "/")) ;;
  py_print (fmt_row (mp_user r) (default "" (mp_pid r)) (default "" (mp_rss r))
                    (if mp_in_htaccess r then "apache" else "direct") (mp_port r) url) ;;
  ret counts'.

Definition list_mailpiles (a : args) : Py unit :=
  os_settings <- get_os_settings a ;;
  m <- parse_htaccess ∅ ;;
  m <- discover_mailpiles m ;;
  py_print list_header ;;
  _ <- py_fold (list_step m os_settings) (sorted_str (map fst (map_to_list m))) ∅ ;;
  ret tt.

(** ** Properties *)

(** The first three statements of [list_mailpiles] are [_get_mailpiles]
    with discovery. *)
Lemma list_mailpiles_run a w :
  list_mailpiles a w =
  match _get_mailpiles true w with
  | (Ok m, w1) =>
      (py_print list_header ;;
       _ <- py_fold (list_step m (os_settings_of a w)) (sorted_str (map fst (map_to_list m))) ∅ ;;
       ret tt) w1
  | (Exc e, w1) => (Exc e, w1)
  end.
Proof.
  unfold list_mailpiles, _get_mailpiles, get_os_settings, bind. cbv beta iota.
  destruct (parse_htaccess ∅ w) as [[m0|e] w0]; [|reflexivity].
  by destruct (discover_mailpiles m0 w0) as [[m|e] w1].
Qed.

Lemma list_step_run m os wr counts hp r w :
  os !! "webroot" = Some wr -> m !! hp = Some r ->
  list_step m os counts hp w =
  (Ok (count_user counts (mp_user r)), set_out (w_out w ++ [list_row (w_hostname w) wr r]) w).
Proof.
  intros Hwr Hr. unfold list_step, list_row, getitem, lift_res, bind. rewrite Hr. cbv beta iota zeta.
  destruct (mp_in_htaccess r); [|reflexivity]. unfold gethostname. rewrite Hwr. reflexivity.
Qed.

Lemma list_loop m os wr hs counts w :
  os !! "webroot" = Some wr -> Forall (fun hp => is_Some (m !! hp)) hs ->
  exists counts', py_fold (list_step m os) hs counts w =
    (Ok counts', set_out (w_out w ++ omap (fun hp => list_row (w_hostname w) wr <$> m !! hp) hs) w).
Proof.
  intros Hwr. revert counts w. induction hs as [|hp hs IH]; intros counts w Hall.
  - exists counts. simpl. by rewrite app_nil_r, set_out_id.
  - inversion Hall as [|? ? [r Hr] Hall']; subst. cbn [py_fold].
    py_run (list_step_run m os wr counts hp r w Hwr Hr).
    destruct (IH (count_user counts (mp_user r))
      (set_out (w_out w ++ [list_row (w_hostname w) wr r]) w) Hall') as [c' ->].
    exists c'. simpl. rewrite Hr. simpl. by rewrite <-app_assoc.
Qed.

Lemma sorted_keys_some (m : mailpiles) :
  Forall (fun hp => is_Some (m !! hp)) (sorted_str (map fst (map_to_list m))).
Proof.
  apply Forall_forall. intros hp Hin. rewrite sorted_str_perm in Hin.
  change (map fst (map_to_list m)) with (fst <$> map_to_list m) in Hin.
  apply list_elem_of_fmap in Hin as [[k r] [-> Hkr]]. apply elem_of_map_to_list in Hkr. by exists r.
Qed.

Lemma omap_all_some {A B} (f : A -> option B) l :
  Forall (fun x => is_Some (f x)) l -> length (omap f l) = length l.
Proof.
  induction 1 as [|x l [y Hy] _ IH]; [done|]. simpl. rewrite Hy. simpl. f_equal. exact IH.
Qed.

(** C33: when the registry builds (without an exception), [--list] prints
    the header and then exactly one row per record of the registry, in
    ascending order of the host:port keys; each row shows the record as
    [list_row] lays it out (the proxy URL for registered records, the
    direct one otherwise). *)
Theorem list_prints_sorted_table (a : args) (w w1 : world) (m : mailpiles) :
  _get_mailpiles true w = (Ok m, w1) ->
  let hs := sorted_str (map fst (map_to_list m)) in
  let rows := omap (fun hp => list_row (w_hostname w1) (a_webroot a) <$> m !! hp) hs in
  list_mailpiles a w = (Ok tt, set_out (w_out w1 ++ list_header :: rows) w1) /\
  Sorted str_le hs /\ hs ≡ₚ map fst (map_to_list m) /\ length rows = size m.
Proof.
  intros Hm hs rows. rewrite list_mailpiles_run, Hm.
  pose proof (sorted_keys_some m) as Hall.
  split; [|split_and!; [apply sorted_str_sorted|apply sorted_str_perm|]].
  - unfold py_print, modify_st, bind at 1. cbv beta iota. unfold bind at 1.
    destruct (list_loop m (os_settings_of a w) (a_webroot a) (sorted_str (map fst (map_to_list m))) ∅
                (set_out (w_out w1 ++ [list_header]) w1) (os_settings_webroot a w) Hall) as [c ->].
    unfold bind, ret. cbv beta iota. cbn [w_out w_hostname set_out].
    rewrite set_out_set_out, <-app_assoc. reflexivity.
  - unfold rows. rewrite omap_all_some
      by (eapply Forall_impl; [exact Hall|]; intros hp Hs; by apply fmap_is_Some). unfold hs.
    by rewrite sorted_str_perm, length_map, length_map_to_list.
Qed.

Definition ex_registry_built : mailpiles :=
  Eval vm_compute in match fst (_get_mailpiles true ex_world) with Ok m => m | Exc _ => ∅ end.

Lemma list_prints_sorted_table_witness :
  let w1 := snd (_get_mailpiles true ex_world) in
  let hs := sorted_str (map fst (map_to_list ex_registry_built)) in
  let rows := omap (fun hp => list_row (w_hostname w1) (a_webroot default_args)
                                 <$> ex_registry_built !! hp) hs in
  list_mailpiles default_args ex_world = (Ok tt, set_out (w_out w1 ++ list_header :: rows) w1) /\
  Sorted str_le hs /\ hs ≡ₚ map fst (map_to_list ex_registry_built) /\
  length rows = size ex_registry_built.
Proof.
  assert (H : _get_mailpiles true ex_world = (Ok ex_registry_built, snd (_get_mailpiles true ex_world))).
  { assert (E : fst (_get_mailpiles true ex_world) = Ok ex_registry_built) by vm_decide.
    rewrite (surjective_pairing (_get_mailpiles true ex_world)) at 1. by rewrite E. }
  exact (list_prints_sorted_table default_args ex_world _ _ H).
Defined.

(** ** Output *)

Lemma out_mono_list_step m os c hp : out_mono (list_step m os c hp).
Proof.
  unfold list_step, gethostname. out_mono_tac. apply out_mono_keep. done.
Qed.
#[export] Hint Resolve out_mono_list_step : outmono.

Lemma out_mono_list_mailpiles a : out_mono (list_mailpiles a).
Proof. unfold list_mailpiles. out_mono_tac. Qed.
#[export] Hint Resolve out_mono_list_mailpiles : outmono.
