(* ===== verification/Sh.v ===== *)
(** * The shell of the stop scripts, as a [Shell] instance

    [stop_mailpile] runs, through [os.system], the command lines of
    [MAILPILE_STOP_SCRIPT] and [MAILPILE_FORCE_STOP_SCRIPT], such as
    [kill PID || (rm -f PIDFILE; false)] with both words between double
    quotes.  This file gives
    those lines a meaning over the world's process table [w_sys]: a lexer
    and a parser for the fragment of /bin/sh they use (words, double
    quotes, [;], [||], [&&], parentheses) and an evaluator for the
    commands they call: [kill] (SIGTERM), [kill -INT], [kill -9],
    [sleep N], [rm -f], [true] and [false].  A process signalled with
    SIGTERM or SIGINT exits the number of seconds its [pstate] says after
    the signal (never, for [None]); [kill -9] ends it at once; time passes
    only in [sleep].  [kill] succeeds (status 0) exactly when the process
    exists.  [os.system] returns the exit status shifted left by 8 bits.
    Any other command is not found (status 127): the instance is meant for
    the stop scripts.  None of this is code of the repository: it is the
    environment the scripts run in, made precise enough to state what they
    achieve. *)

From Stdlib Require Import String Ascii ZArith Lia.
From stdpp Require Import base list gmap strings.
From S2P Require Import Prelude PyStr World Shell.
Open Scope string_scope.

(** ** Lexing *)

Inductive tok : Type :=
| TWord (s : string)
| TOr | TAnd | TSemi | TLParen | TRParen.

#[export] Instance tok_eq_dec : EqDecision tok.
Proof. solve_decision. Defined.

(** The double-quote character. *)
Definition dqc : ascii := ascii_of_nat 34.

(** A finished word goes on the (reversed) list of tokens. *)
Definition flush (cur : option string) (acc : list tok) : list tok :=
  match cur with Some w => TWord (str_rev w) :: acc | None => acc end.

(** [cur] is the word being read, reversed (an empty quoted word is
    [Some EmptyString]); [inq] says whether the lexer is inside double
    quotes; [acc] holds the tokens read so far, last first.  Inside quotes
    a backslash escapes a double quote, a backslash, a dollar sign and a
    backquote; [|] and [&] alone (pipes, background jobs) are not part of
    the fragment. *)
Fixpoint lex_go (s : string) (cur : option string) (inq : bool) (acc : list tok)
    : option (list tok) :=
  match s with
  | EmptyString => if inq then None else Some (rev (flush cur acc))
  | String c s' =>
      let w := default EmptyString cur in
      if inq then
        if ascii_dec c dqc then lex_go s' cur false acc
        else if ascii_dec c "\" then
          match s' with
          | String d s'' =>
              if bool_decide (d ∈ [dqc; "\"; "$"; "`"]%char) then lex_go s'' (Some (String d w)) true acc
              else lex_go s' (Some (String c w)) true acc
          | EmptyString => None
          end
        else lex_go s' (Some (String c w)) true acc
      else if ascii_dec c dqc then lex_go s' (Some w) true acc
      else if ascii_dec c " " then lex_go s' None false (flush cur acc)
      else if ascii_dec c ";" then lex_go s' None false (TSemi :: flush cur acc)
      else if ascii_dec c "(" then lex_go s' None false (TLParen :: flush cur acc)
      else if ascii_dec c ")" then lex_go s' None false (TRParen :: flush cur acc)
      else if ascii_dec c "|" then
        match s' with
        | String d s'' => if ascii_dec d "|" then lex_go s'' None false (TOr :: flush cur acc) else None
        | EmptyString => None
        end
      else if ascii_dec c "&" then
        match s' with
        | String d s'' => if ascii_dec d "&" then lex_go s'' None false (TAnd :: flush cur acc) else None
        | EmptyString => None
        end
      else lex_go s' (Some (String c w)) false acc
  end.

Definition lex (s : string) : option (list tok) := lex_go s None false [].

(** ** Parsing

    [list := andor (; list)?], [andor := cmd ((|| or &&) cmd)*] (left
    associative, as in sh), [cmd := ( list ) | word+].  Each function
    takes fuel; [parse] gives four units per token, more than the depth of
    any parse. *)

Inductive sh : Type :=
| SCmd (argv : list string)
| SAnd (a b : sh)
| SOr (a b : sh)
| SSeq (a b : sh)
| SSub (a : sh).

Fixpoint words (ts : list tok) : list string * list tok :=
  match ts with
  | TWord w :: ts' => let '(ws, r) := words ts' in (w :: ws, r)
  | _ => ([], ts)
  end.

Fixpoint p_list (n : nat) (ts : list tok) : option (sh * list tok) :=
  match n with
  | O => None
  | S n' =>
      match p_andor n' ts with
      | Some (a, TSemi :: ts1) =>
          match p_list n' ts1 with Some (b, ts2) => Some (SSeq a b, ts2) | None => None end
      | r => r
      end
  end
with p_andor (n : nat) (ts : list tok) : option (sh * list tok) :=
  match n with
  | O => None
  | S n' => match p_cmd n' ts with Some (a, ts1) => p_andor_rest n' a ts1 | None => None end
  end
with p_andor_rest (n : nat) (acc : sh) (ts : list tok) : option (sh * list tok) :=
  match n with
  | O => None
  | S n' =>
      match ts with
      | TOr :: ts1 =>
          match p_cmd n' ts1 with Some (b, ts2) => p_andor_rest n' (SOr acc b) ts2 | None => None end
      | TAnd :: ts1 =>
          match p_cmd n' ts1 with Some (b, ts2) => p_andor_rest n' (SAnd acc b) ts2 | None => None end
      | _ => Some (acc, ts)
      end
  end
with p_cmd (n : nat) (ts : list tok) : option (sh * list tok) :=
  match n with
  | O => None
  | S n' =>
      match ts with
      | TLParen :: ts1 =>
          match p_list n' ts1 with Some (a, TRParen :: ts2) => Some (SSub a, ts2) | _ => None end
      | TWord w :: ts1 => let '(ws, ts2) := words ts1 in Some (SCmd (w :: ws), ts2)
      | _ => None
      end
  end.

Definition parse (ts : list tok) : option sh :=
  match p_list (4 * length ts + 4) ts with Some (c, []) => Some c | _ => None end.

(** ** Running a command line *)

Definition sh_state : Type := gmap string string * sys.

(** A process signalled at [clock] exits [k] seconds later, or at the
    time an earlier signal already set, whichever comes first. *)
Definition sched (clock : nat) (d : option nat) (st : pstate) : pstate :=
  match d with
  | None => st
  | Some k => {| p_on_term := p_on_term st; p_on_int := p_on_int st;
                 p_exit_at := Some (match p_exit_at st with
                                    | Some t => Nat.min t (clock + k)
                                    | None => clock + k
                                    end) |}
  end.

(** [kill -SIG pid] for SIGTERM or SIGINT ([sel] picks the reaction). *)
Definition kill_with (sel : pstate -> option nat) (pid : string) (y : sys) : nat * sys :=
  match sys_procs y !! pid with
  | Some st => (0, {| sys_procs := <[pid := sched (sys_clock y) (sel st) st]> (sys_procs y);
                      sys_clock := sys_clock y |})
  | None => (1, y)
  end.

(** [kill -9 pid] *)
Definition kill9 (pid : string) (y : sys) : nat * sys :=
  match sys_procs y !! pid with
  | Some _ => (0, {| sys_procs := delete pid (sys_procs y); sys_clock := sys_clock y |})
  | None => (1, y)
  end.

Definition alive_at (t : nat) (st : pstate) : bool :=
  match p_exit_at st with Some e => (t <? e)%nat | None => true end.

(** [sleep n]: the processes due to exit by then are gone. *)
Definition advance (n : nat) (y : sys) : sys :=
  let t := sys_clock y + n in
  {| sys_procs := filter (fun kv : string * pstate => alive_at t kv.2 = true) (sys_procs y);
     sys_clock := t |}.

Definition run_cmd (argv : list string) (st : sh_state) : nat * sh_state :=
  let '(files, y) := st in
  match argv with
  | [c] => if String.eqb c "true" then (0, st) else if String.eqb c "false" then (1, st) else (127, st)
  | [c; a1] =>
      if String.eqb c "sleep" then
        match digits_val 0 a1 with Some k => (0, (files, advance (Z.to_nat k) y)) | None => (1, st) end
      else if String.eqb c "kill" then let '(r, y') := kill_with p_on_term a1 y in (r, (files, y'))
      else (127, st)
  | [c; a1; a2] =>
      if String.eqb c "rm" && String.eqb a1 "-f" then (0, (delete a2 files, y))
      else if String.eqb c "kill" && String.eqb a1 "-INT" then
        let '(r, y') := kill_with p_on_int a2 y in (r, (files, y'))
      else if String.eqb c "kill" && String.eqb a1 "-9" then let '(r, y') := kill9 a2 y in (r, (files, y'))
      else (127, st)
  | _ => (127, st)
  end.

Fixpoint sh_eval (c : sh) (st : sh_state) : nat * sh_state :=
  match c with
  | SCmd argv => run_cmd argv st
  | SAnd a b => let '(r, st1) := sh_eval a st in if (r =? 0)%nat then sh_eval b st1 else (r, st1)
  | SOr a b => let '(r, st1) := sh_eval a st in if (r =? 0)%nat then (r, st1) else sh_eval b st1
  | SSeq a b => let '(_, st1) := sh_eval a st in sh_eval b st1
  | SSub a => sh_eval a st
  end.

(** A line that does not lex or parse is a syntax error: status 2. *)
Definition run_line (line : string) (st : sh_state) : nat * sh_state :=
  match lex line with
  | Some ts => match parse ts with Some c => sh_eval c st | None => (2, st) end
  | None => (2, st)
  end.

(** [os.system(line)]: the status shifted left by 8 bits. *)
Definition sys_system (c : string) (w : world) : Z * world :=
  let '(r, (files, y)) := run_line c (w_files w, w_sys w) in
  (Z.of_nat r * 256, set_cmds (w_cmds w ++ [c]) (set_files files (set_sys y w)))%Z.

Lemma sys_system_cmds c w : w_cmds (snd (sys_system c w)) = (w_cmds w ++ [c])%list.
Proof. unfold sys_system. by destruct (run_line c _) as [r [f y]]. Qed.

Lemma sys_system_out c w : w_out (snd (sys_system c w)) = w_out w.
Proof. unfold sys_system. by destruct (run_line c _) as [r [f y]]. Qed.

#[export] Instance sys_shell (reply : string * string) : Shell := {
  sh_system := sys_system;
  sh_popen := table_popen;
  sh_communicate := fun _ w => (reply, w);
  sh_system_cmds := sys_system_cmds;
  sh_system_out := sys_system_out;
  sh_popen_cmds := fun _ _ => eq_refl;
  sh_popen_out := fun _ _ => eq_refl;
  sh_communicate_cmds := fun _ _ => eq_refl;
  sh_communicate_out := fun _ _ => eq_refl
}.


(** ** Lexing, piece by piece

    [lex_plain a] is the effect of a piece [a] without double quotes read
    outside quotes: the word it leaves pending and the tokens it adds.
    With [lex_qword] for a quoted word, these lemmas lex a command line
    whose quoted words are variables. *)

Fixpoint lex_plain (a : string) (cur : option string) (acc : list tok)
    : option (option string * list tok) :=
  match a with
  | EmptyString => Some (cur, acc)
  | String c a' =>
      let w := default EmptyString cur in
      if ascii_dec c dqc then None
      else if ascii_dec c " " then lex_plain a' None (flush cur acc)
      else if ascii_dec c ";" then lex_plain a' None (TSemi :: flush cur acc)
      else if ascii_dec c "(" then lex_plain a' None (TLParen :: flush cur acc)
      else if ascii_dec c ")" then lex_plain a' None (TRParen :: flush cur acc)
      else if ascii_dec c "|" then
        match a' with
        | String d a'' => if ascii_dec d "|" then lex_plain a'' None (TOr :: flush cur acc) else None
        | EmptyString => None
        end
      else if ascii_dec c "&" then
        match a' with
        | String d a'' => if ascii_dec d "&" then lex_plain a'' None (TAnd :: flush cur acc) else None
        | EmptyString => None
        end
      else lex_plain a' (Some (String c w)) acc
  end.

Lemma lex_plain_app a s cur acc cur' acc' :
  lex_plain a cur acc = Some (cur', acc') -> lex_go (a ++ s) cur false acc = lex_go s cur' false acc'.
Proof.
  remember (String.length a) as n eqn:En. revert a cur acc En.
  induction n as [n IH] using lt_wf_ind. intros [|c a] cur acc En H; [by injection H as -> ->|].
  simpl in En. rewrite append_cons. simpl in *. destruct (ascii_dec c dqc); [done|].
  repeat (destruct (ascii_dec c _); [by eapply IH; [|reflexivity|]; [lia|]|]).
  destruct (ascii_dec c "|").
  { destruct a as [|d a]; [done|]. rewrite append_cons. simpl in En.
    destruct (ascii_dec d "|"); [|done]. by eapply IH; [|reflexivity|]; [lia|]. }
  destruct (ascii_dec c "&").
  { destruct a as [|d a]; [done|]. rewrite append_cons. simpl in En.
    destruct (ascii_dec d "&"); [|done]. by eapply IH; [|reflexivity|]; [lia|]. }
  by eapply IH; [|reflexivity|]; [lia|].
Qed.

Lemma lex_plain_end a cur acc cur' acc' :
  lex_plain a cur acc = Some (cur', acc') -> lex_go a cur false acc = Some (rev (flush cur' acc')).
Proof. intros H. rewrite <-(append_nil_r a). by rewrite (lex_plain_app _ _ _ _ _ _ H). Qed.

(** The characters that stand for themselves inside double quotes. *)
Definition qplain (c : ascii) : bool := negb (bool_decide (c = dqc)) && negb (bool_decide (c = "\"%char)).

Lemma lex_qword x s w acc :
  str_all qplain x = true -> lex_go (x ++ s) (Some w) true acc = lex_go s (Some (str_rev x ++ w)) true acc.
Proof.
  revert w. induction x as [|c x IH]; intros w Hx; [done|].
  apply andb_true_iff in Hx as [Hc Hx]. unfold qplain in Hc.
  apply andb_true_iff in Hc as [Hq Hb]. apply negb_true_iff, bool_decide_eq_false in Hq, Hb.
  rewrite append_cons. simpl. destruct (ascii_dec c dqc); [done|]. destruct (ascii_dec c "\"); [done|].
  rewrite IH by done. simpl. by rewrite append_assoc'.
Qed.

Lemma lex_open s cur acc : lex_go (String dqc s) cur false acc = lex_go s (Some (default EmptyString cur)) true acc.
Proof. simpl. by destruct (ascii_dec dqc dqc). Qed.

Lemma lex_close s cur acc : lex_go (String dqc s) cur true acc = lex_go s cur false acc.
Proof. simpl. by destruct (ascii_dec dqc dqc). Qed.

Lemma dq_app s : dq ++ s = String dqc s.
Proof. reflexivity. Qed.

(** A quoted word, given by a variable, then a piece without quotes. *)
Lemma lex_quoted_then x a s acc cur' acc' :
  str_all qplain x = true ->
  lex_plain a (Some (str_rev x)) acc = Some (cur', acc') ->
  lex_go (String dqc (x ++ String dqc (a ++ s))) None false acc = lex_go s cur' false acc'.
Proof.
  intros Hx Ha. rewrite lex_open, lex_qword, lex_close, append_nil_r by done.
  by apply lex_plain_app.
Qed.

Lemma lex_quoted_end x a acc cur' acc' :
  str_all qplain x = true ->
  lex_plain a (Some (str_rev x)) acc = Some (cur', acc') ->
  lex_go (String dqc (x ++ String dqc a)) None false acc = Some (rev (flush cur' acc')).
Proof.
  intros Hx Ha. rewrite lex_open, lex_qword, lex_close, append_nil_r by done.
  by apply lex_plain_end.
Qed.
