(* ===== verification/Stop.v ===== *)
(** * Stopping a Mailpile: the stop scripts over the process table

    [stop_mailpile] (lines 384-402 of mailpile-admin.py) without [--user]
    runs [MAILPILE_STOP_SCRIPT] (lines 23-28), and with [--force]
    [MAILPILE_FORCE_STOP_SCRIPT] (lines 30-34) after it, through
    [run_script].  With the shell of Sh.v, this file computes what each
    formatted line does to the pid file and the process table, and proves
    the contract of the specification: without [--force] the pid file is
    left exactly when the process is still running; with [--force] the
    process is gone and so is the pid file; the waits are bounded (10 and
    30 seconds); the routing file is never touched.  A stale pid file
    (no such process) is removed by the first line, which then fails, so
    the stop prints a failure line.  For any shell, the pid file's
    content, stripped and JSON-escaped only, is what the first kill line
    passes to [os.system] between double quotes.  The examples run
    root's stop on a world whose process ignores SIGTERM, on one without
    the process, and on one whose pid file holds [$(reboot)]. *)

From Stdlib Require Import String Ascii ZArith Lia.
From stdpp Require Import base list gmap strings.
From S2P Require Import Prelude PyStr Escape Regex World Registry Htaccess Ports Shell Lifecycle Sh.
Open Scope string_scope.
Open Scope py_scope.

(** ** What the script reads does not change the files or the processes *)

Definition same_fs (f : gmap string string) (y : sys) (w : world) : Prop :=
  w_files w = f /\ w_sys w = y.

Ltac frame_leaf := intros ?w [? ?]; repeat case_match; split; simpl; congruence.

Lemma random_port_loop_frame f y t g : preserves (same_fs f y) (random_port_loop t g).
Proof.
  revert g. induction t as [|t IH]; intros g; simpl; [apply preserves_raise|].
  apply preserves_bind; [unfold randint; frame_leaf|intros n].
  apply preserves_bind; [|intros rows; case_match; [apply IH|apply preserves_ret]].
  unfold gen_rows. destruct g; [apply preserves_ret|]. unfold _parse_netstat.
  apply preserves_bind; [unfold run_netstat; frame_leaf|intros o; apply preserves_ret].
Qed.

Lemma get_random_port_frame f y : preserves (same_fs f y) _get_random_port.
Proof. apply random_port_loop_frame. Qed.

Lemma get_user_settings_frame a u mp f y : preserves (same_fs f y) (get_user_settings a u mp).
Proof.
  unfold get_user_settings, get_os_settings, choose_port, read_pid.
  repeat first
    [ apply get_random_port_frame
    | progress intros | progress cbv zeta | apply preserves_bind | apply preserves_ret
    | apply preserves_raise | apply preserves_lift_res
    | unfold getpwuid_name; frame_leaf | unfold path_exists; frame_leaf
    | unfold read_file; frame_leaf | unfold run_netstat; frame_leaf | unfold py_assert; case_match
    | case_match ].
Qed.

(** ** The lines of the scripts *)

(** [kill "P" || (rm -f "F"; false)], and with [true] at the end. *)
Definition kill_or_rm (P F : string) (ok : bool) : string :=
  "kill " ++ dq ++ P ++ dq ++ " || (rm -f " ++ dq ++ F ++ dq ++ (if ok then "; true)" else "; false)").

(** [kill -INT "P" && (sleep 20; kill -9 "P") || true] *)
Definition kill_int_then_9 (P : string) : string :=
  "kill -INT " ++ dq ++ P ++ dq ++ " && (sleep 20; kill -9 " ++ dq ++ P ++ dq ++ ") || true".

(** [rm -f "F"] *)
Definition rm_pidfile (F : string) : string := "rm -f " ++ dq ++ F ++ dq.

Lemma stop_scripts_tmpl :
  MAILPILE_STOP_SCRIPT =
    [tmpl [("kill " ++ dq, "pid"); (dq ++ " || (rm -f " ++ dq, "pidfile")] (dq ++ "; false)");
     "sleep 10";
     tmpl [("kill " ++ dq, "pid"); (dq ++ " || (rm -f " ++ dq, "pidfile")] (dq ++ "; true)")] /\
  MAILPILE_FORCE_STOP_SCRIPT =
    [tmpl [("kill -INT " ++ dq, "pid"); (dq ++ " && (sleep 20; kill -9 " ++ dq, "pid")] (dq ++ ") || true");
     tmpl [("rm -f " ++ dq, "pidfile")] dq].
Proof. split; reflexivity. Qed.

Section Lines.
Variables (esc : gmap string string) (P F : string).
Hypothesis (Hpid : esc !! "pid" = Some P) (Hpf : esc !! "pidfile" = Some F).
Hypothesis (HP : str_all qplain P = true) (HF : str_all qplain F = true).

Lemma format_kill_or_rm (ok : bool) :
  py_format (tmpl [("kill " ++ dq, "pid"); (dq ++ " || (rm -f " ++ dq, "pidfile")]
                  (dq ++ (if ok then "; true)" else "; false)"))) esc = Ok (kill_or_rm P F ok).
Proof.
  rewrite (py_format_tmpl _ _ [P; F]); [|repeat constructor; done|by destruct ok].
  unfold kill_or_rm. simpl. by rewrite !append_assoc'.
Qed.

Lemma format_kill_int_then_9 :
  py_format (tmpl [("kill -INT " ++ dq, "pid"); (dq ++ " && (sleep 20; kill -9 " ++ dq, "pid")]
                  (dq ++ ") || true")) esc = Ok (kill_int_then_9 P).
Proof.
  rewrite (py_format_tmpl _ _ [P; P]); [|repeat constructor; done|done].
  unfold kill_int_then_9. simpl. by rewrite !append_assoc'.
Qed.

Lemma format_rm_pidfile : py_format (tmpl [("rm -f " ++ dq, "pidfile")] dq) esc = Ok (rm_pidfile F).
Proof.
  rewrite (py_format_tmpl _ _ [F]); [|repeat constructor; done|done].
  unfold rm_pidfile. simpl. by rewrite !append_assoc'.
Qed.

End Lines.

(** ** What the lines do *)

Section LineSem.
Variables (P F : string).
Hypothesis (HP : str_all qplain P = true) (HF : str_all qplain F = true).

(** The state after [kill PID] when the process exists. *)
Definition termed (y : sys) (st : pstate) : sys :=
  {| sys_procs := <[P := sched (sys_clock y) (p_on_term st) st]> (sys_procs y); sys_clock := sys_clock y |}.

Lemma lex_kill_or_rm (ok : bool) :
  lex (kill_or_rm P F ok) =
  Some [TWord "kill"; TWord P; TOr; TLParen; TWord "rm"; TWord "-f"; TWord F; TSemi;
        TWord (if ok then "true" else "false"); TRParen].
Proof.
  unfold kill_or_rm, lex. rewrite !dq_app. erewrite lex_plain_app by reflexivity.
  destruct ok; erewrite lex_quoted_then by (done || reflexivity);
    erewrite lex_quoted_end by (done || reflexivity); cbn [flush rev app]; by rewrite !str_rev_involutive.
Qed.

Lemma run_kill_or_rm (ok : bool) files y :
  run_line (kill_or_rm P F ok) (files, y) =
  match sys_procs y !! P with
  | Some st => (0, (files, termed y st))
  | None => (if ok then 0 else 1, (delete F files, y))
  end.
Proof.
  unfold run_line. rewrite lex_kill_or_rm.
  assert (E : parse [TWord "kill"; TWord P; TOr; TLParen; TWord "rm"; TWord "-f"; TWord F; TSemi;
                     TWord (if ok then "true" else "false"); TRParen] =
              Some (SOr (SCmd ["kill"; P])
                        (SSub (SSeq (SCmd ["rm"; "-f"; F]) (SCmd [if ok then "true" else "false"])))))
    by reflexivity.
  rewrite E. simpl. unfold kill_with. destruct (sys_procs y !! P); [reflexivity|]. by destruct ok.
Qed.

Lemma run_sleep10 files y : run_line "sleep 10" (files, y) = (0, (files, advance 10 y)).
Proof. reflexivity. Qed.

(** The state after [kill -INT P && (sleep 20; kill -9 P) || true]. *)
Definition forced (y : sys) : sys :=
  match sys_procs y !! P with
  | Some _ => snd (kill9 P (advance 20 (snd (kill_with p_on_int P y))))
  | None => y
  end.

Lemma lex_kill_int_then_9 :
  lex (kill_int_then_9 P) =
  Some [TWord "kill"; TWord "-INT"; TWord P; TAnd; TLParen; TWord "sleep"; TWord "20"; TSemi;
        TWord "kill"; TWord "-9"; TWord P; TRParen; TOr; TWord "true"].
Proof.
  unfold kill_int_then_9, lex. rewrite !dq_app. erewrite lex_plain_app by reflexivity.
  erewrite lex_quoted_then by (done || reflexivity). erewrite lex_quoted_end by (done || reflexivity).
  cbn [flush rev app]. by rewrite !str_rev_involutive.
Qed.

Lemma run_kill_int_then_9 files y : run_line (kill_int_then_9 P) (files, y) = (0, (files, forced y)).
Proof.
  unfold run_line. rewrite lex_kill_int_then_9.
  assert (E : parse [TWord "kill"; TWord "-INT"; TWord P; TAnd; TLParen; TWord "sleep"; TWord "20"; TSemi;
                     TWord "kill"; TWord "-9"; TWord P; TRParen; TOr; TWord "true"] =
              Some (SOr (SAnd (SCmd ["kill"; "-INT"; P])
                              (SSub (SSeq (SCmd ["sleep"; "20"]) (SCmd ["kill"; "-9"; P]))))
                        (SCmd ["true"]))) by reflexivity.
  rewrite E. simpl. unfold forced, kill_with. destruct (sys_procs y !! P); [|reflexivity]. simpl.
  by destruct (kill9 P _) as [[|r] y'].
Qed.

Lemma lex_rm_pidfile : lex (rm_pidfile F) = Some [TWord "rm"; TWord "-f"; TWord F].
Proof.
  unfold rm_pidfile, lex. rewrite !dq_app. unfold dq, chr_s.
  change (String (chr 34) EmptyString) with (String dqc EmptyString).
  erewrite lex_plain_app by reflexivity. erewrite lex_quoted_end by (done || reflexivity).
  cbn [flush rev app]. by rewrite !str_rev_involutive.
Qed.

Lemma run_rm_pidfile files y : run_line (rm_pidfile F) (files, y) = (0, (delete F files, y)).
Proof. unfold run_line. rewrite lex_rm_pidfile. reflexivity. Qed.
End LineSem.

(** ** The stop machine

    What the stop script does to the pid file [F] and the process [P]:
    [kill P] fails on a dead process, which removes the pid file and ends
    the script ([false]); otherwise the process gets SIGTERM, ten seconds
    pass, and the pid file is removed if the process is gone by then.
    The forced variant then sends SIGINT, waits twenty seconds, kills the
    process with SIGKILL and removes the pid file. *)

Section Machine.
Variables (P F : string).

Definition stop_effect (st : sh_state) : sh_state :=
  let '(files, y) := st in
  match sys_procs y !! P with
  | None => (delete F files, y)
  | Some s =>
      let y2 := advance 10 (termed P y s) in
      match sys_procs y2 !! P with
      | Some s' => (files, termed P y2 s')
      | None => (delete F files, y2)
      end
  end.

Definition force_effect (st : sh_state) : sh_state :=
  let '(files, y) := st in
  match sys_procs y !! P with
  | None => (delete F files, y)
  | Some _ => let '(f2, y2) := stop_effect st in (delete F f2, forced P y2)
  end.

Lemma termed_clock y s : sys_clock (termed P y s) = sys_clock y.
Proof. done. Qed.

Lemma termed_lookup y s : is_Some (sys_procs (termed P y s) !! P).
Proof. simpl. rewrite lookup_insert_eq. by eexists. Qed.

Lemma advance_clock n y : sys_clock (advance n y) = sys_clock y + n.
Proof. done. Qed.

Lemma forced_gone y : sys_procs (forced P y) !! P = None.
Proof.
  unfold forced. destruct (sys_procs y !! P) eqn:E; [|done].
  unfold kill9. case_match eqn:E2; [simpl; apply lookup_delete_eq|exact E2].
Qed.

Lemma forced_clock y : sys_clock (forced P y) <= sys_clock y + 20.
Proof.
  unfold forced, kill_with. destruct (sys_procs y !! P); [|lia].
  unfold kill9. case_match; simpl; lia.
Qed.

Lemma is_Some_None_iff {A B} : (is_Some (@None A) <-> is_Some (@None B)).
Proof. split; intros ?%is_Some_None; done. Qed.

(** The stop script waits at most ten seconds and touches no file but the
    pid file. *)
Lemma stop_effect_frame files y :
  sys_clock (stop_effect (files, y)).2 <= sys_clock y + 10 /\
  forall k, k <> F -> (stop_effect (files, y)).1 !! k = files !! k.
Proof.
  unfold stop_effect. destruct (sys_procs y !! P) as [s|];
    [destruct (sys_procs (advance 10 (termed P y s)) !! P)|]; cbn [fst snd];
    (split; [simpl; lia|intros k Hk; by rewrite ?lookup_delete_ne by congruence]).
Qed.

(** With a pid file present, the stop script leaves it exactly when the
    process is still running. *)
Lemma stop_effect_iff files y c :
  files !! F = Some c ->
  is_Some ((stop_effect (files, y)).1 !! F) <-> is_Some (sys_procs (stop_effect (files, y)).2 !! P).
Proof.
  intros Hc. unfold stop_effect. destruct (sys_procs y !! P) as [s|] eqn:Hs;
    [destruct (sys_procs (advance 10 (termed P y s)) !! P) as [s'|] eqn:Hs'|]; cbn [fst snd].
  - rewrite Hc. split; intros _; [apply termed_lookup|by eexists].
  - rewrite lookup_delete_eq, Hs'. apply is_Some_None_iff.
  - rewrite lookup_delete_eq, Hs. apply is_Some_None_iff.
Qed.

(** The forced stop ends with neither the process nor the pid file, after
    at most thirty seconds, and touches no other file. *)
Lemma force_effect_spec files y :
  (force_effect (files, y)).1 !! F = None /\ sys_procs (force_effect (files, y)).2 !! P = None /\
  sys_clock (force_effect (files, y)).2 <= sys_clock y + 30 /\
  forall k, k <> F -> (force_effect (files, y)).1 !! k = files !! k.
Proof.
  unfold force_effect. destruct (sys_procs y !! P) as [s|] eqn:Hs.
  - destruct (stop_effect_frame files y) as [Hcl Hk].
    destruct (stop_effect (files, y)) as [f2 y2]. cbn [fst snd] in *.
    split_and!; [apply lookup_delete_eq|apply forced_gone|pose proof (forced_clock y2); lia|].
    intros k Hne. rewrite lookup_delete_ne by congruence. by apply Hk.
  - cbn [fst snd]. split_and!; [apply lookup_delete_eq|exact Hs|lia|].
    intros k Hne. by rewrite lookup_delete_ne by congruence.
Qed.

End Machine.

(** ** A running Mailpile keeps its pid file

    The pid file is the only way to stop a Mailpile ([stop_mailpile] needs
    the pid it holds), so the scripts must never remove the pid file of a
    running process.  [stop_step] is what can happen to the pid file and
    the process between and during stops: a stop, a forced stop, or time
    passing, during which the process may exit on its own. *)

Section Invariant.
Variables (P F : string).

Definition pidfile_inv (st : sh_state) : Prop :=
  is_Some (sys_procs st.2 !! P) -> is_Some (st.1 !! F).

Inductive stop_step : sh_state -> sh_state -> Prop :=
  | SStop st : stop_step st (stop_effect P F st)
  | SForce st : stop_step st (force_effect P F st)
  | SWait n files y : stop_step (files, y) (files, advance n y).

Lemma advance_lookup n y s : sys_procs (advance n y) !! P = Some s -> sys_procs y !! P = Some s.
Proof. simpl. rewrite map_lookup_filter_Some. tauto. Qed.

Lemma stop_step_inv st st' : stop_step st st' -> pidfile_inv st -> pidfile_inv st'.
Proof.
  destruct 1 as [[files y]|[files y]|n files y]; unfold pidfile_inv; cbn [fst snd]; intros Hinv.
  - unfold stop_effect. destruct (sys_procs y !! P) as [s|] eqn:Hs;
      [destruct (sys_procs (advance 10 (termed P y s)) !! P) as [s'|] eqn:Hs'|]; cbn [fst snd].
    + intros _. apply Hinv. by eexists.
    + by rewrite Hs'.
    + by rewrite Hs.
  - destruct (force_effect_spec P F files y) as (_ & Hgone & _). by rewrite Hgone.
  - intros [s Hs]. apply Hinv. exists s. by apply (advance_lookup n).
Qed.

(** C11: whatever sequence of stops, forced stops and waits follows, a
    running Mailpile keeps its pid file, provided it had one: the stop
    scripts remove the pid file only once the process is gone, so a
    Mailpile never becomes unstoppable.  ([stop_mailpile_machine] below
    shows that each [stop_mailpile] is an [SStop] or [SForce] step.) *)
Theorem stops_keep_running_pidfile st st' :
  rtc stop_step st st' -> pidfile_inv st -> pidfile_inv st'.
Proof. induction 1 as [|st1 st2 st3 Hs _ IH]; [done|]. intros H1. apply IH, (stop_step_inv st1); done. Qed.

End Invariant.

(** ** From [run_script] to the stop machine *)

Section Run.
Variable reply : string * string.
Variable settings : gmap string pyval.

(** The script ends normally with the files and the processes in state [T]. *)
Definition ends_in (script : list string) (T : sh_state) (w : world) : Prop :=
  exists w', run_script (H := sys_shell reply) settings script w = (Ok tt, w') /\
             (w_files w', w_sys w') = T.

Lemma ends_in_nil T w : (w_files w, w_sys w) = T -> ends_in [] T w.
Proof. intros <-. eexists. split; [apply run_script_nil|done]. Qed.

(** One line: status 0 goes on with the rest of the script, another
    status ends it in the state the line left. *)
Lemma ends_in_cons line rest esc l T w r f y :
  _escaped settings = Ok esc -> py_format line esc = Ok l ->
  run_line l (w_files w, w_sys w) = (r, (f, y)) ->
  (if Nat.eqb r 0 then forall w2, w_files w2 = f -> w_sys w2 = y -> ends_in rest T w2
   else (f, y) = T) ->
  ends_in (line :: rest) T w.
Proof.
  intros He Hl Hr Hk. unfold ends_in. rewrite (run_script_step _ _ _ _ _ _ He Hl). cbv zeta.
  simpl sh_system. unfold sys_system. cbn [w_files w_sys set_out]. rewrite Hr. cbn [fst snd].
  destruct r as [|r]; simpl in Hk |- *; [by apply Hk|].
  eexists. split; [reflexivity|exact Hk].
Qed.

Variables (esc : gmap string string) (P F : string).
Hypothesis (He : _escaped settings = Ok esc).
Hypothesis (Hpid : esc !! "pid" = Some P) (Hpf : esc !! "pidfile" = Some F).
Hypothesis (HP : str_all qplain P = true) (HF : str_all qplain F = true).

Lemma format_sleep10 : py_format "sleep 10" esc = Ok "sleep 10".
Proof. unfold py_format. by apply fmt_go_text_only. Qed.

Ltac step fmt run :=
  eapply (ends_in_cons _ _ esc); [exact He|exact fmt|exact run|]; cbn [Nat.eqb].

(** The stop script, and the forced one after it, end normally in the
    state the stop machine computes. *)
Lemma run_stop_scripts (force : bool) w :
  ends_in (MAILPILE_STOP_SCRIPT ++ (if force then MAILPILE_FORCE_STOP_SCRIPT else []))
          ((if force then force_effect P F else stop_effect P F) (w_files w, w_sys w)) w.
Proof.
  destruct stop_scripts_tmpl as [-> ->].
  pose proof (run_kill_or_rm P F HP HF false (w_files w) (w_sys w)) as Hr.
  destruct force; cbn [app]; unfold force_effect, stop_effect; cbv beta iota;
    destruct (sys_procs (w_sys w) !! P) as [s|] eqn:Hs;
    step (format_kill_or_rm _ _ _ Hpid Hpf false) Hr; try done.
  all: intros w2 Hf2 Hy2.
  all: step format_sleep10 (run_sleep10 (w_files w2) (w_sys w2)); rewrite Hf2, Hy2; intros w3 Hf3 Hy3.
  all: rewrite <-Hf3, <-Hy3; pose proof (run_kill_or_rm P F HP HF true (w_files w3) (w_sys w3)) as Hr3.
  all: destruct (sys_procs (w_sys w3) !! P) as [s'|] eqn:Hs'.
  all: step (format_kill_or_rm _ _ _ Hpid Hpf true) Hr3; intros w4 Hf4 Hy4; cbn [app].
  3,4: apply ends_in_nil; congruence.
  all: step (format_kill_int_then_9 _ _ Hpid) (run_kill_int_then_9 P HP (w_files w4) (w_sys w4)).
  all: intros w5 Hf5 Hy5.
  all: step (format_rm_pidfile _ _ Hpf) (run_rm_pidfile F HF (w_files w5) (w_sys w5)); intros w6 Hf6 Hy6.
  all: apply ends_in_nil; congruence.
Qed.

End Run.

(** ** [stop_mailpile] without [--user] *)

Section StopMailpile.
Variables (reply : string * string) (usage_text : string).

(** [stop_mailpile] for the caller's own Mailpile is [get_user_settings],
    which reads and changes neither the files nor the processes, then the
    stop machine. *)
Lemma stop_mailpile_machine a us w w1 esc P F :
  a_user a = None -> get_user_settings a None None w = (Ok us, w1) ->
  pyval_truthy (us_pid us) = true -> _escaped (us_dict us) = Ok esc ->
  esc !! "pid" = Some P -> esc !! "pidfile" = Some F ->
  str_all qplain P = true -> str_all qplain F = true ->
  exists w', stop_mailpile (H := sys_shell reply) usage_text a w = (Ok tt, w') /\
    (w_files w', w_sys w') =
      (if a_force a then force_effect P F else stop_effect P F) (w_files w, w_sys w).
Proof.
  intros Hu Hus Hpid He Hp Hf HP HF.
  pose proof (get_user_settings_frame a None None (w_files w) (w_sys w) w (conj eq_refl eq_refl)) as Hfr.
  rewrite Hus in Hfr. destruct Hfr as [Hf1 Hy1]. cbn [snd] in Hf1, Hy1.
  destruct (run_stop_scripts reply (us_dict us) esc P F He Hp Hf HP HF (a_force a) w1)
    as [w' [Hrun Hw']].
  exists w'. split; [|by rewrite Hw', Hf1, Hy1].
  unfold stop_mailpile, bind at 1. rewrite Hu, Hus. cbn [truthy]. cbv beta iota zeta.
  by rewrite Hpid.
Qed.

(** C8: without [--force], stopping the caller's own Mailpile whose pid
    file exists ends normally in the state [stop_effect] computes, and
    leaves the pid file exactly when the process is still running
    afterwards; it waits at most ten seconds and
    changes no other file (the routing file included). *)
Theorem stop_keeps_pidfile_iff_running a us w w1 esc P F c :
  a_user a = None -> a_force a = false -> get_user_settings a None None w = (Ok us, w1) ->
  pyval_truthy (us_pid us) = true -> _escaped (us_dict us) = Ok esc ->
  esc !! "pid" = Some P -> esc !! "pidfile" = Some F ->
  str_all qplain P = true -> str_all qplain F = true -> w_files w !! F = Some c ->
  exists w', stop_mailpile (H := sys_shell reply) usage_text a w = (Ok tt, w') /\
    (w_files w', w_sys w') = stop_effect P F (w_files w, w_sys w) /\
    (is_Some (w_files w' !! F) <-> is_Some (sys_procs (w_sys w') !! P)) /\
    sys_clock (w_sys w') <= sys_clock (w_sys w) + 10 /\
    forall k, k <> F -> w_files w' !! k = w_files w !! k.
Proof.
  intros Hu Hfo Hus Hpid He Hp Hf HP HF Hc.
  destruct (stop_mailpile_machine a us w w1 esc P F Hu Hus Hpid He Hp Hf HP HF) as [w' [Hrun Hw']].
  rewrite Hfo in Hw'; cbv beta iota in Hw'. exists w'. split; [exact Hrun|].
  pose proof (stop_effect_iff P F (w_files w) (w_sys w) c Hc) as Hiff.
  destruct (stop_effect_frame P F (w_files w) (w_sys w)) as [Hcl Hk].
  rewrite <-Hw' in Hiff, Hcl, Hk. cbn [fst snd] in Hiff, Hcl, Hk. split_and!; assumption.
Qed.

(** C9: with [--force], stopping the caller's own Mailpile ends normally
    in the state [force_effect] computes, with neither the process nor
    the pid file, after at most thirty
    seconds, and changes no other file. *)
Theorem force_stop_clears a us w w1 esc P F :
  a_user a = None -> a_force a = true -> get_user_settings a None None w = (Ok us, w1) ->
  pyval_truthy (us_pid us) = true -> _escaped (us_dict us) = Ok esc ->
  esc !! "pid" = Some P -> esc !! "pidfile" = Some F ->
  str_all qplain P = true -> str_all qplain F = true ->
  exists w', stop_mailpile (H := sys_shell reply) usage_text a w = (Ok tt, w') /\
    (w_files w', w_sys w') = force_effect P F (w_files w, w_sys w) /\
    w_files w' !! F = None /\ sys_procs (w_sys w') !! P = None /\
    sys_clock (w_sys w') <= sys_clock (w_sys w) + 30 /\
    forall k, k <> F -> w_files w' !! k = w_files w !! k.
Proof.
  intros Hu Hfo Hus Hpid He Hp Hf HP HF.
  destruct (stop_mailpile_machine a us w w1 esc P F Hu Hus Hpid He Hp Hf HP HF) as [w' [Hrun Hw']].
  rewrite Hfo in Hw'; cbv beta iota in Hw'. exists w'. split; [exact Hrun|].
  pose proof (force_effect_spec P F (w_files w) (w_sys w)) as Hs.
  rewrite <-Hw' in Hs. cbn [fst snd] in Hs. split; [exact Hw'|exact Hs].
Qed.

(** C10: a stale pid file (its process is gone) makes the first line of
    the stop script remove it and fail: the stop ends normally, with
    or without [--force], but prints [==[ FAILED! Exit code: 256 ]==]
    after running that one command; the forced lines never run.  The
    specification does not say what a stop does when its signal finds no
    process. *)
Theorem stop_stale_pidfile a us w w1 esc P F :
  a_user a = None -> get_user_settings a None None w = (Ok us, w1) ->
  pyval_truthy (us_pid us) = true -> _escaped (us_dict us) = Ok esc ->
  esc !! "pid" = Some P -> esc !! "pidfile" = Some F ->
  str_all qplain P = true -> str_all qplain F = true -> sys_procs (w_sys w) !! P = None ->
  exists w', stop_mailpile (H := sys_shell reply) usage_text a w = (Ok tt, w') /\
    w_files w' = delete F (w_files w) /\ w_sys w' = w_sys w /\
    w_cmds w' = (w_cmds w1 ++ [kill_or_rm P F false])%list /\ last (w_out w') = Some (failed_line 256).
Proof.
  intros Hu Hus Hpid He Hp Hf HP HF Hs.
  pose proof (get_user_settings_frame a None None (w_files w) (w_sys w) w (conj eq_refl eq_refl)) as Hfr.
  rewrite Hus in Hfr. destruct Hfr as [Hf1 Hy1]. cbn [snd] in Hf1, Hy1.
  unfold stop_mailpile, bind at 1. rewrite Hu, Hus. cbn [truthy]. cbv beta iota zeta. rewrite Hpid.
  destruct stop_scripts_tmpl as [-> _]. cbn [app].
  rewrite (run_script_step _ _ _ esc (kill_or_rm P F false) _ He (format_kill_or_rm _ _ _ Hp Hf false)).
  cbv zeta. simpl sh_system. unfold sys_system. cbn [w_files w_sys set_out].
  rewrite (run_kill_or_rm P F HP HF false), Hy1, Hs, Hf1. cbn -[delete].
  eexists. split_and!; [reflexivity..|]. by rewrite w_out_set_out, last_snoc.
Qed.

End StopMailpile.

(** Root's pid file names process 1234, which ignores SIGTERM and exits
    five seconds after SIGINT. *)
Definition ex_stop_world : world :=
  {| w_files := <[pidfile_of "root" := "1234"]> (w_files ex_world); w_ps := w_ps ex_world;
     w_netstat := w_netstat ex_world; w_out := []; w_rand := w_rand ex_world; w_rand_next := 0;
     w_uid := 0%Z; w_passwd := [("root", 0%Z)]; w_hostname := "host"; w_cmds := [];
     w_realpath := fun p => p; w_file := w_file ex_world; w_argv0 := w_argv0 ex_world;
     w_sys := {| sys_procs := {["1234" := {| p_on_term := None; p_on_int := Some 5; p_exit_at := None |}]};
                 sys_clock := 0 |} |}.

Definition ex_stop_us : user_settings :=
  Eval vm_compute in
  match fst (get_user_settings ex_root_stop_args None None ex_stop_world) with
  | Ok us => us | Exc _ => ex_user_settings end.

Definition ex_stop_esc : gmap string string :=
  Eval vm_compute in match _escaped (us_dict ex_stop_us) with Ok e => e | Exc _ => ∅ end.

Definition ex_force_args : args :=
  {| a_list := false; a_start := false; a_stop := true; a_install_apache := false;
     a_force := true; a_password := None; a_user := None; a_port := None;
     a_host := "localhost"; a_discover := false; a_webroot := APACHE_DEFAULT_WEBROOT;
     a_mailpile_root := None; a_packager := None; a_apache_user := None;
     a_apache_group := None |}.


Lemma ex_stop_settings :
  get_user_settings ex_root_stop_args None None ex_stop_world =
  (Ok ex_stop_us, snd (get_user_settings ex_root_stop_args None None ex_stop_world)).
Proof. apply injective_projections; cbn [fst snd]; [vm_compute|]; reflexivity. Qed.

Lemma ex_force_settings :
  get_user_settings ex_force_args None None ex_stop_world =
  (Ok ex_stop_us, snd (get_user_settings ex_force_args None None ex_stop_world)).
Proof. apply injective_projections; cbn [fst snd]; [vm_compute|]; reflexivity. Qed.

Lemma stop_keeps_pidfile_iff_running_witness :
  exists w', stop_mailpile (H := sys_shell (EmptyString, EmptyString)) "usage" ex_root_stop_args ex_stop_world
               = (Ok tt, w') /\
    (w_files w', w_sys w') = stop_effect "1234" (pidfile_of "root") (w_files ex_stop_world, w_sys ex_stop_world) /\
    (is_Some (w_files w' !! pidfile_of "root") <-> is_Some (sys_procs (w_sys w') !! "1234")) /\
    sys_clock (w_sys w') <= sys_clock (w_sys ex_stop_world) + 10 /\
    forall k, k <> pidfile_of "root" -> w_files w' !! k = w_files ex_stop_world !! k.
Proof.
  apply (stop_keeps_pidfile_iff_running _ _ ex_root_stop_args ex_stop_us ex_stop_world _ ex_stop_esc
           "1234" (pidfile_of "root") "1234" eq_refl eq_refl ex_stop_settings);
    vm_compute; reflexivity.
Defined.

Lemma force_stop_clears_witness :
  exists w', stop_mailpile (H := sys_shell (EmptyString, EmptyString)) "usage" ex_force_args ex_stop_world
               = (Ok tt, w') /\
    (w_files w', w_sys w') = force_effect "1234" (pidfile_of "root") (w_files ex_stop_world, w_sys ex_stop_world) /\
    w_files w' !! pidfile_of "root" = None /\ sys_procs (w_sys w') !! "1234" = None /\
    sys_clock (w_sys w') <= sys_clock (w_sys ex_stop_world) + 30 /\
    forall k, k <> pidfile_of "root" -> w_files w' !! k = w_files ex_stop_world !! k.
Proof.
  apply (force_stop_clears _ _ ex_force_args ex_stop_us ex_stop_world _ ex_stop_esc
           "1234" (pidfile_of "root") eq_refl eq_refl ex_force_settings);
    vm_compute; reflexivity.
Defined.

(** A Mailpile that ignores SIGTERM survives root's plain [--stop]:
    after the ten seconds of the script it still runs and its pid file is
    kept. *)
Example stop_ignored_term_keeps_pidfile :
  let w' := snd (stop_mailpile (H := sys_shell (EmptyString, EmptyString)) "usage" ex_root_stop_args
                   ex_stop_world) in
  is_Some (w_files w' !! pidfile_of "root") /\ is_Some (sys_procs (w_sys w') !! "1234") /\
  sys_clock (w_sys w') = 10.
Proof. split_and!; vm_compute; try eexists; reflexivity. Qed.

(** Root's pid file is stale: no process 1234 runs. *)
Definition ex_stale_world : world := set_sys sys0 ex_stop_world.

Lemma ex_stale_settings :
  get_user_settings ex_root_stop_args None None ex_stale_world =
  (Ok ex_stop_us, snd (get_user_settings ex_root_stop_args None None ex_stale_world)).
Proof. apply injective_projections; cbn [fst snd]; [vm_compute|]; reflexivity. Qed.

Lemma stop_stale_pidfile_witness :
  exists w', stop_mailpile (H := sys_shell (EmptyString, EmptyString)) "usage" ex_root_stop_args ex_stale_world
               = (Ok tt, w') /\
    w_files w' = delete (pidfile_of "root") (w_files ex_stale_world) /\ w_sys w' = w_sys ex_stale_world /\
    w_cmds w' = (w_cmds (snd (get_user_settings ex_root_stop_args None None ex_stale_world)) ++
                 [kill_or_rm "1234" (pidfile_of "root") false])%list /\
    last (w_out w') = Some (failed_line 256).
Proof.
  apply (stop_stale_pidfile _ _ ex_root_stop_args ex_stop_us ex_stale_world _ ex_stop_esc
           "1234" (pidfile_of "root") eq_refl ex_stale_settings); vm_compute; reflexivity.
Defined.

Definition ex_stop_state : sh_state := (w_files ex_stop_world, w_sys ex_stop_world).

Lemma stops_keep_running_pidfile_witness :
  rtc (stop_step "1234" (pidfile_of "root")) ex_stop_state
      (force_effect "1234" (pidfile_of "root") (stop_effect "1234" (pidfile_of "root") ex_stop_state)) /\
  pidfile_inv "1234" (pidfile_of "root") ex_stop_state /\
  pidfile_inv "1234" (pidfile_of "root")
    (force_effect "1234" (pidfile_of "root") (stop_effect "1234" (pidfile_of "root") ex_stop_state)).
Proof.
  assert (Hr : rtc (stop_step "1234" (pidfile_of "root")) ex_stop_state
      (force_effect "1234" (pidfile_of "root") (stop_effect "1234" (pidfile_of "root") ex_stop_state)))
    by (eapply rtc_l; [apply SStop|apply rtc_once, SForce]).
  assert (H0 : pidfile_inv "1234" (pidfile_of "root") ex_stop_state)
    by (intros _; vm_compute; eexists; reflexivity).
  split_and!; [exact Hr|exact H0|exact (stops_keep_running_pidfile _ _ _ _ Hr H0)].
Defined.

(** ** What reaches the shell from the pid file *)

(** The lines of the stop scripts, formatted. *)
Lemma format_stop_scripts esc P F (force : bool) :
  esc !! "pid" = Some P -> esc !! "pidfile" = Some F ->
  format_all esc (MAILPILE_STOP_SCRIPT ++ (if force then MAILPILE_FORCE_STOP_SCRIPT else [])) =
  Ok (kill_or_rm P F false :: "sleep 10" :: kill_or_rm P F true ::
      (if force then [kill_int_then_9 P; rm_pidfile F] else [])).
Proof.
  intros Hp Hf. destruct stop_scripts_tmpl as [-> ->].
  assert (Hs : py_format "sleep 10" esc = Ok "sleep 10")
    by (unfold py_format; by apply fmt_go_text_only).
  pose proof (format_kill_or_rm _ _ _ Hp Hf false) as H0.
  pose proof (format_kill_or_rm _ _ _ Hp Hf true) as H1. cbv beta iota in H0, H1.
  destruct force; cbn [app format_all];
    rewrite H0, Hs, H1, ?(format_kill_int_then_9 _ _ Hp), ?(format_rm_pidfile _ _ Hf); reflexivity.
Qed.

Section Planted.
Context `{Shell}.
Variable usage_text : string.

(** C22: the pid is whatever the pid file holds, stripped, and is only
    JSON-escaped, which leaves [$], [(], [)], backquotes and [;] as they
    are: for every shell, a [--stop] of the caller's own Mailpile (with
    or without [--force]) ends normally after passing to [os.system] the
    line [kill "<content>" || (rm -f "<pidfile>"; false)] with the pid
    file's content, escaped, between the double quotes.  A content such
    as [$(reboot)] is there a command substitution of /bin/sh (the
    model of Sh.v does not expand it). *)
Theorem stop_runs_planted_pid (a : args) (us : user_settings) (w w1 : world)
    (esc : gmap string string) (content F : string) :
  a_user a = None -> get_user_settings a None None w = (Ok us, w1) ->
  w_files w1 !! us_pidfile us = Some content -> strip content <> "" ->
  str_all is_ascii7 (strip content) = true ->
  _escaped (us_dict us) = Ok esc -> esc !! "pidfile" = Some F ->
  exists w', stop_mailpile usage_text a w = (Ok tt, w') /\
    kill_or_rm (json_escape (strip content)) F false ∈ w_cmds w'.
Proof.
  intros Hu Hus Hc Hne Ha He Hf.
  pose proof (get_user_settings_pid _ _ _ _ _ _ Hus) as Hpid. rewrite Hc in Hpid.
  assert (Hp : esc !! "pid" = Some (json_escape (strip content))).
  { apply (escaped_lookup (us_dict us)); [done| |done]. unfold us_dict. rewrite Hpid.
    rewrite !lookup_insert_ne by done. rewrite lookup_singleton_eq. done. }
  destruct (run_script_prefix _ _ esc _ w1 He (format_stop_scripts _ _ _ (a_force a) Hp Hf))
    as (n & w' & Hrun & _ & Hcmds & Hend).
  exists w'. split.
  - unfold stop_mailpile, bind at 1. rewrite Hu, Hus. cbn [truthy]. cbv beta iota zeta.
    rewrite Hpid. cbn [pyval_truthy].
    destruct (String.eqb_spec (strip content) "") as [E|_]; [exact (False_rect _ (Hne E))|].
    exact Hrun.
  - rewrite Hcmds. apply elem_of_app. right.
    destruct n as [|n]; [destruct Hend as [[Hn _]|(rv & _ & Hn & _)]; [done|lia]|].
    simpl. apply elem_of_cons. by left.
Qed.

End Planted.

Definition ex_planted_us : user_settings :=
  Eval vm_compute in
  match fst (get_user_settings ex_root_stop_args None None ex_planted_world) with
  | Ok us => us | Exc _ => ex_user_settings
  end.
Definition ex_planted_esc : gmap string string :=
  Eval vm_compute in match _escaped (us_dict ex_planted_us) with Ok e => e | Exc _ => ∅ end.

Lemma stop_runs_planted_pid_witness :
  exists w', stop_mailpile (H := ex_fail_shell) "usage" ex_root_stop_args ex_planted_world = (Ok tt, w') /\
    kill_or_rm (json_escape (strip "$(reboot)")) (pidfile_of "root") false ∈ w_cmds w'.
Proof.
  apply (stop_runs_planted_pid (H := ex_fail_shell) "usage" ex_root_stop_args ex_planted_us
           ex_planted_world (snd (get_user_settings ex_root_stop_args None None ex_planted_world))
           ex_planted_esc "$(reboot)" (pidfile_of "root")).
  - reflexivity.
  - apply injective_projections; cbn [fst snd]; [vm_compute|]; reflexivity.
  - vm_compute. reflexivity.
  - vm_compute. discriminate.
  - vm_compute. reflexivity.
  - vm_compute. reflexivity.
  - vm_compute. reflexivity.
Defined.
