(* ===== verification/Concurrency.v ===== *)
(** * Concurrent invocations of the script

    The specification makes the .htaccess the only resource shared by
    concurrent invocations (for instance two CGI requests) and documents
    that nothing serialises them: the last writer wins and a race can drop
    a record another invocation just added.  This file models invocations
    as processes made of atomic steps over the shared world, an
    interleaving as a schedule of process indices, and [start_mailpile]
    (lines 351-375 of mailpile-admin.py) as a process of two steps: the
    read of the routes ([get_os_settings] and [parse_htaccess]), then the
    rest, which saves the routes it read plus its own record.  Running the
    two steps one after the other is [start_mailpile] itself; two starts
    whose steps interleave lose the first one's record.

    [save_htaccess] (lines 270-287) is also modelled at the granularity
    of its system calls, as the process [save_proc] of three steps (write
    [.htaccess.new], remove the .htaccess, rename): alone it is
    [save_htaccess]; two of them interleaved share the one temporary
    name, so one can raise [OSError] while the other installs the
    first's rules; and alone it passes, between its [os.remove] and its
    [os.rename], through a state without routing file.  Inside
    [start_proc] the save stays one step. *)

From Stdlib Require Import String ZArith Lia.
From stdpp Require Import base list gmap strings relations.
From S2P Require Import Prelude PyStr Escape Regex World Registry Htaccess Ports Shell Lifecycle.
Open Scope string_scope.
Open Scope py_scope.

(** ** Processes and schedules *)

(** A process has finished with a result or waits to run its next atomic
    step on the shared world. *)
Inductive proc : Type :=
| PDone (r : res unit)
| PStep (k : world -> proc * world).

Definition proc_done (p : proc) : bool := match p with PDone _ => true | PStep _ => false end.
Definition proc_result (p : proc) : option (res unit) :=
  match p with PDone r => Some r | PStep _ => None end.

(** One atomic step of process [i]; a finished process does not move. *)
Definition step_at (i : nat) (ps : list proc) (w : world) : list proc * world :=
  match ps !! i with
  | Some (PStep k) => let '(p', w') := k w in (<[i := p']> ps, w')
  | _ => (ps, w)
  end.

(** The world after the steps of a schedule, in order. *)
Fixpoint run_schedule (sched : list nat) (ps : list proc) (w : world) : list proc * world :=
  match sched with
  | [] => (ps, w)
  | i :: s => let '(ps', w') := step_at i ps w in run_schedule s ps' w'
  end.

(** The interleaving semantics: any waiting process may take its step. *)
Inductive cstep : list proc * world -> list proc * world -> Prop :=
| cstep_at i ps w k : ps !! i = Some (PStep k) -> cstep (ps, w) (step_at i ps w).

(** A process that finishes in at most [n] steps, whatever the world. *)
Inductive within : nat -> proc -> Prop :=
| within_done n r : within n (PDone r)
| within_step n k : (forall w, within n (k w).1) -> within (S n) (PStep k).

(** ** [start_mailpile] as a process *)

Section Start.
Context `{Shell}.

(** The read: [os_settings = get_os_settings(args)] and
    [mailpiles = parse_htaccess(args, os_settings)] (lines 352-353). *)
Definition start_read (a : args) : Py (gmap string string * mailpiles) :=
  os_settings <- get_os_settings a ;;
  mailpiles <- parse_htaccess ∅ ;;
  ret (os_settings, mailpiles).

(** The rest of [start_mailpile] (lines 354-375) on what the read gave. *)
Definition start_rest (a : args) (st : gmap string string * mailpiles) : Py unit :=
  let '(os_settings, mailpiles) := st in
  us <- get_user_settings a (a_user a) (Some mailpiles) ;;
  py_assert (re_ok port_re (us_port us)) ;;
  py_assert (re_ok host_re (us_host us)) ;;
  script <- (if truthy (a_user a) then
               admin <- lift_res (getitem os_settings "mailpile-admin") ;;
               ma <- lift_res (_escape admin) ;;
               p <- lift_res (_escape (us_port us)) ;;
               h <- lift_res (_escape (us_host us)) ;;
               let command := start_command ma p h in
               if truthy (a_password a) then
                 out <- run_as_user (default "" (a_user a)) (default "" (a_password a)) command ;;
                 py_print (out.1 ++ out.2) ;;
                 ret None
               else ret (Some [sudo_line command])
             else ret (Some MAILPILE_START_SCRIPT)) ;;
  match script with
  | Some ((_ :: _) as l) => run_script (us_dict us) l
  | _ => ret tt
  end ;;
  if truthy (a_user a) then
    let hostport := us_host us ++ ":" ++ us_port us in
    os' <- save_htaccess os_settings (<[hostport := started_record us]> mailpiles) ;;
    run_script (PStr <$> os') FIX_PERMS_SCRIPT
  else ret tt.

Definition start_proc (a : args) : proc :=
  PStep (fun w =>
    match start_read a w with
    | (Ok st, w1) => (PStep (fun w2 => let '(r, w3) := start_rest a st w2 in (PDone r, w3)), w1)
    | (Exc e, w1) => (PDone (Exc e), w1)
    end).

End Start.

(** What [save_htaccess] leaves as the routing file. *)
Definition saved_text (wr : string) (m : mailpiles) : string :=
  htaccess_text (String.concat nl (map rule_of (first_per_user (map_to_list m)))) wr.

(** ** Properties *)

Lemma step_at_cons_S i q ps w :
  step_at (S i) (q :: ps) w = let '(ps', w') := step_at i ps w in (q :: ps', w').
Proof. unfold step_at. simpl. destruct (ps !! i) as [[r|k]|]; [done| |done]. by destruct (k w). Qed.

Lemma cstep_cons_gen q c c' : cstep c c' -> cstep (q :: c.1, c.2) (q :: c'.1, c'.2).
Proof.
  destruct 1 as [i ps w k Hi]. pose proof (step_at_cons_S i q ps w) as Hs.
  destruct (step_at i ps w) as [ps' w'] eqn:E. simpl. rewrite <-Hs. by apply (cstep_at _ _ _ k).
Qed.

Lemma cstep_cons q ps w ps' w' : cstep (ps, w) (ps', w') -> cstep (q :: ps, w) (q :: ps', w').
Proof. apply (cstep_cons_gen q (ps, w) (ps', w')). Qed.

Lemma rtc_cstep_cons q ps w ps' w' :
  rtc cstep (ps, w) (ps', w') -> rtc cstep (q :: ps, w) (q :: ps', w').
Proof.
  intros Hr. remember (ps, w) as c eqn:Ec. remember (ps', w') as c' eqn:Ec'.
  revert ps w Ec. induction Hr as [c|c [ps1 w1] c2 Hs _ IH]; intros ps w ->; [by simplify_eq|].
  eapply rtc_l; [by apply cstep_cons|]. by apply IH.
Qed.

(** The head process runs to its end. *)
Lemma run_head n p ps w :
  within n p -> exists p' w', rtc cstep (p :: ps, w) (p' :: ps, w') /\ proc_done p' = true.
Proof.
  intros Hp. revert w. induction Hp as [n r|n k Hk IH]; intros w; [by exists (PDone r), w|].
  destruct (IH w (k w).2) as (p' & w' & Hr & Hd). exists p', w'. split; [|done].
  eapply rtc_l; [|exact Hr].
  assert (E : step_at 0 (PStep k :: ps) w = ((k w).1 :: ps, (k w).2))
    by (unfold step_at; simpl; by destruct (k w)).
  rewrite <-E. by apply (cstep_at _ _ _ k).
Qed.

Lemma run_all n ps w :
  Forall (within n) ps ->
  exists ps' w', rtc cstep (ps, w) (ps', w') /\ Forall (fun p => proc_done p = true) ps'.
Proof.
  intros Hall. revert w. induction Hall as [|p ps Hp _ IH]; intros w; [by exists [], w|].
  destruct (run_head n p ps w Hp) as (p' & w1 & Hr1 & Hd).
  destruct (IH w1) as (ps' & w2 & Hr2 & Hd2). exists (p' :: ps'), w2. split; [|by constructor].
  etrans; [exact Hr1|]. by apply rtc_cstep_cons.
Qed.

(** Each step of a bounded process uses up one of its steps. *)
Lemma sum_list_insert_pred (ns : list nat) i m :
  ns !! i = Some (S m) -> sum_list (<[i := m]> ns) < sum_list ns.
Proof.
  revert i. induction ns as [|n ns IH]; intros [|i] Hi; simpl in *; [done|done| |].
  - injection Hi as ->. lia.
  - specialize (IH i Hi). lia.
Qed.

Lemma cstep_pot ns c c' :
  cstep c c' -> Forall2 within ns c.1 ->
  exists ns', Forall2 within ns' c'.1 /\ sum_list ns' < sum_list ns.
Proof.
  destruct 1 as [i ps w k Hi]. simpl. intros Hf.
  destruct (Forall2_lookup_r _ _ _ _ _ Hf Hi) as (n & Hn & Hw).
  inversion Hw as [|m ? Hk]; subst.
  unfold step_at. rewrite Hi. destruct (k w) as [p' w1] eqn:Ek. simpl.
  exists (<[i := m]> ns). split; [|by apply sum_list_insert_pred].
  apply Forall2_insert; [done|]. specialize (Hk w). by rewrite Ek in Hk.
Qed.

Lemma nsteps_pot n ns ps w c :
  Forall2 within ns ps -> nsteps cstep n (ps, w) c -> n <= sum_list ns.
Proof.
  intros Hf Hn. remember (ps, w) as c0 eqn:E. revert ns ps w Hf E.
  induction Hn as [c0|n c0 [ps1 w1] c2 Hs _ IH]; intros ns ps w Hf ->; [lia|].
  destruct (cstep_pot _ _ _ Hs Hf) as (ns' & Hf' & Hlt).
  specialize (IH ns' ps1 w1 Hf' eq_refl). lia.
Qed.

Section StartProc.
Context `{Shell}.

Lemma start_mailpile_split a w :
  start_mailpile a w =
  match start_read a w with
  | (Ok st, w1) => start_rest a st w1
  | (Exc e, w1) => (Exc e, w1)
  end.
Proof.
  unfold start_mailpile, start_read.
  rewrite !(bind_Ok (get_os_settings a) _ w (os_settings_of a w) w eq_refl).
  destruct (parse_htaccess ∅ w) as [[m|e] w1] eqn:E.
  - rewrite !(bind_Ok _ _ _ _ _ E). reflexivity.
  - rewrite !(bind_Exc _ _ _ _ _ E). reflexivity.
Qed.

(** A start running alone, its two steps one after the other, is
    [start_mailpile]: the same result and the same world.  The process
    model of a start is a refinement of the sequential code. *)
Theorem start_proc_sequential (a : args) (w : world) :
  run_schedule [0; 0] [start_proc a] w = ([PDone (start_mailpile a w).1], (start_mailpile a w).2).
Proof.
  rewrite start_mailpile_split. unfold run_schedule, step_at, start_proc. simpl.
  destruct (start_read a w) as [[st|e] w1]; [|done]. simpl.
  by destruct (start_rest a st w1).
Qed.

Lemma start_proc_within a : within 2 (start_proc a).
Proof.
  constructor. intros w. simpl. destruct (start_read a w) as [[st|e] w1]; [|constructor].
  constructor. intros w2. simpl. destruct (start_rest a st w2). constructor.
Qed.

(** Concurrent starts cannot block each other: from any world, the
    processes of any number of starts can all run to their end, and no
    interleaving of their steps is longer than two steps per start. *)
Theorem concurrent_starts_complete (l : list args) (w : world) :
  (exists ps' w', rtc cstep (start_proc <$> l, w) (ps', w') /\
                  Forall (fun p => proc_done p = true) ps') /\
  (forall n c, nsteps cstep n (start_proc <$> l, w) c -> n <= 2 * length l).
Proof.
  assert (Hf : Forall2 within (replicate (length l) 2) (start_proc <$> l)).
  { induction l as [|a l IH]; constructor; [apply start_proc_within|exact IH]. }
  split.
  - apply (run_all 2). apply Forall_fmap, Forall_forall. intros a _. apply start_proc_within.
  - intros n c Hn. pose proof (nsteps_pot _ _ _ _ _ Hf Hn) as Hle.
    rewrite sum_list_replicate in Hle. lia.
Qed.

End StartProc.

(** The .htaccess [save_htaccess] leaves is a function of the registry
    it is given and the web root only: whatever file it replaces, it is
    [saved_text] of the two.  A writer that read the routes before another
    process saved its own therefore erases that process's record: the
    last writer wins, as the specification documents. *)
Theorem save_htaccess_last_writer_wins (os : gmap string string) (m : mailpiles)
    (w1 w2 : world) (wr old1 old2 : string) :
  Forall (fun e => str_all is_ascii7 (mp_user e.2) = true) (map_to_list m) ->
  os !! "webroot" = Some wr ->
  w_files w1 !! APACHE_HTACCESS_PATH = Some old1 -> w_files w2 !! APACHE_HTACCESS_PATH = Some old2 ->
  w_files (snd (save_htaccess os m w1)) !! APACHE_HTACCESS_PATH = Some (saved_text wr m) /\
  w_files (snd (save_htaccess os m w2)) !! APACHE_HTACCESS_PATH = Some (saved_text wr m).
Proof.
  intros Hm Hw H1 H2. unfold save_htaccess.
  rewrite (save_htaccess_in_order_run _ _ w1 wr old1), (save_htaccess_in_order_run _ _ w2 wr old2)
    by done.
  simpl. by rewrite !lookup_insert_eq.
Qed.

Lemma save_htaccess_last_writer_wins_witness :
  (Forall (fun e => str_all is_ascii7 (mp_user e.2) = true) (map_to_list (routes_of ex_world)) /\
   ({[ "webroot" := "/mailpile/" ]} : gmap string string) !! "webroot" = Some "/mailpile/" /\
   w_files ex_world !! APACHE_HTACCESS_PATH =
     Some (default "" (w_files ex_world !! APACHE_HTACCESS_PATH)) /\
   w_files (set_files {[ APACHE_HTACCESS_PATH := "" ]} ex_world) !! APACHE_HTACCESS_PATH = Some "") /\
  w_files (snd (save_htaccess {[ "webroot" := "/mailpile/" ]} (routes_of ex_world) ex_world))
    !! APACHE_HTACCESS_PATH = Some (saved_text "/mailpile/" (routes_of ex_world)) /\
  w_files (snd (save_htaccess {[ "webroot" := "/mailpile/" ]} (routes_of ex_world)
                 (set_files {[ APACHE_HTACCESS_PATH := "" ]} ex_world))) !! APACHE_HTACCESS_PATH =
    Some (saved_text "/mailpile/" (routes_of ex_world)).
Proof.
  assert (Ha : Forall (fun e => str_all is_ascii7 (mp_user e.2) = true) (map_to_list (routes_of ex_world)))
    by (vm_compute; repeat constructor).
  split; [split_and!; [exact Ha|reflexivity|reflexivity|reflexivity]|].
  apply (save_htaccess_last_writer_wins _ _ _ _ "/mailpile/"
           (default "" (w_files ex_world !! APACHE_HTACCESS_PATH)) "" Ha);
    [reflexivity|reflexivity|reflexivity].
Defined.

(** [--start --user carol --port 33413], beside [ex_start_args] (bob). *)
Definition ex_carol_args : args :=
  {| a_list := false; a_start := true; a_stop := false; a_install_apache := false;
     a_force := false; a_password := None; a_user := Some "carol"; a_port := Some "33413";
     a_host := "localhost"; a_discover := false; a_webroot := APACHE_DEFAULT_WEBROOT;
     a_mailpile_root := None; a_packager := None; a_apache_user := None;
     a_apache_group := None |}.

Definition ex_two_starts : list proc :=
  [start_proc (H := ex_fail_shell) ex_start_args; start_proc (H := ex_fail_shell) ex_carol_args].

(** Two starts, for bob and for carol, both complete; run one after
    the other they leave routes for both, but when carol's read comes
    before bob's save (schedule bob-read, carol-read, bob-rest,
    carol-rest) the .htaccess ends without bob's route: carol's save
    rewrote the file from the routes it read before bob's save. *)
Example concurrent_starts_lose_update :
  let race := run_schedule [0; 1; 0; 1] ex_two_starts ex_world in
  let serial := run_schedule [0; 0; 1; 1] ex_two_starts ex_world in
  (proc_result <$> race.1) = [Some (Ok tt); Some (Ok tt)] /\
  (proc_result <$> serial.1) = [Some (Ok tt); Some (Ok tt)] /\
  routes_of race.2 !! "127.0.0.1:33412" = None /\ is_Some (routes_of race.2 !! "127.0.0.1:33413") /\
  is_Some (routes_of serial.2 !! "127.0.0.1:33412") /\ is_Some (routes_of serial.2 !! "127.0.0.1:33413").
Proof. cbv zeta. vm_decide. Qed.

(** ** [save_htaccess] at the granularity of its system calls

    [save_htaccess] (lines 270-287) makes three changes to the shared
    file system: it writes [.htaccess.new] (after the loop, which only
    prints), removes the .htaccess, and renames the new file over it.
    As a process it is those three atomic steps. *)

(** A step running [m], then the process [k] on its result; an exception
    ends the process. *)
Definition then_step {A} (m : Py A) (k : A -> proc) : proc :=
  PStep (fun w => match m w with
                  | (Ok a, w1) => (k a, w1)
                  | (Exc e, w1) => (PDone (Exc e), w1)
                  end).

(** The last step: the process ends with the result of [m]. *)
Definition last_step (m : Py unit) : proc :=
  PStep (fun w => let '(r, w1) := m w in (PDone r, w1)).

(** Lines 270-285: the rules, then [.htaccess.new]. *)
Definition save_write (os_settings : gmap string string) (m : mailpiles) : Py (gmap string string) :=
  acc <- save_rules (map_to_list m) ;;
  write_htaccess_new os_settings (fst acc).

(** Lines 286-287 as two more steps. *)
Definition save_proc (os_settings : gmap string string) (m : mailpiles) : proc :=
  then_step (save_write os_settings m) (fun _ =>
  then_step (os_remove APACHE_HTACCESS_PATH) (fun _ =>
  last_step (os_rename HTACCESS_NEW APACHE_HTACCESS_PATH))).

(** The result of a [Py] action without its value. *)
Definition res_unit {A} (r : res A) : res unit :=
  match r with Ok _ => Ok tt | Exc e => Exc e end.

Lemma run_schedule_cons i s ps w :
  run_schedule (i :: s) ps w = run_schedule s (step_at i ps w).1 (step_at i ps w).2.
Proof. simpl. by destruct (step_at i ps w). Qed.

Lemma save_write_run os m wr w :
  Forall (fun e => str_all is_ascii7 (mp_user e.2) = true) (map_to_list m) ->
  os !! "webroot" = Some wr ->
  exists os' w1, save_write os m w = (Ok os', w1) /\
    w_files w1 = <[HTACCESS_NEW := saved_text wr m]> (w_files w).
Proof.
  intros Hall Hw. unfold save_write, bind at 1. rewrite save_rules_run by done. simpl fst.
  rewrite (write_htaccess_new_run _ _ wr) by done. by eexists _, _.
Qed.

Lemma run_then_alone {A} (m : Py A) k s w :
  run_schedule (0 :: s) [then_step m k] w =
  match m w with
  | (Ok a, w1) => run_schedule s [k a] w1
  | (Exc e, w1) => run_schedule s [PDone (Exc e)] w1
  end.
Proof. unfold run_schedule at 1, step_at, then_step. simpl. by destruct (m w) as [[a|e] w1]. Qed.

Lemma run_last_alone m s w :
  run_schedule (0 :: s) [last_step m] w = run_schedule s [PDone (m w).1] (m w).2.
Proof. unfold run_schedule at 1, step_at, last_step. simpl. by destruct (m w). Qed.

Lemma run_done_alone r s w : run_schedule s [PDone r] w = ([PDone r], w).
Proof. revert w. induction s as [|i s IH]; intros w; [done|]. simpl. destruct i; apply IH. Qed.

(** The three steps of a save run alone are [save_htaccess]: the same
    outcome and the same world, whatever the registry and the world. *)
Theorem save_proc_sequential (os : gmap string string) (m : mailpiles) (w : world) :
  run_schedule [0; 0; 0] [save_proc os m] w =
  ([PDone (res_unit (save_htaccess os m w).1)], (save_htaccess os m w).2).
Proof.
  unfold save_htaccess, save_htaccess_in_order, save_proc. rewrite run_then_alone.
  unfold save_write, bind, ret.
  destruct (save_rules _ w) as [[acc|e] w1]; [|by rewrite run_done_alone].
  destruct (write_htaccess_new os acc.1 w1) as [[os'|e] w2]; [|by rewrite run_done_alone].
  rewrite run_then_alone. destruct (os_remove _ w2) as [[[]|e] w3]; [|by rewrite run_done_alone].
  rewrite run_last_alone. destruct (os_rename _ _ w3) as [[[]|e] w4]; by rewrite run_done_alone.
Qed.

Lemma os_remove_some p w c :
  w_files w !! p = Some c -> os_remove p w = (Ok tt, set_files (delete p (w_files w)) w).
Proof. intros Hp. unfold os_remove. by rewrite Hp. Qed.

Lemma os_remove_none p w : w_files w !! p = None -> os_remove p w = (Exc OSError, w).
Proof. intros Hp. unfold os_remove. by rewrite Hp. Qed.

Lemma os_rename_some p q w c :
  w_files w !! p = Some c -> os_rename p q w = (Ok tt, set_files (<[q := c]> (delete p (w_files w))) w).
Proof. intros Hp. unfold os_rename. by rewrite Hp. Qed.

(** C19: the replacement is not atomic.  The save, cut at its system
    calls, is [save_htaccess] when it runs alone; after its second step,
    [os.remove], and before its third, [os.rename], there is no routing
    file at all: a reader (Apache) at that moment, or a crash there, sees
    none, and the new rules exist only in [.htaccess.new].  The
    specification requires write-then-rename. *)
Theorem save_htaccess_window (os : gmap string string) (m : mailpiles) (w : world) (wr old : string) :
  Forall (fun e => str_all is_ascii7 (mp_user e.2) = true) (map_to_list m) ->
  os !! "webroot" = Some wr -> w_files w !! APACHE_HTACCESS_PATH = Some old ->
  run_schedule [0; 0; 0] [save_proc os m] w =
    ([PDone (res_unit (save_htaccess os m w).1)], (save_htaccess os m w).2) /\
  let mid := (run_schedule [0; 0] [save_proc os m] w).2 in
  w_files mid !! APACHE_HTACCESS_PATH = None /\ w_files mid !! HTACCESS_NEW = Some (saved_text wr m).
Proof.
  intros Hall Hw Hold. split; [apply save_proc_sequential|].
  destruct (save_write_run os m wr w Hall Hw) as (os' & w1 & Hs & Hf).
  unfold save_proc. rewrite run_then_alone, Hs, run_then_alone.
  rewrite (os_remove_some _ _ old) by (rewrite Hf, lookup_insert_ne by auto with mailpile; exact Hold).
  cbn [run_schedule snd w_files set_files].
  by rewrite lookup_delete_eq, lookup_delete_ne, Hf, lookup_insert_eq by auto with mailpile.
Qed.

Lemma step_then {A} i ps w (m : Py A) k :
  ps !! i = Some (then_step m k) ->
  step_at i ps w = match m w with
                   | (Ok a, w1) => (<[i := k a]> ps, w1)
                   | (Exc e, w1) => (<[i := PDone (Exc e)]> ps, w1)
                   end.
Proof. intros Hi. unfold step_at. rewrite Hi. simpl. by destruct (m w) as [[a|e] w1]. Qed.

Lemma step_last i ps w m :
  ps !! i = Some (last_step m) -> step_at i ps w = (<[i := PDone (m w).1]> ps, (m w).2).
Proof. intros Hi. unfold step_at. rewrite Hi. simpl. by destruct (m w). Qed.

(** C12: two saves that interleave at the level of their system calls
    (write A, write B, remove A, remove B, rename A) go wrong in both
    directions: the second [os.remove] finds no file and B raises
    [OSError], while A returns normally after renaming B's
    [.htaccess.new] over the routing file, so the routes in force are B's
    and A's are lost although A succeeded and B failed. *)
Theorem concurrent_saves_cross (os : gmap string string) (mA mB : mailpiles) (w : world)
    (wr old : string) :
  Forall (fun e => str_all is_ascii7 (mp_user e.2) = true) (map_to_list mA) ->
  Forall (fun e => str_all is_ascii7 (mp_user e.2) = true) (map_to_list mB) ->
  os !! "webroot" = Some wr -> w_files w !! APACHE_HTACCESS_PATH = Some old ->
  let r := run_schedule [0; 1; 0; 1; 0] [save_proc os mA; save_proc os mB] w in
  (proc_result <$> r.1) = [Some (Ok tt); Some (Exc OSError)] /\
  w_files r.2 !! APACHE_HTACCESS_PATH = Some (saved_text wr mB) /\
  w_files r.2 !! HTACCESS_NEW = None.
Proof.
  intros HA HB Hw Hold r. unfold r.
  destruct (save_write_run os mA wr w HA Hw) as (oA & w1 & EA & FA).
  destruct (save_write_run os mB wr w1 HB Hw) as (oB & w2 & EB & FB).
  rewrite run_schedule_cons. erewrite step_then by reflexivity. rewrite EA. cbn [fst snd].
  rewrite run_schedule_cons. erewrite step_then by reflexivity. rewrite EB. cbn [fst snd].
  rewrite run_schedule_cons. erewrite step_then by reflexivity.
  rewrite (os_remove_some _ _ old) by (rewrite FB, FA, !lookup_insert_ne by auto with mailpile; done).
  cbn [fst snd].
  rewrite run_schedule_cons. erewrite step_then by reflexivity.
  rewrite os_remove_none by apply lookup_delete_eq. cbn [fst snd].
  rewrite run_schedule_cons. erewrite step_last by reflexivity.
  rewrite (os_rename_some _ _ _ (saved_text wr mB))
    by (cbn [w_files set_files]; rewrite lookup_delete_ne, FB, lookup_insert_eq by auto with mailpile; done).
  cbn [run_schedule fst snd w_files set_files]. split_and!; [reflexivity|by rewrite lookup_insert_eq|].
  rewrite lookup_insert_ne by auto with mailpile. apply lookup_delete_eq.
Qed.

Lemma concurrent_saves_cross_witness :
  let r := run_schedule [0; 1; 0; 1; 0]
             [save_proc {[ "webroot" := "/mailpile/" ]} (routes_of ex_world);
              save_proc {[ "webroot" := "/mailpile/" ]} ∅] ex_world in
  (proc_result <$> r.1) = [Some (Ok tt); Some (Exc OSError)] /\
  w_files r.2 !! APACHE_HTACCESS_PATH = Some (saved_text "/mailpile/" ∅) /\
  w_files r.2 !! HTACCESS_NEW = None.
Proof.
  apply (concurrent_saves_cross _ _ _ _ "/mailpile/" (default "" (w_files ex_world !! APACHE_HTACCESS_PATH)));
    [vm_compute; repeat constructor|vm_compute; constructor|reflexivity|reflexivity].
Defined.

Lemma save_htaccess_window_witness :
  Forall (fun e => str_all is_ascii7 (mp_user e.2) = true) (map_to_list (routes_of ex_world)) /\
  run_schedule [0; 0; 0] [save_proc {[ "webroot" := "/mailpile/" ]} (routes_of ex_world)] ex_world =
    ([PDone (res_unit (save_htaccess {[ "webroot" := "/mailpile/" ]} (routes_of ex_world) ex_world).1)],
     (save_htaccess {[ "webroot" := "/mailpile/" ]} (routes_of ex_world) ex_world).2) /\
  let mid := (run_schedule [0; 0] [save_proc {[ "webroot" := "/mailpile/" ]} (routes_of ex_world)]
                ex_world).2 in
  w_files mid !! APACHE_HTACCESS_PATH = None /\
  w_files mid !! HTACCESS_NEW = Some (saved_text "/mailpile/" (routes_of ex_world)).
Proof.
  assert (H : Forall (fun e => str_all is_ascii7 (mp_user e.2) = true) (map_to_list (routes_of ex_world)))
    by (vm_compute; repeat constructor).
  split; [exact H|].
  exact (save_htaccess_window {[ "webroot" := "/mailpile/" ]} (routes_of ex_world) ex_world "/mailpile/"
           (default "" (w_files ex_world !! APACHE_HTACCESS_PATH)) H eq_refl eq_refl).
Defined.
