(* ===== verification/Cli.v ===== *)
(** * The entry points: [main], [handle_cgi_post] and the script's start

    Models lines 411-459 of mailpile-admin.py.  [main] parses its command
    line with [parse_args_py] (Argparse.v) and dispatches on the action;
    the CGI handler receives the fields of the posted form (what
    [cgi.FieldStorage] parsed) and parses [['--start', '--user',
    username, '--password', password]] the same way, so a password that
    argparse reads as an option makes it exit with status 2 after the
    redirect headers were printed. *)

From Stdlib Require Import String Ascii ZArith Lia.
From stdpp Require Import base list gmap strings.
From S2P Require Import Prelude PyStr Escape Regex World Registry Htaccess Ports Shell Lifecycle Report Argparse.
Open Scope string_scope.
Open Scope py_scope.

Section Entry.
Context `{Shell}.
Variable usage_text help_text : string.

(** [main()] (lines 411-424): parse [sys.argv[1:]], then dispatch. *)
Definition main (argv : list string) : Py unit :=
  a <- parse_args_py help_text argv ;;
  if a_list a then list_mailpiles a
  else if a_install_apache a then install_apache usage_text a
  else if a_start a then start_mailpile a
  else if a_stop a then stop_mailpile usage_text a
  else ret tt.

(** [request.getfirst(name)]: the first value of the field, or [None]. *)
Definition getfirst (form : list (string * string)) (name : string) : option string :=
  snd <$> List.find (fun f => String.eqb (fst f) name) form.

(** [pwd.getpwnam(name)]: [KeyError] for an unknown account. *)
Definition getpwnam (name : string) : Py Z :=
  fun w => match List.find (fun e => String.eqb (fst e) name) (w_passwd w) with
           | Some e => (Ok (snd e), w)
           | None => (Exc KeyError, w)
           end.

(** The arguments [handle_cgi_post] starts the user's Mailpile with. *)
Definition cgi_start_args (u p : string) : args :=
  {| a_list := false; a_start := true; a_stop := false; a_install_apache := false;
     a_force := false; a_password := Some p; a_user := Some u; a_port := None;
     a_host := "localhost"; a_discover := false; a_webroot := APACHE_DEFAULT_WEBROOT;
     a_mailpile_root := None; a_packager := None; a_apache_user := None;
     a_apache_group := None |}.

(** The command line of [app_args.parse_args([...])] (lines 444-445). *)
Definition cgi_argv (u p : string) : list string := ["--start"; "--user"; u; "--password"; p].

Definition cgi_redirect (u : string) : list string :=
  ["Location: /mailpile/" ++ u ++ "/"; "Expires: 0"; ""].
Definition cgi_error : list string := ["Location: /mailpile/?error=yes"; "Expires: 0"; ""].

Definition cgi_error_headers : Py unit :=
  py_print "Location: /mailpile/?error=yes" ;; py_print "Expires: 0" ;; py_print "".

(** [handle_cgi_post()] (lines 427-451): the bare [except:] catches every
    exception, [SystemExit] included; [time.sleep(5)] changes nothing the
    model observes. *)
Definition handle_cgi_post (form : list (string * string)) : Py unit :=
  try_except
    (let username := getfirst form "username" in
     let password := getfirst form "password" in
     py_assert (truthy username && truthy password) ;;
     getpwnam (default "" username) ;;
     py_print ("Location: /mailpile/" ++ default "" username ++ "/") ;;
     py_print "Expires: 0" ;;
     py_print "" ;;
     a <- parse_args_py help_text (cgi_argv (default "" username) (default "" password)) ;;
     start_mailpile a)
    (fun _ => cgi_error_headers).

(** [if __name__ == "__main__":] (lines 454-459). *)
Definition script_entry (request_method : option string) (argc : nat)
    (form : list (string * string)) (argv : list string) : Py unit :=
  if bool_decide (request_method = Some "POST") then
    py_assert (Nat.eqb argc 1) ;; handle_cgi_post form
  else main argv.

(** ** Properties *)

Lemma out_mono_getpwnam u : out_mono (getpwnam u).
Proof. unfold getpwnam. keeps_out. Qed.
#[local] Hint Resolve out_mono_getpwnam : outmono.

Lemma out_mono_handle_cgi_post form : out_mono (handle_cgi_post form).
Proof. unfold handle_cgi_post, cgi_error_headers. out_mono_tac. Qed.
#[local] Hint Resolve out_mono_handle_cgi_post : outmono.

(** A user name and a password that do not start with a dash parse to
    [cgi_start_args]. *)
Lemma parse_cgi (u p : string) :
  startswith u "-" = false -> startswith p "-" = false ->
  parse_args (cgi_argv u p) = PArgs (cgi_start_args u p).
Proof.
  intros Hu Hp.
  change (cgi_argv u p) with (concat (map render [IFlag OStart; IVal OUser u; IVal OPassword p])).
  rewrite parse_args_items.
  - reflexivity.
  - repeat constructor; cbn [item_ok takes_value andb negb]; by rewrite ?Hu, ?Hp.
Qed.

Lemma parse_cgi_py (u p : string) :
  startswith u "-" = false -> startswith p "-" = false ->
  parse_args_py help_text (cgi_argv u p) = ret (cgi_start_args u p).
Proof. intros Hu Hp. unfold parse_args_py. by rewrite parse_cgi. Qed.

(** A form with both fields for an existing account: the redirect headers
    are printed, then the arguments parsed and the Mailpile started under
    the bare [except:]. *)
Lemma handle_cgi_post_run (form : list (string * string)) (u p : string) (w : world) :
  getfirst form "username" = Some u -> getfirst form "password" = Some p ->
  u <> "" -> p <> "" -> is_Some (List.find (fun e => String.eqb (fst e) u) (w_passwd w)) ->
  handle_cgi_post form w =
  try_except (a <- parse_args_py help_text (cgi_argv u p) ;; start_mailpile a)
    (fun _ => cgi_error_headers) (set_out (w_out w ++ cgi_redirect u) w).
Proof.
  intros Hu Hp Hu0 Hp0 [[n uid] Hfind].
  unfold handle_cgi_post, try_except, bind at 1, py_assert. cbv zeta. rewrite Hu, Hp.
  assert (Ht : forall s, s <> "" -> truthy (Some s) = true)
    by (intros s Hs'; unfold truthy; destruct (String.eqb_spec s ""); [congruence|reflexivity]).
  rewrite !Ht by assumption. cbn [andb]. unfold ret at 1. cbv beta iota.
  change (default "" (Some u)) with u. change (default "" (Some p)) with p.
  assert (Hg : getpwnam u w = (Ok (snd (n, uid)), w)) by (unfold getpwnam; by rewrite Hfind).
  py_run Hg. do 3 rewrite (bind_Ok _ _ _ _ _ (py_print_run _ _)).
  by rewrite ?w_out_set_out, ?set_out_set_out, <-?app_assoc.
Qed.

(** A password that argparse does not read as a value leaves
    [--password] without one: [parse_args] fails. *)
Lemma parse_cgi_dash (u p : string) :
  startswith u "-" = false -> startswith p "-" = true -> String.length p <> 1 ->
  neg_number p = false -> str_mem " " p = false ->
  parse_args (cgi_argv u p) = PError.
Proof.
  intros Hu Hd Hl Hn Hs. unfold parse_args, cgi_argv. cbn [classify_all].
  destruct (String.eqb_spec u "--") as [->|_]; [by vm_compute in Hu|].
  rewrite (classify_plain u Hu).
  destruct (String.eqb_spec p "--") as [->|_]; [reflexivity|].
  pose proof (classify_dash_not_arg p Hd Hl Hn Hs) as Hc.
  destruct (classify p) as [[] |e]; first [congruence|reflexivity].
Qed.

Lemma cgi_error_headers_run w :
  cgi_error_headers w = (Ok tt, set_out (w_out w ++ cgi_error) w).
Proof. unfold cgi_error_headers, py_print, modify_st, bind. cbn. by rewrite <-?app_assoc. Qed.

(** C32: A form without a user name or a password gets the error redirect
    and nothing else: no external program, no file, no other line. *)
Theorem cgi_missing_field (form : list (string * string)) (w : world) :
  truthy (getfirst form "username") && truthy (getfirst form "password") = false ->
  handle_cgi_post form w = (Ok tt, set_out (w_out w ++ cgi_error) w).
Proof.
  intros Hf. unfold handle_cgi_post, try_except, bind at 1, py_assert. cbv zeta.
  rewrite Hf. apply cgi_error_headers_run.
Qed.

(** C29: when [start_mailpile] raises after the redirect headers were
    printed (for instance [OSError] from [save_htaccess] on a fresh
    install), the bare [except:] prints the error headers as well: the
    response carries the redirect to the user's Mailpile, then whatever
    [start_mailpile] printed, then a second [Location] header.  The
    specification promises the redirect on success or the error redirect
    on an exception, not both. *)
Theorem cgi_error_after_redirect (form : list (string * string)) (u p : string) (e : exn)
    (w w1 : world) :
  getfirst form "username" = Some u -> getfirst form "password" = Some p ->
  u <> "" -> p <> "" -> startswith u "-" = false -> startswith p "-" = false ->
  is_Some (List.find (fun e => String.eqb (fst e) u) (w_passwd w)) ->
  start_mailpile (cgi_start_args u p) (set_out (w_out w ++ cgi_redirect u) w) = (Exc e, w1) ->
  handle_cgi_post form w = (Ok tt, set_out (w_out w1 ++ cgi_error) w1) /\
  prefix (w_out w ++ cgi_redirect u)%list (w_out w1).
Proof.
  intros Hu Hp Hu0 Hp0 Hsu Hsp Hacc Hs. split.
  - rewrite (handle_cgi_post_run form u p w) by assumption. unfold try_except.
    rewrite (parse_cgi_py u p Hsu Hsp), bind_ret_l, Hs. apply cgi_error_headers_run.
  - pose proof (out_mono_start_mailpile (cgi_start_args u p) (w_out w ++ cgi_redirect u)%list
                  (set_out (w_out w ++ cgi_redirect u)%list w)) as Hm.
    rewrite Hs in Hm. apply Hm. unfold out_ext. done.
Qed.

(** C30: a password that starts with a dash and that argparse does not
    take for a value (it is not a lone dash, not a negative number and
    has no space: [-secret], [-h], [--], [--port]), posted with the name
    of an existing account, gets the redirect to the user's Mailpile and
    then the error redirect: argparse exits with status 2, the bare
    [except:] catches the [SystemExit], and no Mailpile is started:
    nothing but these six lines is changed. *)
Theorem cgi_option_password (form : list (string * string)) (u p : string) (w : world) :
  getfirst form "username" = Some u -> getfirst form "password" = Some p ->
  u <> "" -> startswith u "-" = false ->
  startswith p "-" = true -> String.length p <> 1 -> neg_number p = false -> str_mem " " p = false ->
  is_Some (List.find (fun e => String.eqb (fst e) u) (w_passwd w)) ->
  handle_cgi_post form w = (Ok tt, set_out (w_out w ++ cgi_redirect u ++ cgi_error) w).
Proof.
  intros Hu Hp Hu0 Hsu Hd Hl Hn Hs Hacc.
  assert (Hp0 : p <> "") by (intros ->; discriminate Hd).
  rewrite (handle_cgi_post_run form u p w) by assumption. unfold try_except.
  unfold parse_args_py. rewrite (parse_cgi_dash u p Hsu Hd Hl Hn Hs).
  rewrite (bind_Exc (raise (SystemExit 2)) _ _ (SystemExit 2) _ eq_refl), cgi_error_headers_run.
  by rewrite w_out_set_out, set_out_set_out, <-app_assoc.
Qed.

(** The script's output only grows: whatever the arguments, the
    posted form, the world and the behaviour of the external programs,
    running the script keeps every line printed before and only appends,
    on normal termination and on an exception alike.  In particular a
    CGI response's headers, once printed, are never taken back. *)
Theorem script_output_append_only (request_method : option string) (argc : nat)
    (form : list (string * string)) (argv : list string) (w : world) :
  prefix (w_out w) (w_out (snd (script_entry request_method argc form argv w))).
Proof.
  assert (Hm : out_mono (script_entry request_method argc form argv))
    by (unfold script_entry, main; out_mono_tac).
  apply (Hm (w_out w) w). unfold out_ext. done.
Qed.

End Entry.

(** The first line of what [-h] prints. *)
Definition ex_help : string :=
  "usage: mailpile-admin.py [-h] (--list | --start | --stop | --install-apache) ...".

Lemma cgi_missing_field_witness :
  handle_cgi_post (H := ex_fail_shell) ex_help [("username", "alice")] ex_world =
  (Ok tt, set_out (w_out ex_world ++ cgi_error) ex_world).
Proof. apply cgi_missing_field. reflexivity. Defined.

(** A fresh install: no .htaccess yet; alice has an account. *)
Definition ex_cgi_world : world :=
  {| w_files := ∅; w_ps := w_ps ex_world; w_netstat := w_netstat ex_world; w_out := [];
     w_rand := w_rand ex_world; w_rand_next := 0; w_uid := 33%Z;
     w_passwd := [("alice", 1000%Z)]; w_hostname := "host"; w_cmds := [];
     w_realpath := fun p => p; w_file := w_file ex_world; w_argv0 := w_argv0 ex_world; w_sys := sys0 |}.

Definition ex_cgi_form : list (string * string) := [("username", "alice"); ("password", "secret")].

Lemma cgi_error_after_redirect_witness :
  let w0 := set_out (w_out ex_cgi_world ++ cgi_redirect "alice") ex_cgi_world in
  let w1 := snd (start_mailpile (H := ex_fail_shell) (cgi_start_args "alice" "secret") w0) in
  handle_cgi_post (H := ex_fail_shell) ex_help ex_cgi_form ex_cgi_world =
    (Ok tt, set_out (w_out w1 ++ cgi_error) w1) /\
  prefix (w_out ex_cgi_world ++ cgi_redirect "alice")%list (w_out w1).
Proof.
  intros w0 w1.
  assert (He : fst (start_mailpile (H := ex_fail_shell) (cgi_start_args "alice" "secret") w0)
               = Exc OSError) by vm_decide.
  assert (Hs : start_mailpile (H := ex_fail_shell) (cgi_start_args "alice" "secret") w0
               = (Exc OSError, w1))
    by (unfold w1; rewrite <-He; apply surjective_pairing).
  refine (cgi_error_after_redirect (H := ex_fail_shell) ex_help ex_cgi_form "alice" "secret" OSError
            ex_cgi_world w1 _ _ _ _ _ _ _ Hs);
    [reflexivity|reflexivity|discriminate|discriminate|reflexivity|reflexivity|eexists; reflexivity].
Defined.

Lemma cgi_option_password_witness :
  handle_cgi_post (H := ex_fail_shell) ex_help [("username", "alice"); ("password", "-secret")] ex_cgi_world =
  (Ok tt, set_out (w_out ex_cgi_world ++ cgi_redirect "alice" ++ cgi_error) ex_cgi_world).
Proof.
  apply (cgi_option_password (H := ex_fail_shell) ex_help _ "alice" "-secret");
    [reflexivity|reflexivity|discriminate|reflexivity|reflexivity|discriminate|reflexivity|reflexivity
    |eexists; reflexivity].
Defined.
